(** * rag-101: a shallow embedding of the note-taking and QA pipeline

    The TypeScript sources under [api/src] are transcribed function by
    function.  Calls that leave the repository (the HTTP client, the PDF
    loader, the vector index, the chat model, the hosted database) are
    represented by the answers they give, collected in the record [env];
    everything the repository itself computes is a Rocq function.

    Conventions
    - strings are sequences of 8-bit code units;
    - JavaScript numbers are exact integers ([Z]) or [NaN]; the sources only
      produce page numbers and array indices, far below 2^53;
    - a file holds a [content]: text is seen through [JSON.parse], so a file
      is blank, holds the serialisation of a value, holds a PDF, or holds
      text that does not parse;
    - [writeFileSync] and [mkdirSync] find their parent directory in place. *)

From Stdlib Require Import ZArith Lia Ascii String Decimal DecimalString DecimalPos Sorted.
From stdpp Require Import base option list strings gmap.

Local Open Scope Z_scope.
Set Warnings "-register-all".

(** ** JavaScript strings and numbers *)

Module Js.

(** A JavaScript number as far as the sources use them. *)
Inductive jsnum :=
| NaN
| Num (z : Z).

Definition code (c : ascii) : N := N_of_ascii c.

(** WhiteSpace and LineTerminator code units below 256. *)
Definition is_ws (c : ascii) : bool :=
  match code c with
  | 9%N | 10%N | 11%N | 12%N | 13%N | 32%N | 160%N => true
  | _ => false
  end.

(** LineTerminator code units below 256: what [.] refuses in a regular
    expression without the [s] flag. *)
Definition is_line_terminator (c : ascii) : bool :=
  match code c with
  | 10%N | 13%N => true
  | _ => false
  end.

Fixpoint all_chars (P : ascii → bool) (s : string) : bool :=
  match s with
  | EmptyString => true
  | String c r => P c && all_chars P r
  end.

Fixpoint trimStart (s : string) : string :=
  match s with
  | EmptyString => EmptyString
  | String c r => if is_ws c then trimStart r else s
  end.

Fixpoint trimEnd (s : string) : string :=
  match s with
  | EmptyString => EmptyString
  | String c r =>
      match trimEnd r with
      | EmptyString => if is_ws c then EmptyString else String c EmptyString
      | r' => String c r'
      end
  end.

(** [String.prototype.trim] *)
Definition trim (s : string) : string := trimEnd (trimStart s).

(** [String.prototype.startsWith] *)
Definition startsWith (s p : string) : bool := String.prefix p s.

(** [String.prototype.endsWith]: the last [length suffix] code units of
    [s] are [suffix]. *)
Definition endsWith (s suffix : string) : bool :=
  let n := String.length s in
  let m := String.length suffix in
  (m <=? n)%nat && String.eqb (String.substring (n - m) m s) suffix.

(** [s.split(",")] *)
Fixpoint split_comma (s : string) : list string :=
  match s with
  | EmptyString => [EmptyString]
  | String c r =>
      if Ascii.eqb c ","%char then EmptyString :: split_comma r
      else match split_comma r with
           | [] => [String c EmptyString]
           | h :: t => String c h :: t
           end
  end.

(** [arr.join(sep)] on strings *)
Definition join (sep : string) (l : list string) : string := String.concat sep l.

(** Value of a digit in the given radix (10 or 16 here). *)
Definition digit_of (radix : Z) (c : ascii) : option Z :=
  let n := Z.of_N (code c) in
  let v :=
    if (48 <=? n) && (n <=? 57) then Some (n - 48)
    else if (97 <=? n) && (n <=? 122) then Some (n - 87)
    else if (65 <=? n) && (n <=? 90) then Some (n - 55)
    else None in
  match v with
  | Some d => if d <? radix then Some d else None
  | None => None
  end.

Definition is_decimal (c : ascii) : bool :=
  match digit_of 10 c with
  | Some _ => true
  | None => false
  end.

(** The longest prefix of digits, read in the radix. *)
Fixpoint parse_digits (radix : Z) (s : string) (acc : Z) : Z :=
  match s with
  | EmptyString => acc
  | String c r =>
      match digit_of radix c with
      | Some d => parse_digits radix r (radix * acc + d)
      | None => acc
      end
  end.

Definition parse_radix (radix : Z) (s : string) : jsnum :=
  match s with
  | EmptyString => NaN
  | String c _ =>
      match digit_of radix c with
      | Some _ => Num (parse_digits radix s 0)
      | None => NaN
      end
  end.

Definition negate (n : jsnum) : jsnum :=
  match n with
  | NaN => NaN
  | Num z => Num (- z)
  end.

(** After the sign: an optional [0x] or [0X] selects radix 16. *)
Definition parse_unsigned (s : string) : jsnum :=
  if String.prefix "0x" s || String.prefix "0X" s
  then parse_radix 16 (String.substring 2 (String.length s - 2) s)
  else parse_radix 10 s.

(** [Number.MAX_SAFE_INTEGER]: up to it every integer is a double, and the
    code's numbers are the integers written here. *)
Definition MAX_SAFE_INTEGER : Z := 2 ^ 53 - 1.

(** [parseInt(s)] with no radix argument, as long as the integer read is at
    most [MAX_SAFE_INTEGER]; beyond it the code rounds to a double. *)
Definition parseInt (s : string) : jsnum :=
  match trimStart s with
  | String "-"%char r => negate (parse_unsigned r)
  | String "+"%char r => parse_unsigned r
  | s' => parse_unsigned s'
  end.

(** [Number.prototype.toString] on an integer. *)
Definition show (z : Z) : string :=
  match z with
  | Z0 => "0"
  | Zpos p => NilEmpty.string_of_uint (Pos.to_uint p)
  | Zneg p => String "-"%char (NilEmpty.string_of_uint (Pos.to_uint p))
  end.

End Js.

(** ** JavaScript values, JSON text and thrown errors *)

(** What a call gives back: a value, or a thrown error (its message). *)
Inductive outcome (A : Type) :=
| Return (a : A)
| Throw (msg : string).
Arguments Return {A} a.
Arguments Throw {A} msg.

(** [true] on [Some]. *)
Definition defined {A} (o : option A) : bool :=
  match o with
  | Some _ => true
  | None => false
  end.

Definition obind {A B} (m : outcome A) (k : A → outcome B) : outcome B :=
  match m with
  | Return a => k a
  | Throw e => Throw e
  end.

Notation "'try!' x := m 'in' k" := (obind m (λ x, k))
  (at level 10, x name, m at level 100, k at level 200, only parsing).

Module Json.

(** Values as [JSON.parse] builds them, plus [undefined], which property
    access on a missing member yields. *)
Inductive json :=
| JUndefined
| JNull
| JBool (b : bool)
| JNum (z : Z)
| JStr (s : string)
| JArr (items : list json)
| JObj (fields : list (string * json)).

Definition TypeError : string := "TypeError".
Definition SyntaxError : string := "SyntaxError".

(** ToBoolean *)
Definition truthy (v : json) : bool :=
  match v with
  | JUndefined | JNull => false
  | JBool b => b
  | JNum z => negb (z =? 0)
  | JStr s => negb (String.eqb s "")
  | JArr _ | JObj _ => true
  end.

Fixpoint assoc (key : string) (fields : list (string * json)) : option json :=
  match fields with
  | [] => None
  | (k, v) :: r => if String.eqb k key then Some v else assoc key r
  end.

(** [{ ...obj, key: v }]: the own members of [obj] with [key] set. *)
Fixpoint set_field (key : string) (v : json) (fields : list (string * json))
  : list (string * json) :=
  match fields with
  | [] => [(key, v)]
  | (k, x) :: r =>
      if String.eqb k key then (k, v) :: r else (k, x) :: set_field key v r
  end.

(** [obj[key] = v] on a plain object: the key [__proto__] reaches the setter
    of [Object.prototype], which changes the prototype or nothing, and the
    object's own members stay as they are. *)
Definition assign (key : string) (v : json) (fields : list (string * json))
  : list (string * json) :=
  if String.eqb key "__proto__" then fields else set_field key v fields.

(** The element whose index prints as [key]. *)
Fixpoint index_named {A} (key : string) (i : Z) (l : list A) : option A :=
  match l with
  | [] => None
  | x :: r => if String.eqb key (Js.show i) then Some x else index_named key (i + 1) r
  end.

Definition chars (s : string) : list json :=
  map (λ c, JStr (String c EmptyString)) (list_ascii_of_string s).

(** [v[key]] for the member names the sources use (own members, [length]
    and indices; members inherited from prototypes are not modelled). *)
Definition get (v : json) (key : string) : outcome json :=
  match v with
  | JUndefined | JNull => Throw TypeError
  | JObj fields => Return (default JUndefined (assoc key fields))
  | JArr items =>
      if String.eqb key "length" then Return (JNum (Z.of_nat (length items)))
      else Return (default JUndefined (index_named key 0 items))
  | JStr s =>
      if String.eqb key "length" then Return (JNum (Z.of_nat (String.length s)))
      else Return (default JUndefined (index_named key 0 (chars s)))
  | JBool _ | JNum _ => Return JUndefined
  end.

(** [v?.key] *)
Definition get_opt (v : json) (key : string) : outcome json :=
  match v with
  | JUndefined | JNull => Return JUndefined
  | _ => get v key
  end.

(** [v.hasOwnProperty(key)]: an own member named [hasOwnProperty] hides the
    method, and no value of this type can be called. *)
Definition hasOwnProperty (v : json) (key : string) : outcome bool :=
  match v with
  | JUndefined | JNull => Throw TypeError
  | JObj fields =>
      if defined (assoc "hasOwnProperty" fields) then Throw TypeError
      else Return (defined (assoc key fields))
  | JArr items =>
      Return (String.eqb key "length" || defined (index_named key 0 items))
  | JStr s =>
      Return (String.eqb key "length" || defined (index_named key 0 (chars s)))
  | JBool _ | JNum _ => Return false
  end.

(** [Object.keys(v)] *)
Definition Object_keys (v : json) : outcome (list string) :=
  match v with
  | JUndefined | JNull => Throw TypeError
  | JObj fields => Return (map fst fields)
  | JArr items => Return (imap (λ i _, Js.show (Z.of_nat i)) items)
  | JStr s => Return (imap (λ i _, Js.show (Z.of_nat i)) (list_ascii_of_string s))
  | JBool _ | JNum _ => Return []
  end.

(** [Array.isArray(v)] *)
Definition isArray (v : json) : bool :=
  match v with
  | JArr _ => true
  | _ => false
  end.

(** [[...v]] *)
Definition spread (v : json) : outcome (list json) :=
  match v with
  | JArr items => Return items
  | JStr s => Return (chars s)
  | _ => Throw TypeError
  end.

(** [arr.some(el => el.hasOwnProperty(key))] *)
Fixpoint some_hasOwn (key : string) (l : list json) : outcome bool :=
  match l with
  | [] => Return false
  | el :: r =>
      try! b := hasOwnProperty el key in
      if b then Return true else some_hasOwn key r
  end.

(** [arr.find(el => el.hasOwnProperty(key))] *)
Fixpoint find_hasOwn (key : string) (l : list json) : outcome json :=
  match l with
  | [] => Return JUndefined
  | el :: r =>
      try! b := hasOwnProperty el key in
      if b then Return el else find_hasOwn key r
  end.

(** [v.some(...)] and [v.find(...)] on a parsed value: only arrays have
    these methods. *)
Definition some_own (v : json) (key : string) : outcome bool :=
  match v with
  | JArr items => some_hasOwn key items
  | _ => Throw TypeError
  end.

Definition find_own (v : json) (key : string) : outcome json :=
  match v with
  | JArr items => find_hasOwn key items
  | _ => Throw TypeError
  end.

(** [arr.flat()]: one level. *)
Definition flat (l : list json) : list json :=
  flat_map (λ x, match x with JArr ys => ys | _ => [x] end) l.

(** What [JSON.stringify] keeps of a value: members holding [undefined]
    are dropped, [undefined] array elements become [null]. *)
Fixpoint normalize (v : json) : json :=
  match v with
  | JArr items =>
      JArr (map (λ x, match x with JUndefined => JNull | _ => normalize x end) items)
  | JObj fields =>
      JObj (flat_map (λ kv, let '(k, x) := kv in
                            match x with
                            | JUndefined => []
                            | _ => [(k, normalize x)]
                            end) fields)
  | _ => v
  end.

(** JSON data proper: no [undefined] anywhere. *)
Fixpoint is_json (v : json) : bool :=
  match v with
  | JUndefined => false
  | JArr items => forallb is_json items
  | JObj fields => forallb (λ kv, is_json (snd kv)) fields
  | _ => true
  end.

(** Induction on values, through the elements of arrays and the members of
    objects. *)
Section Induction.
Context (P : json → Prop).
Context (HUndefined : P JUndefined) (HNull : P JNull)
  (HBool : ∀ b, P (JBool b)) (HNum : ∀ z, P (JNum z)) (HStr : ∀ s, P (JStr s))
  (HArr : ∀ items, Forall P items → P (JArr items))
  (HObj : ∀ fields, Forall (λ kv, P (snd kv)) fields → P (JObj fields)).

Fixpoint json_induction (v : json) : P v :=
  match v with
  | JUndefined => HUndefined
  | JNull => HNull
  | JBool b => HBool b
  | JNum z => HNum z
  | JStr s => HStr s
  | JArr items =>
      HArr items
        ((fix go (l : list json) : Forall P l :=
            match l with
            | [] => @List.Forall_nil _ P
            | x :: r => @List.Forall_cons _ P x r (json_induction x) (go r)
            end) items)
  | JObj fields =>
      HObj fields
        ((fix go (l : list (string * json)) : Forall (λ kv, P (snd kv)) l :=
            match l with
            | [] => @List.Forall_nil _ (λ kv, P (snd kv))
            | (k, x) :: r =>
                @List.Forall_cons _ (λ kv, P (snd kv)) (k, x) r (json_induction x) (go r)
            end) fields)
  end.

End Induction.

(** What [JSON.stringify] makes of an array element. *)
Definition element (x : json) : json :=
  match x with
  | JUndefined => JNull
  | _ => normalize x
  end.

(** The bytes of a file or of a string, seen through [JSON.parse]. *)
Inductive content :=
| Blank                        (* the empty string *)
| Garbled                      (* non-empty text that is not JSON *)
| Encoded (v : json)           (* the serialisation of [v] *)
| PdfBytes (pages : list string). (* a PDF document with these pages *)

Definition JSON_parse (c : content) : outcome json :=
  match c with
  | Encoded v => Return v
  | _ => Throw SyntaxError
  end.

Definition JSON_stringify (v : json) : content := Encoded (normalize v).

(** [text === ``] *)
Definition is_blank (c : content) : bool :=
  match c with
  | Blank => true
  | _ => false
  end.

(** [v !== s] for a string [s] *)
Definition differs_from_string (v : json) (s : string) : bool :=
  match v with
  | JStr t => negb (String.eqb t s)
  | _ => true
  end.

End Json.
Import Json.

(** ** path.basename (POSIX) *)

Module Path.

Fixpoint drop_slashes (s : string) : string :=
  match s with
  | String "/"%char r => drop_slashes r
  | _ => s
  end.

Fixpoint until_slash (s : string) : string :=
  match s with
  | EmptyString => EmptyString
  | String c r => if Ascii.eqb c "/"%char then EmptyString else String c (until_slash r)
  end.

Definition basename (p : string) : string :=
  String.rev (until_slash (drop_slashes (String.rev p))).

End Path.


(** ** Documents, model messages, database rows *)

Abbreviation page := string (only parsing).

(** A langchain [Document]. *)
Record document := {
  pageContent : string;
  metadata : list (string * json);
}.

Definition newline : string := String (ascii_of_nat 10) EmptyString.

(** langchain's [formatDocumentsAsString]: the page contents, separated by a
    blank line. *)
Definition formatDocumentsAsString (docs : list document) : string :=
  Js.join (newline +:+ newline) (map pageContent docs).

(** One entry of [output.additional_kwargs.tool_calls]; [arguments] is the
    text of [call.function.arguments]. *)
Record toolCall := { arguments : content }.

(** A [BaseMessageChunk], as far as the parsers read it. *)
Record message := { tool_calls : option (list toolCall) }.

Module Row.
(** A row of [arxiv_papers]. *)
Record arxiv_papers := {
  paper : string;
  arxiv_url : string;
  notes : json;
  name : string;
}.
(** A row of [arxiv_question_answering]. *)
Record arxiv_question_answering := {
  question : string;
  answer : json;
  followup_questions : json;
  context : string;
}.
End Row.

(** ** The outside world *)

(** Calls that leave the process, in the order they are made. *)
Inductive call :=
| FetchPdf (url : string)            (* axios.get *)
| SplitPdf                           (* PDFLoader.loadAndSplit *)
| EmbedDocuments                     (* HNSWLib.fromDocuments, vectorStore.addDocuments *)
| LoadIndex (dir : string)           (* HNSWLib.load *)
| SaveIndex (dir : string)           (* vectorStore.save *)
| Retrieve (question : string)       (* retriever.getRelevantDocuments *)
| SimilaritySearch (question : string)
| AskNotesModel                      (* NOTE_PROMPT | model *)
| AskQaModel (question : string).    (* QA_OVER_PAPER_PROMPT | model *)

Definition is_model_call (c : call) : bool :=
  match c with
  | AskNotesModel | AskQaModel _ => true
  | _ => false
  end.

(** The answers of the collaborators; [None] and [false] stand for a
    rejected promise or a thrown error. *)
Record env := {
  now : string;                               (* new Date().toISOString() *)
  supabase_error : option string;             (* missing key or URL, unreachable index *)
  select_answers : bool;                      (* the client answers a select with data *)
  insert_answers : bool;                      (* the client carries out an insert *)
  axios_get : string → option content;
  loadAndSplit : content → option (list document);
  embeds : list document → bool;
  index_loads : string → bool;
  index_saves : string → bool;
  getRelevantDocuments : string → option (list document);
  similaritySearch : string → string → option (list document);
  notes_model : string → option message;
  qa_model : string → string → string → option message;
}.

Inductive node :=
| File (c : content)
| Dir.

(** Everything the program can change. *)
Record world := {
  fs : gmap string node;
  papers_table : list Row.arxiv_papers;
  qa_table : list Row.arxiv_question_answering;
  calls : list call;
}.

Definition with_fs (f : gmap string node) (w : world) : world :=
  {| fs := f; papers_table := papers_table w; qa_table := qa_table w; calls := calls w |}.
Definition with_papers (t : list Row.arxiv_papers) (w : world) : world :=
  {| fs := fs w; papers_table := t; qa_table := qa_table w; calls := calls w |}.
Definition with_qa (t : list Row.arxiv_question_answering) (w : world) : world :=
  {| fs := fs w; papers_table := papers_table w; qa_table := t; calls := calls w |}.
Definition with_calls (l : list call) (w : world) : world :=
  {| fs := fs w; papers_table := papers_table w; qa_table := qa_table w; calls := l |}.

(** ** Computations: state passing with exceptions

    A thrown error keeps the changes made before it. *)
Definition M (A : Type) : Type := world → outcome A * world.

Definition ret {A} (a : A) : M A := λ w, (Return a, w).
Definition throw {A} (e : string) : M A := λ w, (Throw e, w).
Definition lift {A} (o : outcome A) : M A := λ w, (o, w).
Definition bind {A B} (m : M A) (k : A → M B) : M B :=
  λ w, match m w with
       | (Return a, w') => k a w'
       | (Throw e, w') => (Throw e, w')
       end.
(** [try { m } catch (error) { h error }] *)
Definition catch {A} (m : M A) (h : string → M A) : M A :=
  λ w, match m w with
       | (Throw e, w') => h e w'
       | r => r
       end.
Definition record_call (c : call) : M unit :=
  λ w, (Return (), with_calls (calls w ++ [c]) w).

Notation "'let!' x := m 'in' k" := (bind m (λ x, k))
  (at level 10, x name, m at level 100, k at level 200, only parsing).
Notation "m ;;; k" := (bind m (λ _, k))
  (at level 100, k at level 200, right associativity, only parsing).

Fixpoint map_outcome {A B} (f : A → outcome B) (l : list A) : outcome (list B) :=
  match l with
  | [] => Return []
  | x :: r =>
      try! y := f x in
      try! ys := map_outcome f r in
      Return (y :: ys)
  end.

(** ** fs *)

Module Fs.

Definition existsSync (p : string) : M bool :=
  λ w, (Return (defined (fs w !! p)), w).

Definition readFileSync (p : string) : M content :=
  λ w, match fs w !! p with
       | Some (File c) => (Return c, w)
       | Some Dir => (Throw "EISDIR", w)
       | None => (Throw "ENOENT", w)
       end.

(** Writing fails on a directory; the directory the path lies in is taken
    to be there (see the conventions). *)
Definition writeFileSync (p : string) (c : content) : M unit :=
  λ w, match fs w !! p with
       | Some Dir => (Throw "EISDIR", w)
       | _ => (Return (), with_fs (<[p := File c]> (fs w)) w)
       end.

(** Making a directory fails on a path in use; the directory it lies in is
    taken to be there. *)
Definition mkdirSync (p : string) : M unit :=
  λ w, match fs w !! p with
       | Some _ => (Throw "EEXIST", w)
       | None => (Return (), with_fs (<[p := Dir]> (fs w)) w)
       end.

End Fs.

(** What the lookups in the storage files can throw. *)
Definition runtime_error (m : string) : Prop :=
  m = "EISDIR"%string ∨ m = "ENOENT"%string ∨ m = SyntaxError ∨ m = TypeError.

(** ** notes/prompt.ts and qa/prompt.ts: the output parsers *)

Module Prompt.

Definition missing_tool_calls : string := "Missing 'tool_calls' in notes output".

(** The tool call carries an object whose [notes] member is the array [ns]. *)
Definition carries_notes (call : toolCall) (ns : list json) : Prop :=
  ∃ fields, arguments call = Encoded (JObj fields) ∧ assoc "notes" fields = Some (JArr ns).

(** The tool call carries the object with these members. *)
Definition carries_object (call : toolCall) (fields : list (string * json)) : Prop :=
  arguments call = Encoded (JObj fields).

(** [outputParser] *)
Definition outputParser (output : message) : outcome (list json) :=
  let toolCalls := tool_calls output in
  match toolCalls with
  | None => Throw missing_tool_calls
  | Some toolCalls =>
      try! notes :=
        map_outcome (λ call,
          try! parsed := JSON_parse (arguments call) in
          get parsed "notes") toolCalls in
      Return (flat notes)
  end.

(** The input variables of [QA_OVER_PAPER_PROMPT]: the placeholders of
    [SYSTEM_MESSAGE2] and of the human message. *)
Definition QA_OVER_PAPER_PROMPT : list string :=
  ["notes"; "relevantDocuments"; "question"]%string.

(** Formatting a prompt: every input variable needs a value. *)
Definition format_prompt (variables : list string) (values : list (string * string))
  : outcome unit :=
  match List.find (λ name, negb (existsb (String.eqb name) (map fst values))) variables with
  | Some name => Throw ("Missing value for input variable " +:+ name)
  | None => Return ()
  end.

(** [answerOutputParser] *)
Definition answerOutputParser (output : message) : outcome (list json) :=
  let toolCalls := tool_calls output in
  match toolCalls with
  | None => Throw missing_tool_calls
  | Some toolCalls =>
      try! parsed := map_outcome (λ call, JSON_parse (arguments call)) toolCalls in
      Return (flat parsed)
  end.

End Prompt.

(** ** database.ts: the hosted store *)

Module SupabaseDatabase.

(** The rows [.eq("arxiv_url", url)] selects. *)
Definition matching (url : string) (t : list Row.arxiv_papers) : list Row.arxiv_papers :=
  filter (λ row, String.eqb (Row.arxiv_url row) url = true) t.

(** No two rows of [arxiv_papers] have the same URL. *)
Definition urls_unique (t : list Row.arxiv_papers) : Prop :=
  NoDup (map Row.arxiv_url t).

Section WithEnv.
Context (e : env).

(** What the client answers: [{ data, error }]. *)
Record response (A : Type) := { data : option (list A); error : bool }.
Arguments data {A} _.
Arguments error {A} _.

Definition select {A} (table : list A) (eq : A → bool) : response A :=
  if select_answers e
  then {| data := Some (filter (λ r, eq r = true) table); error := false |}
  else {| data := None; error := true |}.

(** [fromExistingIndex]: logs and rethrows. *)
Definition fromExistingIndex : M unit :=
  catch
    (match supabase_error e with
     | Some msg => throw msg
     | None => ret ()
     end)
    (λ error, throw error).

(** [addPaper] *)
Definition addPaper (paper url : string) (notes : json) (name : string) : M unit :=
  catch
    (λ w, if insert_answers e
          then (Return (),
                with_papers (papers_table w ++
                  [{| Row.paper := paper; Row.arxiv_url := url;
                      Row.notes := notes; Row.name := name |}]) w)
          else (Return (), w))
    (λ error, throw ("Error adding paper to database" +:+ error)).

(** [getPaper] *)
Definition getPaper (url : string) : M (option Row.arxiv_papers) :=
  catch
    (λ w,
       let r := select (papers_table w) (λ row, String.eqb (Row.arxiv_url row) url) in
       if error r || negb (defined (data r))
       then (Return None, w)
       else
         (* console.log(data[0].name); return data[0] *)
         match data r with
         | Some (row :: _) => (Return (Some row), w)
         | _ => (Throw TypeError, w)
         end)
    (λ error, throw error).

(** [rtrnExistingQa]: [data?.[0]] *)
Definition rtrnExistingQa (question : string) : M (option Row.arxiv_question_answering) :=
  catch
    (λ w,
       let r := select (qa_table w) (λ row, String.eqb (Row.question row) question) in
       (Return (match data r with
                | Some (row :: _) => Some row
                | _ => None
                end), w))
    (λ error, throw error).

(** [saveQa] *)
Definition saveQa (question : string) (answer : json) (context : string)
    (followupQuestions : json) : M unit :=
  catch
    (λ w, if insert_answers e
          then (Return (),
                with_qa (qa_table w ++
                  [{| Row.question := question; Row.answer := answer;
                      Row.followup_questions := followupQuestions;
                      Row.context := context |}]) w)
          else (Return (), w))
    (λ error, throw error).

End WithEnv.
End SupabaseDatabase.

(** ** hnsw-store.ts: the JSON files under local_storage and generated_notes *)

Module HnswStore.

(** A record under [url]: an object with [url] among its own members. *)
Definition holds (url : string) (el : json) : bool :=
  match el with
  | JObj fields => defined (assoc url fields)
  | _ => false
  end.

Definition holders (url : string) (items : list json) : list json :=
  filter (λ el, holds url el = true) items.

(** No URL has two records in the storage array. *)
Definition records_unique (items : list json) : Prop :=
  ∀ url, (length (holders url items) ≤ 1)%nat.

(** The same, for what a path holds: a missing file, or a file that does
    not hold an array, has no records. *)
Definition store_unique (f : option node) : Prop :=
  match f with
  | Some (File (Encoded (JArr items))) => records_unique items
  | _ => True
  end.

Section WithEnv.
Context (e : env).

(** The record kept for a paper:
    [{ paper, name, url, notes, dateCreated }]. *)
Definition paper_record (docs : list document) (url name : string) (notes : list json) : json :=
  JObj [("paper", JStr (formatDocumentsAsString docs));
        ("name", JStr name);
        ("url", JStr url);
        ("notes", JArr notes);
        ("dateCreated", JStr (now e))]%string.

(** [saveToLocalStorage] *)
Definition saveToLocalStorage (storagePath : string) (docs : list document)
    (url name : string) (notes : list json) : M unit :=
  let! present := Fs.existsSync storagePath in
  if negb present then
    let paperObj := JObj [(url, paper_record docs url name notes)] in
    Fs.writeFileSync storagePath (JSON_stringify (JArr [paperObj]))
  else
    let! storageObj := Fs.readFileSync storagePath in
    if negb (is_blank storageObj) then
      let! copyPaperObj := lift (try! parsed := JSON_parse storageObj in spread parsed) in
      let! copyHasUrl := lift (some_hasOwn url copyPaperObj) in
      if negb copyHasUrl then
        let obj := JObj (assign url (paper_record docs url name notes) []) in
        Fs.writeFileSync storagePath (JSON_stringify (JArr (copyPaperObj ++ [obj])))
      else ret ()
    else ret ().

(** The record kept for an answered question. *)
Definition qa_record (question : string) (answer : json) (context : string)
    (followupQuestions : json) : json :=
  JObj [("question", JStr question);
        ("answer", answer);
        ("context", JStr context);
        ("followupQuestions", followupQuestions);
        ("dateCreated", JStr (now e))]%string.

(** [saveQAToLocalStorage] *)
Definition saveQAToLocalStorage (storagePath question : string) (answer : json)
    (context : string) (followupQuestions : json) : M unit :=
  let! present := Fs.existsSync storagePath in
  if negb present then
    Fs.writeFileSync storagePath
      (JSON_stringify (JArr [qa_record question answer context followupQuestions]))
  else
    let! storageObj := Fs.readFileSync storagePath in
    let! old := lift (try! parsed := JSON_parse storageObj in spread parsed) in
    Fs.writeFileSync storagePath
      (JSON_stringify (JArr (old ++ [qa_record question answer context followupQuestions]))).

(** The test written out in [getPaperFromLocalStorage], [mainV2] and
    [qaOnPaperV2]:
    [existsSync(p) && Array.isArray(JSON.parse(readFileSync(p))) &&
     JSON.parse(readFileSync(p)).some(el => el.hasOwnProperty(url))]. *)
Definition has_entry (p url : string) : M bool :=
  let! present := Fs.existsSync p in
  if negb present then ret false else
  let! text := Fs.readFileSync p in
  let! parsed := lift (JSON_parse text) in
  if negb (isArray parsed) then ret false else
  let! text := Fs.readFileSync p in
  let! parsed := lift (JSON_parse text) in
  lift (some_own parsed url).

(** [JSON.parse(readFileSync(p)).find(el => el.hasOwnProperty(url))[url]] *)
Definition read_entry (p url : string) : M json :=
  let! text := Fs.readFileSync p in
  let! parsed := lift (JSON_parse text) in
  let! el := lift (find_own parsed url) in
  lift (get el url).

(** [has_entry] and [read_entry] as functions of what the path holds. *)
Definition entry_present (f : option node) (url : string) : outcome bool :=
  match f with
  | None => Return false
  | Some Dir => Throw "EISDIR"
  | Some (File c) =>
      try! parsed := JSON_parse c in
      if isArray parsed then some_own parsed url else Return false
  end.

Definition entry_of (f : option node) (url : string) : outcome json :=
  match f with
  | None => Throw "ENOENT"
  | Some Dir => Throw "EISDIR"
  | Some (File c) =>
      try! parsed := JSON_parse c in
      try! el := find_own parsed url in
      get el url
  end.

(** [getPaperFromLocalStorage] *)
Definition getPaperFromLocalStorage (url : string) : M json :=
  let storagePath := ("local_storage/" +:+ Path.basename url +:+ "/data.json")%string in
  let! found := has_entry storagePath url in
  if found then read_entry storagePath url
  else ret JNull.

(** [HNSWDatabase.addPaper] *)
Definition addPaper (storagePath : string) (docs : list document) (url name : string)
    (notes : list json) : M unit :=
  let dir := ("local_storage/" +:+ Path.basename url)%string in
  let! present := Fs.existsSync dir in
  (if negb present then Fs.mkdirSync dir else ret ()) ;;;
  saveToLocalStorage storagePath docs url name notes.

(** [HNSWDatabase.getPaper] *)
Definition getPaper (url : string) : M json := getPaperFromLocalStorage url.

(** [HNSWDatabase.saveQA] *)
Definition saveQA (storagePath question : string) (answer : json) (context : string)
    (followupQuestions : json) : M unit :=
  saveQAToLocalStorage storagePath question answer context followupQuestions.

End WithEnv.
End HnswStore.

(** ** notes/index.ts *)

Module Notes.

(** [PDFDocument.load] *)
Definition PDFDocument_load (pdf : content) : outcome (list page) :=
  match pdf with
  | PdfBytes pages => Return pages
  | _ => Throw "Failed to parse PDF document"
  end.

(** [pageNumber - numToOffsetBy] *)
Definition minus (pageNumber : Js.jsnum) (numToOffsetBy : Z) : Js.jsnum :=
  match pageNumber with
  | Js.NaN => Js.NaN
  | Js.Num p => Js.Num (p - numToOffsetBy)
  end.

(** pdf-lib's [removePage]: the index has to lie in [0, pageCount - 1]. *)
Definition removePage (pdfDoc : list page) (index : Js.jsnum) : outcome (list page) :=
  match index with
  | Js.NaN => Throw "index must be a number"
  | Js.Num i =>
      if (0 <=? i) && (i <? Z.of_nat (length pdfDoc))
      then Return (delete (Z.to_nat i) pdfDoc)
      else Throw "index out of range"
  end.

(** The loop of [deletePages]. *)
Fixpoint remove_each (pdfDoc : list page) (numToOffsetBy : Z)
    (pagesToDelete : list Js.jsnum) : outcome (list page) :=
  match pagesToDelete with
  | [] => Return pdfDoc
  | pageNumber :: rest =>
      try! pdfDoc := removePage pdfDoc (minus pageNumber numToOffsetBy) in
      remove_each pdfDoc (numToOffsetBy + 1) rest
  end.

(** The pages of a document, numbered from [first], that are not listed:
    what deleting the listed pages should leave, in the original order. *)
Fixpoint without_pages (listed : list Z) (first : Z) (pages : list page) : list page :=
  match pages with
  | [] => []
  | x :: rest =>
      if bool_decide (first ∈ listed) then without_pages listed (first + 1) rest
      else x :: without_pages listed (first + 1) rest
  end.

(** [`generated_notes/${path.basename(paperUrl)}/data.json`] *)
Definition generated_notes_of (paperUrl : string) : string :=
  "generated_notes/" +:+ Path.basename paperUrl +:+ "/data.json".

(** The file [saveNotesLocally] keeps. *)
Definition notesPath : string := "generated_notes/notes.json".

Definition delete_failed : string := "Failed to delete pages 🩻".

(** The page pdf-lib adds to a document that has none. *)
Definition blank_page : page := EmptyString.

(** [pdfDoc.save()], with [addDefaultPage] left at its default: a document
    without pages is saved with one blank page. *)
Definition save (pdfDoc : list page) : list page :=
  match pdfDoc with
  | [] => [blank_page]
  | _ => pdfDoc
  end.

(** [deletePages] *)
Definition deletePages (pdf : content) (pagesToDelete : list Js.jsnum) : outcome content :=
  match
    (try! pdfDoc := PDFDocument_load pdf in
     try! pdfDoc := remove_each pdfDoc 1 pagesToDelete in
     Return (PdfBytes (save pdfDoc)))
  with
  | Return pdfBytes => Return pdfBytes
  | Throw _ => Throw delete_failed
  end.

(** The regular expression of [mainV2], as the template literal leaves it:
    [^(http|https)://(?!localhost|127.0.0.1)(.*?.pdf)$]
    (the backslashes before the dots are consumed by the template
    literal, so every dot is a wildcard). *)
Definition after_scheme (s : string) : option string :=
  if String.prefix "http://" s then Some (String.substring 7 (String.length s - 7) s)
  else if String.prefix "https://" s then Some (String.substring 8 (String.length s - 8) s)
  else None.

Definition dot (c : ascii) : bool := negb (Js.is_line_terminator c).

(** The lookahead alternative [127.0.0.1]. *)
Definition looks_like_loopback (r : string) : bool :=
  match r with
  | String "1" (String "2" (String "7" (String a (String "0" (String b
      (String "0" (String c (String "1" _)))))))) => dot a && dot b && dot c
  | _ => false
  end.

(** [(.*?.pdf)$]: at least one wildcard character, then [pdf], up to the
    end of the input. *)
Definition wildcard_pdf (r : string) : bool :=
  let n := String.length r in
  (4 <=? n)%nat && Js.endsWith r "pdf" && Js.all_chars dot (String.substring 0 (n - 3) r).

Definition urlRegEx_test (s : string) : bool :=
  match after_scheme s with
  | None => false
  | Some r =>
      negb (String.prefix "localhost" r || looks_like_loopback r) && wildcard_pdf r
  end.

Section WithEnv.
Context (e : env).

Definition fetch_failed : string := "PDF fetching failed 🩻".
Definition conversion_failed : string := "PDF to Document conversion failed 🩻".
Definition notes_failed : string := "Notes generation failed 🩻".
Definition no_braids : string := "AI minus the braids 🩻".
Definition invalid_pdf : string := "Invalid PDF or file path.".

(** [loadPdfFromUrl] *)
Definition loadPdfFromUrl (url : string) : M content :=
  catch
    (record_call (FetchPdf url) ;;;
     match axios_get e url with
     | Some data => ret data
     | None => throw "Network Error"
     end)
    (λ _, throw fetch_failed).

(** [convertPdfToDocuments]; the temporary file under pdfs/ is written and
    removed by the loader's side and is not tracked. *)
Definition convertPdfToDocuments (pdf : content) : M (list document) :=
  catch
    (record_call SplitPdf ;;;
     match loadAndSplit e pdf with
     | Some docs => ret docs
     | None => throw "loadAndSplit"
     end)
    (λ _, throw conversion_failed).

(** [generateNotes] *)
Definition generateNotes (url : string) (documents : list document) : M (list json) :=
  catch
    (let documentAsStr := formatDocumentsAsString documents in
     record_call AskNotesModel ;;;
     match notes_model e documentAsStr with
     | Some output => lift (Prompt.outputParser output)
     | None => throw "model"
     end)
    (λ _, throw notes_failed).

(** [saveNotesLocally] *)
Definition saveNotesLocally (paperUrl : string) (notes : list json) : M unit :=
  let notesObj : list (string * json) := [] in
  let! present := Fs.existsSync notesPath in
  if present then
    let! readNotes := Fs.readFileSync notesPath in
    if is_blank readNotes then
      let notesObj := assign paperUrl (JArr notes) notesObj in
      Fs.writeFileSync notesPath (JSON_stringify (JObj notesObj))
    else
      let! copyNotesObj := lift (JSON_parse readNotes) in
      let! keys := lift (Object_keys copyNotesObj) in
      if existsb (String.eqb paperUrl) keys then ret ()
      else
        let notesObj := assign paperUrl (JArr notes) notesObj in
        Fs.writeFileSync notesPath (JSON_stringify (JObj notesObj))
  else ret ().

(** [{ ...doc, metadata: { ...doc.metadata, url: paperUrl } }] *)
Definition with_url (paperUrl : string) (doc : document) : document :=
  {| pageContent := pageContent doc;
     metadata := set_field "url" (JStr paperUrl) (metadata doc) |}.

(** [pagesToDelete && pagesToDelete.length > 0] *)
Definition some_pages (pagesToDelete : option (list Js.jsnum)) : option (list Js.jsnum) :=
  match pagesToDelete with
  | Some (p :: l) => Some (p :: l)
  | _ => None
  end.

(** [main] *)
Definition main (paperUrl paperName : string) (pagesToDelete : option (list Js.jsnum))
  : M json :=
  catch
    (SupabaseDatabase.fromExistingIndex e ;;;
     if negb (Js.endsWith paperUrl ".pdf") then throw "Invalid paper URL" else
     let! existingPaper := SupabaseDatabase.getPaper e paperUrl in
     match existingPaper with
     | Some existingPaper => ret (Row.notes existingPaper)
     | None =>
         let! pdfAsBuffer := loadPdfFromUrl paperUrl in
         let! pdfAsBuffer :=
           match some_pages pagesToDelete with
           | Some pages => lift (deletePages pdfAsBuffer pages)
           | None => ret pdfAsBuffer
           end in
         let! documents := convertPdfToDocuments pdfAsBuffer in
         let formattedDocs := map (with_url paperUrl) documents in
         let! notes := generateNotes paperUrl documents in
         SupabaseDatabase.addPaper e (formatDocumentsAsString formattedDocs)
           paperUrl (JArr notes) paperName ;;;
         record_call EmbedDocuments ;;;
         (if embeds e formattedDocs then ret () else throw "addDocuments") ;;;
         ret (JArr notes)
     end)
    (λ _, throw no_braids).

(** The test that guards [mainV2]:
    [(!isPdfUrl && !isLocalPdf) || !paperUrl.endsWith(".pdf")]. *)
Definition rejected (w : world) (paperUrl : string) : bool :=
  (negb (urlRegEx_test paperUrl) && negb (defined (fs w !! paperUrl)))
  || negb (Js.endsWith paperUrl ".pdf").

(** The [try] block of [mainV2], with its [catch]. *)
Definition ingest (paperUrl paperName : string) (pagesToDelete : option (list Js.jsnum))
    (isPdfUrl isLocalPdf : bool) (notesPath : string) : M json :=
  catch
    (let! pdfAsBuffer :=
       if isPdfUrl then (let! b := loadPdfFromUrl paperUrl in ret (Some b)) else ret None in
     let! pdfAsBuffer :=
       if isLocalPdf then (let! b := Fs.readFileSync paperUrl in ret (Some b))
       else ret pdfAsBuffer in
     (* pdfAsBuffer! *)
     let! pdfAsBuffer := lift (match pdfAsBuffer with
                               | Some b => Return b
                               | None => Throw TypeError
                               end) in
     let! pdfAsBuffer :=
       match some_pages pagesToDelete with
       | Some pages => lift (deletePages pdfAsBuffer pages)
       | None => ret pdfAsBuffer
       end in
     let! documents := convertPdfToDocuments pdfAsBuffer in
     let formattedDocs := map (with_url paperUrl) documents in
     record_call EmbedDocuments ;;;
     let database := embeds e formattedDocs in
     let vectorStoreDir := ("vector_store/" +:+ Path.basename paperUrl)%string in
     let! present := Fs.existsSync vectorStoreDir in
     (if negb present then
        Fs.mkdirSync vectorStoreDir ;;;
        (if database then ret () else throw TypeError) ;;;
        record_call (SaveIndex vectorStoreDir) ;;;
        (if index_saves e vectorStoreDir then ret () else throw "save")
      else ret ()) ;;;
     let! notes := generateNotes paperUrl documents in
     (if database then
        HnswStore.addPaper e notesPath formattedDocs paperUrl paperName notes
      else throw TypeError) ;;;
     ret (JArr notes))
    (λ _, ret JNull).

(** [mainV2] *)
Definition mainV2 (paperUrl paperName : string) (pagesToDelete : option (list Js.jsnum))
  : M json :=
  let isPdfUrl := urlRegEx_test paperUrl in
  let! isLocalPdf := Fs.existsSync paperUrl in
  if (negb isPdfUrl && negb isLocalPdf) || negb (Js.endsWith paperUrl ".pdf")
  then throw invalid_pdf else
  let notesPath := generated_notes_of paperUrl in
  let! cached := HnswStore.has_entry notesPath paperUrl in
  if cached then
    let! entry := HnswStore.read_entry notesPath paperUrl in
    lift (get entry "notes")
  else
    ingest paperUrl paperName pagesToDelete isPdfUrl isLocalPdf notesPath.

End WithEnv.
End Notes.

(** ** qa/index.ts *)

Module Qa.

(** ToString, as [Array.prototype.join] applies it to the elements. *)
Fixpoint toString (v : json) : string :=
  match v with
  | JUndefined => "undefined"
  | JNull => "null"
  | JBool true => "true"
  | JBool false => "false"
  | JNum z => Js.show z
  | JStr s => s
  | JArr items =>
      Js.join "," (map (λ x, match x with
                             | JUndefined | JNull => EmptyString
                             | _ => toString x
                             end) items)
  | JObj _ => "[object Object]"
  end.

(** [notes.map((note) => note.note).join("\n")] *)
Definition notesAsString (notes : json) : outcome string :=
  match notes with
  | JArr items =>
      try! texts := map_outcome (λ note, get note "note") items in
      Return (Js.join newline (map (λ x, match x with
                                         | JUndefined | JNull => EmptyString
                                         | _ => toString x
                                         end) texts))
  | _ => Throw TypeError
  end.

(** [`vector_store/${path.basename(paperUrl)}`] *)
Definition vector_store_of (paperUrl : string) : string :=
  "vector_store/" +:+ Path.basename paperUrl.

(** [`local_storage/${path.basename(paperUrl)}/data.json`] *)
Definition stored_paper_of (paperUrl : string) : string :=
  "local_storage/" +:+ Path.basename paperUrl +:+ "/data.json".

(** [`local_storage/${path.basename(paperUrl)}/qa_data.json`] *)
Definition qa_data_of (paperUrl : string) : string :=
  "local_storage/" +:+ Path.basename paperUrl +:+ "/qa_data.json".

(** Stored notes for [paperUrl] exist: the storage file holds an array, its
    first element with [paperUrl] among its own members carries a record
    under it, and the record's [notes] are truthy. *)
Definition stored_notes (w : world) (paperUrl : string) (notes : json) : Prop :=
  ∃ items el record,
    fs w !! stored_paper_of paperUrl = Some (File (Encoded (JArr items)))
    ∧ find_hasOwn paperUrl items = Return el
    ∧ hasOwnProperty el paperUrl = Return true
    ∧ get el paperUrl = Return record
    ∧ get_opt record "notes" = Return notes
    ∧ truthy notes = true.

(** The search for stored notes comes back empty: there is no storage file,
    or it holds a value that is not an array, or an array without an
    element for [paperUrl], or a record without truthy notes. *)
Definition no_stored_notes (w : world) (paperUrl : string) : Prop :=
  fs w !! stored_paper_of paperUrl = None
  ∨ (∃ v, fs w !! stored_paper_of paperUrl = Some (File (Encoded v)) ∧ isArray v = false)
  ∨ (∃ items, fs w !! stored_paper_of paperUrl = Some (File (Encoded (JArr items)))
              ∧ some_hasOwn paperUrl items = Return false)
  ∨ (∃ items el record notes,
       fs w !! stored_paper_of paperUrl = Some (File (Encoded (JArr items)))
       ∧ find_hasOwn paperUrl items = Return el
       ∧ hasOwnProperty el paperUrl = Return true
       ∧ get el paperUrl = Return record
       ∧ get_opt record "notes" = Return notes
       ∧ truthy notes = false).

(** The search for stored notes breaks off with an error: the storage path
    is a directory, or the file is blank or holds no JSON text, or it holds
    an array and an element the lookup examines before it finds one for
    [paperUrl] is null or hides [hasOwnProperty]. *)
Definition unreadable_notes (w : world) (paperUrl msg : string) : Prop :=
  (fs w !! stored_paper_of paperUrl = Some Dir ∧ msg = "EISDIR"%string)
  ∨ (∃ c, fs w !! stored_paper_of paperUrl = Some (File c) ∧ JSON_parse c = Throw msg)
  ∨ (∃ items, fs w !! stored_paper_of paperUrl = Some (File (Encoded (JArr items)))
              ∧ some_hasOwn paperUrl items = Throw msg).

(** The notes [qaOnPaperV2] retrieves before it enters its [try] block. *)
Definition retrieved_notes (w : world) (paperUrl : string) : outcome json :=
  try! found := HnswStore.entry_present (fs w !! stored_paper_of paperUrl) paperUrl in
  try! retrievedPaper :=
    if found : bool then HnswStore.entry_of (fs w !! stored_paper_of paperUrl) paperUrl
    else Return JUndefined in
  get_opt retrievedPaper "notes".

(** The generic failure marker of [qaModelWithHNSW]. *)
Definition failure_marker : list json :=
  [JObj [("answer", JStr "Error"); ("followupQuestions", JArr [JStr "Error"])]]%string.

Section WithEnv.
Context (e : env).

Definition qa_failed : string := "QA failed 🩻".
Definition no_vector_store : string := "No vector store directory found".
Definition no_text : string := "No text found".
Definition no_notes : string := "No notes found".

(** [chain.invoke({ question, notes, ... })]: the prompt, the model bound to
    the answer tool, then [answerOutputParser]. *)
Definition chain_invoke (question notes documents : string) : outcome (list json) :=
  match qa_model e question notes documents with
  | Some output => Prompt.answerOutputParser output
  | None => Throw "model"
  end.

(** [qaModel]: the chain starts with the prompt, and the values passed to
    [chain.invoke] are named [question], [notes] and [documents]. *)
Definition qaModel (question : string) (documents : list document) (notes : json)
  : M (list json) :=
  catch
    (let documentsAsString := formatDocumentsAsString documents in
     let! notesAsString := lift (notesAsString notes) in
     lift (Prompt.format_prompt Prompt.QA_OVER_PAPER_PROMPT
             [("question", question); ("notes", notesAsString);
              ("documents", documentsAsString)]%string) ;;;
     record_call (AskQaModel question) ;;;
     lift (chain_invoke question notesAsString documentsAsString))
    (λ _, throw qa_failed).

(** [qaModelWithHNSW]; [documents] and the retriever are objects, so the
    guard only tests [notes]. *)
Definition qaModelWithHNSW (question : string) (documents : list document) (notes : json)
  : M (list json) :=
  catch
    (if negb (truthy notes) then throw "No documents found" else
     let documentsAsString := formatDocumentsAsString documents in
     let! notesAsString := lift (notesAsString notes) in
     record_call (AskQaModel question) ;;;
     lift (chain_invoke question notesAsString documentsAsString))
    (λ _, ret failure_marker).

(** [Promise.all(answerAndQuestions.map(async (res) => DATABASE.saveQa(...)))]:
    every element is attempted; the whole rejects if one of them did. *)
Fixpoint saveAll (question context : string) (l : list json) : M unit :=
  match l with
  | [] => ret ()
  | res :: rest =>
      match (try! a := get res "answer" in
             try! f := get res "followupQuestions" in
             Return (a, f)) with
      | Return (a, f) =>
          SupabaseDatabase.saveQa e question a context f ;;;
          saveAll question context rest
      | Throw err =>
          saveAll question context rest ;;;
          throw err
      end
  end.

(** [qaOnPaper] *)
Definition qaOnPaper (question paperUrl : string) : M json :=
  catch
    (SupabaseDatabase.fromExistingIndex e ;;;
     let! existingQa := SupabaseDatabase.rtrnExistingQa e question in
     match existingQa with
     | Some existingQa =>
         ret (JObj [("answer", Row.answer existingQa);
                    ("followupQuestions", Row.followup_questions existingQa)]%string)
     | None =>
         let! paper := SupabaseDatabase.getPaper e paperUrl in
         let notes := match paper with
                      | Some paper => Row.notes paper
                      | None => JUndefined
                      end in
         if negb (truthy notes) then throw no_notes else
         record_call (SimilaritySearch question) ;;;
         let! documents := lift (match similaritySearch e question paperUrl with
                                 | Some docs => Return docs
                                 | None => Throw "similaritySearch"
                                 end) in
         let! answerAndQuestions := qaModel question documents notes in
         saveAll question (formatDocumentsAsString documents) answerAndQuestions ;;;
         ret (JArr answerAndQuestions)
     end)
    (λ _, throw Notes.no_braids).

(** The [try] block of [qaOnPaperV2], with its [catch]. *)
Definition answer_from_index (question paperUrl vectorStoreDir : string) (notes : json)
  : M json :=
  catch
    (record_call (LoadIndex vectorStoreDir) ;;;
     let database := index_loads e vectorStoreDir in
     (if database then ret () else throw TypeError) ;;;
     record_call (Retrieve question) ;;;
     let! documents := lift (match getRelevantDocuments e question with
                             | Some docs => Return docs
                             | None => Throw "getRelevantDocuments"
                             end) in
     let! answerAndQuestions := qaModelWithHNSW question documents notes in
     let first := default JUndefined (head answerAndQuestions) in
     let! answer := lift (get first "answer") in
     (if differs_from_string answer "Error" then
        let! followupQuestions := lift (get first "followupQuestions") in
        HnswStore.saveQA e
          (qa_data_of paperUrl) question answer (formatDocumentsAsString documents)
          followupQuestions
      else ret ()) ;;;
     ret (JArr answerAndQuestions))
    (λ _, ret JNull).

(** [qaOnPaperV2] *)
Definition qaOnPaperV2 (question paperUrl : string) : M json :=
  let vectorStoreDir := vector_store_of paperUrl in
  let! present := Fs.existsSync vectorStoreDir in
  if negb present then throw no_vector_store else
  let storedPaper := stored_paper_of paperUrl in
  let! found := HnswStore.has_entry storedPaper paperUrl in
  let! retrievedPaper :=
    if found then HnswStore.read_entry storedPaper paperUrl else ret JUndefined in
  let! notes := lift (get_opt retrievedPaper "notes") in
  if negb (truthy notes) then throw no_text else
  answer_from_index question paperUrl vectorStoreDir notes.

End WithEnv.
End Qa.

(** ** server.ts *)

Module Server.

(** [processPagesToDelete] *)
Definition processPagesToDelete (pagesToDelete : string) : list Js.jsnum :=
  let numArr := map (λ num, Js.parseInt (Js.trim num)) (Js.split_comma pagesToDelete) in
  numArr.

(** The comma-separated string a client sends for a list of page numbers. *)
Definition render (pages : list Z) : string := Js.join "," (map Js.show pages).

(** What a handler sends. *)
Inductive response :=
| Send (status : Z) (body : json)
| SendError (status : Z) (error : string).

Section WithEnv.
Context (e : env).

(** [let pagesToDeleteArray = []; if (pagesToDelete) ...] *)
Definition pagesToDeleteArray (pagesToDelete : option string) : list Js.jsnum :=
  match pagesToDelete with
  | Some (String c r) => processPagesToDelete (String c r)
  | _ => []
  end.

(** [app.post("/take-notes", ...)] *)
Definition post_take_notes (paperUrl paperName : string) (pagesToDelete : option string)
  : world → response * world :=
  λ w, match Notes.mainV2 e paperUrl paperName (Some (pagesToDeleteArray pagesToDelete)) w with
       | (Return notes, w') => (Send 200 notes, w')
       | (Throw error, w') => (SendError 500 error, w')
       end.

(** [app.post("/qa", ...)] *)
Definition post_qa (paperUrl question : string) : world → response * world :=
  λ w, match Qa.qaOnPaperV2 e question paperUrl w with
       | (Return qa, w') => (Send 200 qa, w')
       | (Throw error, w') => (SendError 500 error, w')
       end.

End WithEnv.
End Server.

(** ** Sample data *)

Module Sample.

Definition url1 : string := "https://arxiv.org/pdf/1706.03762.pdf".
Definition url2 : string := "https://arxiv.org/pdf/2005.14165.pdf".
Definition question1 : string := "What is attention?".

Definition note1 : json :=
  JObj [("note", JStr "Attention relates positions of one sequence.");
        ("pageNumbers", JArr [JNum 2])]%string.
Definition note2 : json :=
  JObj [("note", JStr "Few-shot prompts replace fine-tuning.");
        ("pageNumbers", JArr [JNum 1; JNum 5])]%string.

Definition doc1 : document :=
  {| pageContent := "Attention is all you need."; metadata := [] |}.

Definition answer_call (answer : string) (followups : list string) : toolCall :=
  {| arguments := Encoded (JObj [("answer", JStr answer);
                                 ("followupQuestions", JArr (map JStr followups))]%string) |}.

Definition notes_call (notes : list json) : toolCall :=
  {| arguments := Encoded (JObj [("notes", JArr notes)]%string) |}.

Definition fresh_answer : message :=
  {| tool_calls := Some [answer_call "fresh answer" ["And then?"]%string] |}.

(** Every collaborator answers; the chat model gives [fresh_answer]. *)
Definition env0 : env :=
  {| now := "2024-05-01T10:00:00.000Z";
     supabase_error := None;
     select_answers := true;
     insert_answers := true;
     axios_get := λ _, Some (PdfBytes ["p1"; "p2"]%string);
     loadAndSplit := λ _, Some [doc1];
     embeds := λ _, true;
     index_loads := λ _, true;
     index_saves := λ _, true;
     getRelevantDocuments := λ _, Some [doc1];
     similaritySearch := λ _ _, Some [doc1];
     notes_model := λ _, Some {| tool_calls := Some [notes_call [note1]] |};
     qa_model := λ _ _ _, Some fresh_answer |}.

(** The same, with a chat model that rejects every question. *)
Definition env_down : env :=
  {| now := now env0;
     supabase_error := None;
     select_answers := true;
     insert_answers := true;
     axios_get := axios_get env0;
     loadAndSplit := loadAndSplit env0;
     embeds := embeds env0;
     index_loads := index_loads env0;
     index_saves := index_saves env0;
     getRelevantDocuments := getRelevantDocuments env0;
     similaritySearch := similaritySearch env0;
     notes_model := λ _, None;
     qa_model := λ _ _ _, None |}.

Definition stored_paper : json :=
  JObj [(url1, HnswStore.paper_record env0 [doc1] url1 "Attention" [note1])].

Definition stored_qa : json :=
  HnswStore.qa_record env0 question1 (JStr "stored answer")
    "Attention is all you need." (JArr [JStr "stored follow-up"]).

Definition paper_row : Row.arxiv_papers :=
  {| Row.paper := "Attention is all you need."; Row.arxiv_url := url1;
     Row.notes := JArr [note1]; Row.name := "Attention" |}.

Definition qa_row : Row.arxiv_question_answering :=
  {| Row.question := question1; Row.answer := JStr "stored answer";
     Row.followup_questions := JArr [JStr "stored follow-up"];
     Row.context := "Attention is all you need." |}.

(** A disk on which [url1] has been ingested and [question1] answered. *)
Definition disk : gmap string node :=
  {[ Qa.vector_store_of url1 := Dir;
     Qa.stored_paper_of url1 := File (Encoded (JArr [stored_paper]));
     Qa.qa_data_of url1 := File (Encoded (JArr [stored_qa]));
     Notes.notesPath := File (Encoded (JObj [(url1, JArr [note1])])) ]}.

Definition world0 : world :=
  {| fs := disk; papers_table := [paper_row]; qa_table := [qa_row]; calls := [] |}.

(** A disk holding only the notes of [url1] in notes.json. *)
Definition notes_world : world :=
  {| fs := {[ Notes.notesPath := File (Encoded (JObj [(url1, JArr [note1])])) ]};
     papers_table := []; qa_table := []; calls := [] |}.

(** A disk whose storage file for [url1] exists but is empty. *)
Definition blank_world : world :=
  {| fs := {[ Notes.generated_notes_of url1 := File Blank ]};
     papers_table := []; qa_table := []; calls := [] |}.

(** A disk with the index directory of [url2] and nothing else. *)
Definition index_only_world : world :=
  {| fs := {[ Qa.vector_store_of url2 := Dir ]};
     papers_table := []; qa_table := []; calls := [] |}.

(** Nothing on disk, nothing in the tables. *)
Definition empty_world : world :=
  {| fs := ∅; papers_table := []; qa_table := []; calls := [] |}.

End Sample.

(** ** The earlier notes pipeline: the [main] that always ingests *)

Module NotesHosted.
Section WithEnv.
Context (e : env).

(** [SupabaseDatabase.fromDocuments] (database.ts): the keys are checked,
    then the documents are embedded into the index. *)
Definition fromDocuments (docs : list document) : M unit :=
  catch
    ((match supabase_error e with
      | Some msg => throw msg
      | None => ret ()
      end) ;;;
     record_call EmbedDocuments ;;;
     if embeds e docs then ret () else throw "fromDocuments")
    (λ error, throw error).

(** [generateNotes], which here saves the notes with [saveNotesLocally]. *)
Definition generateNotes (url : string) (documents : list document) : M (list json) :=
  catch
    (let documentAsStr := formatDocumentsAsString documents in
     record_call AskNotesModel ;;;
     let! notes := match notes_model e documentAsStr with
                   | Some output => lift (Prompt.outputParser output)
                   | None => throw "model"
                   end in
     Notes.saveNotesLocally url notes ;;;
     ret notes)
    (λ _, throw Notes.notes_failed).

(** [main] *)
Definition main (paperUrl paperName : string) (pagesToDelete : option (list Js.jsnum))
  : M json :=
  catch
    (if negb (Js.endsWith paperUrl ".pdf") then throw "Invalid paper URL" else
     let! pdfAsBuffer := Notes.loadPdfFromUrl e paperUrl in
     let! pdfAsBuffer :=
       match Notes.some_pages pagesToDelete with
       | Some pages => lift (Notes.deletePages pdfAsBuffer pages)
       | None => ret pdfAsBuffer
       end in
     let! documents := Notes.convertPdfToDocuments e pdfAsBuffer in
     let formattedDocs := map (Notes.with_url paperUrl) documents in
     let! notes := generateNotes paperUrl documents in
     fromDocuments formattedDocs ;;;
     SupabaseDatabase.addPaper e (formatDocumentsAsString formattedDocs)
       paperUrl (JArr notes) paperName ;;;
     record_call EmbedDocuments ;;;
     (if embeds e formattedDocs then ret () else throw "addDocuments") ;;;
     ret (JArr notes))
    (λ _, throw Notes.no_braids).

End WithEnv.
End NotesHosted.

(** ** Collaborators that fail *)

(** The chat model answers without a tool call. *)
Definition env_silent : env :=
  {| now := now Sample.env0;
     supabase_error := None;
     select_answers := true;
     insert_answers := true;
     axios_get := axios_get Sample.env0;
     loadAndSplit := loadAndSplit Sample.env0;
     embeds := embeds Sample.env0;
     index_loads := index_loads Sample.env0;
     index_saves := index_saves Sample.env0;
     getRelevantDocuments := getRelevantDocuments Sample.env0;
     similaritySearch := similaritySearch Sample.env0;
     notes_model := notes_model Sample.env0;
     qa_model := λ _ _ _, Some {| tool_calls := Some [] |} |}.

(** A client whose select fails. *)
Definition env_blind : env :=
  {| now := now Sample.env0;
     supabase_error := None;
     select_answers := false;
     insert_answers := true;
     axios_get := axios_get Sample.env0;
     loadAndSplit := loadAndSplit Sample.env0;
     embeds := embeds Sample.env0;
     index_loads := index_loads Sample.env0;
     index_saves := index_saves Sample.env0;
     getRelevantDocuments := getRelevantDocuments Sample.env0;
     similaritySearch := similaritySearch Sample.env0;
     notes_model := notes_model Sample.env0;
     qa_model := qa_model Sample.env0 |}.

(** The index cannot be saved. *)
Definition env_unsaved : env :=
  {| now := now Sample.env0;
     supabase_error := None;
     select_answers := true;
     insert_answers := true;
     axios_get := axios_get Sample.env0;
     loadAndSplit := loadAndSplit Sample.env0;
     embeds := embeds Sample.env0;
     index_loads := index_loads Sample.env0;
     index_saves := λ _, false;
     getRelevantDocuments := getRelevantDocuments Sample.env0;
     similaritySearch := similaritySearch Sample.env0;
     notes_model := notes_model Sample.env0;
     qa_model := qa_model Sample.env0 |}.

(** A disk with the three directories of the service and nothing in
    them. *)
Definition fresh_world : world :=
  {| fs := {[ "vector_store" := Dir; "local_storage" := Dir; "generated_notes" := Dir ]};
     papers_table := []; qa_table := []; calls := [] |}.

(** A disk with the index directory of [url1] and a blank data.json. *)
Definition blank_store_world : world :=
  {| fs := {[ Qa.vector_store_of Sample.url1 := Dir;
              Qa.stored_paper_of Sample.url1 := File Blank ]};
     papers_table := []; qa_table := []; calls := [] |}.

(** ** Vocabulary of the properties *)

(** A page number as a client may type it: blanks, the number, blanks. *)
Definition spaced (field : string * Z * string) : string :=
  let '(before, n, after) := field in before +:+ Js.show n +:+ after.

(** The page numbers of the fields, joined by commas. *)
Definition render_spaced (fields : list (string * Z * string)) : string :=
  Js.join "," (map spaced fields).

(** Blanks only, and between them a positive number that a double holds
    exactly. *)
Definition well_spaced (field : string * Z * string) : Prop :=
  let '(before, n, after) := field in
  Js.all_chars Js.is_ws before = true
  ∧ 0 < n ∧ n ≤ Js.MAX_SAFE_INTEGER
  ∧ Js.all_chars Js.is_ws after = true.

(** A character that does not end a field of [split(",")]. *)
Definition no_comma (c : ascii) : bool := negb (Ascii.eqb c ",").

(** The host of a URL the regular expression refuses whatever follows. *)
Definition loopback_host (host : string) : Prop :=
  host = "localhost"%string ∨ host = "127.0.0.1"%string.

(** What the storage file holds under [url] once [saveToLocalStorage] has
    written a record: the record as [JSON.stringify] leaves it. *)
Definition stored_record (e : env) (docs : list document) (url name : string) (notes : list json)
  : json :=
  JObj [("paper", JStr (formatDocumentsAsString docs));
        ("name", JStr name);
        ("url", JStr url);
        ("notes", JArr (map element notes));
        ("dateCreated", JStr (now e))]%string.

(** A key that is neither [__proto__], which an assignment does not store,
    nor [hasOwnProperty], which as a member hides the method of the
    lookup. *)
Definition plain_key (url : string) : Prop :=
  url ≠ "__proto__"%string ∧ url ≠ "hasOwnProperty"%string.

(** The storage file is missing or holds an array. *)
Definition array_or_missing (f : option node) : Prop :=
  f = None ∨ ∃ items, f = Some (File (Encoded (JArr items))).

(** The storage file holds no element with [url] among its members. *)
Definition without_record (f : option node) (url : string) : Prop :=
  f = None ∨ ∃ items, f = Some (File (Encoded (JArr items)))
                      ∧ some_hasOwn url items = Return false.

(** The elements a storage file holds: those of its array, none when the
    file is missing. *)
Definition held (f : option node) : list json :=
  match f with
  | Some (File (Encoded (JArr items))) => items
  | _ => []
  end.

(** The element is a record of [question]. *)
Definition records (question : string) (el : json) : bool :=
  match get el "question" with
  | Return (JStr s) => String.eqb s question
  | _ => false
  end.

(** The elements of a storage array that record [question]. *)
Definition asked (question : string) (items : list json) : list json :=
  filter (λ el, records question el = true) items.

(** The world after the three calls of the [try] block. *)
Definition asked_world (question dir : string) (w : world) : world :=
  with_calls (calls w ++ [LoadIndex dir; Retrieve question; AskQaModel question]) w.

(** The row [main] inserts. *)
Definition inserted_row (url name : string) (documents : list document) (notes : list json)
  : Row.arxiv_papers :=
  {| Row.paper := formatDocumentsAsString (map (Notes.with_url url) documents);
     Row.arxiv_url := url; Row.notes := JArr notes; Row.name := name |}.

(** [`local_storage/${path.basename(url)}`] *)
Definition local_storage_of (url : string) : string :=
  "local_storage/" +:+ Path.basename url.

(** The paths [mainV2] may write for a URL. *)
Definition mainV2_paths (url q : string) : Prop :=
  q = Qa.vector_store_of url ∨ q = local_storage_of url ∨ q = Notes.generated_notes_of url.

(** [m] writes only paths in [S], and removes none. *)
Definition writes_within (S : string → Prop) {A} (m : M A) : Prop :=
  ∀ w r w', m w = (r, w') →
    (∀ q, ¬ S q → fs w' !! q = fs w !! q)
    ∧ (∀ q, defined (fs w !! q) = true → defined (fs w' !! q) = true).

(** [m] keeps the invariant [I], whether it returns or throws. *)
Definition keeps (I : world → Prop) {A} (m : M A) : Prop :=
  ∀ w r w', I w → m w = (r, w') → I w'.

(** Since [w0], the directory [dir] has been there and no index has been
    saved into it. *)
Definition index_untouched (dir : string) (w0 w : world) : Prop :=
  defined (fs w !! dir) = true
  ∧ ∃ new, calls w = calls w0 ++ new ∧ SaveIndex dir ∉ new.

(** * Properties *)

(** ** Sanity checks of the primitives *)

Example basename_url :
  Path.basename "https://arxiv.org/pdf/2305.15334.pdf" = "2305.15334.pdf"%string.
Proof. reflexivity. Qed.
Example basename_dir : Path.basename "papers/a.pdf//" = "a.pdf"%string.
Proof. reflexivity. Qed.
Example split_three : Js.split_comma "1,2,3" = ["1"; "2"; "3"]%string.
Proof. reflexivity. Qed.
Example pages_spaced : Server.processPagesToDelete " 4, 10 ,0x1f,abc,-3" =
  [Js.Num 4; Js.Num 10; Js.Num 31; Js.NaN; Js.Num (-3)].
Proof. vm_compute. reflexivity. Qed.
Example ends_pdf : Js.endsWith "a.pdf" ".pdf" = true ∧ Js.endsWith "pdf" ".pdf" = false.
Proof. split; reflexivity. Qed.
Example regex_accepts : Notes.urlRegEx_test "https://arxiv.org/pdf/2305.15334.pdf" = true.
Proof. vm_compute. reflexivity. Qed.
Example regex_rejects_localhost : Notes.urlRegEx_test "http://localhost/a.pdf" = false.
Proof. vm_compute. reflexivity. Qed.
Example regex_rejects_loopback : Notes.urlRegEx_test "http://127.0.0.1/a.pdf" = false.
Proof. vm_compute. reflexivity. Qed.
Example regex_dot_is_wildcard : Notes.urlRegEx_test "http://host/apdf" = true.
Proof. vm_compute. reflexivity. Qed.
Example render_three : Server.render [3; 12; 7] = "3,12,7"%string.
Proof. vm_compute. reflexivity. Qed.
Example delete_ascending :
  Notes.deletePages (PdfBytes ["a"; "b"; "c"; "d"]%string) [Js.Num 2; Js.Num 3]
  = Return (PdfBytes ["a"; "d"]%string).
Proof. vm_compute. reflexivity. Qed.
Example delete_descending :
  Notes.deletePages (PdfBytes ["a"; "b"; "c"; "d"]%string) [Js.Num 3; Js.Num 2]
  = Return (PdfBytes ["b"; "d"]%string).
Proof. vm_compute. reflexivity. Qed.
Example delete_last_then_first :
  Notes.deletePages (PdfBytes ["a"; "b"; "c"]%string) [Js.Num 3; Js.Num 1]
  = Throw Notes.delete_failed.
Proof. vm_compute. reflexivity. Qed.
Example delete_not_a_number :
  Notes.deletePages (PdfBytes ["a"; "b"; "c"]%string) (Server.processPagesToDelete "two")
  = Throw Notes.delete_failed.
Proof. vm_compute. reflexivity. Qed.

(** ** Page lists: parsing what the client sends *)

Section PageNumbers.

Lemma string_of_uint_decimal d :
  Js.all_chars Js.is_decimal (NilEmpty.string_of_uint d) = true.
Proof. induction d; simpl; auto. Qed.

Lemma parse_digits_acc d acc :
  Js.parse_digits 10 (NilEmpty.string_of_uint d) (Zpos acc) = Zpos (Pos.of_uint_acc d acc).
Proof.
  revert acc.
  induction d; intros acc; simpl; try reflexivity;
    match goal with
    | |- Js.parse_digits _ _ ?z = _ =>
        match goal with
        | |- _ = Zpos (Pos.of_uint_acc _ ?q) =>
            replace z with (Zpos q) by lia; apply IHd
        end
    end.
Qed.

Lemma parse_digits_uint d :
  Js.parse_digits 10 (NilEmpty.string_of_uint d) 0 = Z.of_N (Pos.of_uint d).
Proof.
  induction d; simpl; try reflexivity; try assumption;
    match goal with
    | |- Js.parse_digits _ _ ?z = Zpos (Pos.of_uint_acc _ ?q) =>
        replace z with (Zpos q) by lia; apply parse_digits_acc
    end.
Qed.

Lemma parse_digits_show p :
  Js.parse_digits 10 (Js.show (Zpos p)) 0 = Zpos p.
Proof.
  unfold Js.show. rewrite parse_digits_uint, DecimalPos.Unsigned.of_to. reflexivity.
Qed.

End PageNumbers.

Section Splitting.

Lemma decimal_cases c :
  Js.is_decimal c = true →
  Js.is_ws c = false ∧ Ascii.eqb c "," = false ∧ c ≠ "-"%char ∧ c ≠ "+"%char
  ∧ c ≠ "x"%char ∧ c ≠ "X"%char.
Proof.
  destruct c as [[] [] [] [] [] [] [] []]; vm_compute; intros H;
    try discriminate H; repeat split; congruence.
Qed.

Lemma trimEnd_decimal s :
  Js.all_chars Js.is_decimal s = true → Js.trimEnd s = s.
Proof.
  induction s as [|c r IH]; simpl; [reflexivity|].
  intros [Hc Hr]%andb_prop. rewrite (IH Hr).
  destruct (decimal_cases c Hc) as (-> & _). destruct r; reflexivity.
Qed.

Lemma trim_decimal s :
  Js.all_chars Js.is_decimal s = true → Js.trim s = s.
Proof.
  intros H. unfold Js.trim.
  destruct s as [|c r]; [reflexivity|].
  pose proof H as [Hc Hr]%andb_prop.
  simpl Js.trimStart. destruct (decimal_cases c Hc) as (-> & _).
  apply trimEnd_decimal, H.
Qed.

Lemma split_comma_decimal s :
  Js.all_chars Js.is_decimal s = true → Js.split_comma s = [s].
Proof.
  induction s as [|c r IH]; simpl; [reflexivity|].
  intros [Hc Hr]%andb_prop. rewrite (IH Hr).
  destruct (decimal_cases c Hc) as (_ & -> & _). reflexivity.
Qed.

Lemma split_comma_app s t :
  Js.all_chars Js.is_decimal s = true →
  Js.split_comma (s +:+ String "," t) = s :: Js.split_comma t.
Proof.
  induction s as [|c r IH]; simpl; [reflexivity|].
  intros [Hc Hr]%andb_prop. rewrite (IH Hr).
  destruct (decimal_cases c Hc) as (_ & -> & _). reflexivity.
Qed.

Lemma prefix_two a b c r :
  String.prefix (String a (String b EmptyString)) (String c r) = true →
  a = c ∧ ∃ r', r = String b r'.
Proof.
  destruct r as [|c' r']; simpl.
  - destruct (ascii_dec a c); discriminate.
  - destruct (ascii_dec a c) as [->|]; [|discriminate].
    destruct (ascii_dec b c') as [->|]; [|discriminate]. eauto.
Qed.

Lemma parseInt_decimal s :
  s ≠ EmptyString → Js.all_chars Js.is_decimal s = true →
  Js.parseInt s = Js.Num (Js.parse_digits 10 s 0).
Proof.
  intros Hne H. destruct s as [|c r]; [congruence|].
  pose proof H as [Hc Hr]%andb_prop.
  destruct (decimal_cases c Hc) as (Hws & _ & Hm & Hp & _).
  unfold Js.parseInt. simpl Js.trimStart. rewrite Hws.
  assert (Hpre : String.prefix "0x" (String c r) || String.prefix "0X" (String c r) = false).
  { apply orb_false_intro; apply not_true_is_false;
      intros (_ & r' & ->)%prefix_two; vm_compute in Hr; discriminate Hr. }
  assert (Hu : Js.parse_unsigned (String c r) = Js.Num (Js.parse_digits 10 (String c r) 0)).
  { unfold Js.parse_unsigned. rewrite Hpre. unfold Js.parse_radix.
    unfold Js.is_decimal in Hc. destruct (Js.digit_of 10 c); [reflexivity|discriminate]. }
  destruct c as [[] [] [] [] [] [] [] []]; try exact Hu; congruence.
Qed.

Lemma show_decimal p :
  0 < p → Js.all_chars Js.is_decimal (Js.show p) = true ∧ Js.show p ≠ EmptyString.
Proof.
  destruct p as [|q|q]; try lia. intros _. split.
  - apply string_of_uint_decimal.
  - intros H. pose proof (parse_digits_show q) as Hq. rewrite H in Hq. discriminate Hq.
Qed.

Lemma parseInt_trim_show p :
  0 < p → Js.parseInt (Js.trim (Js.show p)) = Js.Num p.
Proof.
  intros Hp. destruct (show_decimal p Hp) as [Hd Hne].
  rewrite trim_decimal, parseInt_decimal by assumption.
  destruct p as [|q|q]; try lia. now rewrite parse_digits_show.
Qed.

Lemma split_comma_render l :
  l ≠ [] → Forall (λ p, 0 < p) l →
  Js.split_comma (Server.render l) = map Js.show l.
Proof.
  unfold Server.render, Js.join.
  induction l as [|p l IH]; [congruence|]. intros _ Hall.
  apply Forall_cons in Hall as [Hp Hall].
  destruct (show_decimal p Hp) as [Hd _].
  destruct l as [|q l].
  - simpl. now apply split_comma_decimal.
  - change (String.concat "," (map Js.show (p :: q :: l)))
      with (Js.show p +:+ String "," (String.concat "," (map Js.show (q :: l)))).
    rewrite split_comma_app by assumption.
    rewrite IH by (assumption || congruence). reflexivity.
Qed.

Lemma processPagesToDelete_render l :
  l ≠ [] → Forall (λ p, 0 < p) l →
  Server.processPagesToDelete (Server.render l) = map Js.Num l.
Proof.
  intros Hne Hall. unfold Server.processPagesToDelete.
  rewrite split_comma_render by assumption. clear Hne.
  induction Hall as [|p l Hp _ IH]; simpl; [reflexivity|].
  now rewrite parseInt_trim_show, IH.
Qed.

End Splitting.

(** ** Page lists: deleting the pages *)

Section DeletingPages.

Lemma without_pages_nil first pages :
  Notes.without_pages [] first pages = pages.
Proof.
  revert first. induction pages as [|x r IH]; intros first;
    cbn [Notes.without_pages]; [reflexivity|].
  rewrite bool_decide_eq_false_2 by apply not_elem_of_nil. now rewrite IH.
Qed.

(** Only the listed numbers from [first] on matter. *)
Lemma without_pages_ext l1 l2 first pages :
  (∀ i, first ≤ i → i ∈ l1 ↔ i ∈ l2) →
  Notes.without_pages l1 first pages = Notes.without_pages l2 first pages.
Proof.
  revert first. induction pages as [|x r IH]; intros first H;
    cbn [Notes.without_pages]; [reflexivity|].
  rewrite (IH (first + 1)) by (intros i Hi; apply H; lia).
  rewrite (bool_decide_ext _ _ (H first ltac:(lia))). reflexivity.
Qed.

(** Removing the smallest listed page [p], then carrying on after it. *)
Lemma without_pages_cons p l first pages :
  first ≤ p < first + Z.of_nat (length pages) →
  Forall (λ q, p < q) l →
  Notes.without_pages (p :: l) first pages =
    take (Z.to_nat (p - first)) pages ++
    Notes.without_pages l (p + 1) (drop (S (Z.to_nat (p - first))) pages).
Proof.
  intros Hp Hl. revert first Hp.
  induction pages as [|x r IH]; intros first Hp; simpl in Hp; [lia|].
  destruct (decide (first = p)) as [->|Hne].
  - rewrite Z.sub_diag. cbn [Z.to_nat take drop app Notes.without_pages].
    rewrite bool_decide_eq_true_2 by apply list_elem_of_here.
    rewrite drop_0. apply without_pages_ext. intros i Hi.
    rewrite elem_of_cons. split; [intros [->|?]; [lia|done]|auto].
  - replace (Z.to_nat (p - first)) with (S (Z.to_nat (p - (first + 1)))) by lia.
    cbn [take drop app Notes.without_pages]. rewrite bool_decide_eq_false_2.
    + f_equal. apply IH. lia.
    + rewrite elem_of_cons. intros [?|Hin]; [lia|].
      rewrite Forall_forall in Hl. apply Hl in Hin. lia.
Qed.

Lemma delete_app_r {A} (pre suf : list A) k :
  delete (length pre + k)%nat (pre ++ suf) = pre ++ delete k suf.
Proof. induction pre as [|x pre IH]; simpl; [reflexivity|]. now rewrite IH. Qed.

(** The loop of [deletePages] on an ascending list: [pre] holds the pages
    already passed, [suf] the pages numbered from [first] on. *)
Lemma remove_each_ascending l pre suf first :
  StronglySorted Z.lt l →
  Forall (λ p, first ≤ p < first + Z.of_nat (length suf)) l →
  Notes.remove_each (pre ++ suf) (first - Z.of_nat (length pre)) (map Js.Num l)
  = Return (pre ++ Notes.without_pages l first suf).
Proof.
  intros Hs. revert pre suf first.
  induction Hs as [|p l Hs IH Hlt]; intros pre suf first Hr; cbn [map Notes.remove_each].
  - now rewrite without_pages_nil.
  - apply Forall_cons in Hr as [Hp Hr].
    set (k := Z.to_nat (p - first)).
    assert (Hrm : Notes.removePage (pre ++ suf)
                    (Notes.minus (Js.Num p) (first - Z.of_nat (length pre)))
                  = Return ((pre ++ take k suf) ++ drop (S k) suf)).
    { unfold Notes.removePage, Notes.minus.
      rewrite (proj2 (andb_true_iff _ _));
        [|split; [apply Z.leb_le|apply Z.ltb_lt]; rewrite ?length_app; lia].
      replace (Z.to_nat (p - (first - Z.of_nat (length pre))))
        with (length pre + k)%nat by lia.
      now rewrite delete_app_r, delete_take_drop, app_assoc. }
    rewrite Hrm. cbn [obind].
    replace (first - Z.of_nat (length pre) + 1)
      with (p + 1 - Z.of_nat (length (pre ++ take k suf)))
      by (rewrite length_app, length_take; lia).
    rewrite IH.
    + rewrite <- app_assoc. f_equal. f_equal. symmetry.
      now apply without_pages_cons.
    + rewrite length_drop. rewrite Forall_forall in Hr, Hlt |- *.
      intros q Hq. specialize (Hr q Hq). specialize (Hlt q Hq). lia.
Qed.

(** Every pass of the loop removes one page, and no pass goes through on
    [NaN]. *)
Lemma remove_each_count l : ∀ doc off out,
  Notes.remove_each doc off l = Return out →
  (length out + length l = length doc)%nat ∧ Js.NaN ∉ l.
Proof.
  induction l as [|p l IH]; intros doc off out; cbn [Notes.remove_each].
  - intros [= <-]. split; [cbn; lia|apply not_elem_of_nil].
  - destruct p as [|p]; cbn [Notes.minus Notes.removePage obind]; [discriminate|].
    destruct ((0 <=? p - off) && (p - off <? Z.of_nat (length doc))) eqn:Hr;
      cbn [obind]; [|discriminate].
    intros H. apply IH in H as [Hlen Hnan].
    apply andb_prop in Hr as [H0 H1]. apply Z.leb_le in H0. apply Z.ltb_lt in H1.
    rewrite length_delete in Hlen by (apply lookup_lt_is_Some; lia).
    split; [cbn [length]; lia|].
    rewrite elem_of_cons. intros [Heq|Hin]; [discriminate|contradiction].
Qed.

Lemma save_pages doc : doc ≠ [] → Notes.save doc = doc.
Proof. now destruct doc. Qed.

Lemma deletePages_sorted pages l :
  StronglySorted Z.lt l →
  Forall (λ p, 1 ≤ p ≤ Z.of_nat (length pages)) l →
  Notes.remove_each pages 1 (map Js.Num l) = Return (Notes.without_pages l 1 pages)
  ∧ Notes.deletePages (PdfBytes pages) (map Js.Num l)
    = Return (PdfBytes (Notes.save (Notes.without_pages l 1 pages))).
Proof.
  intros Hs Hr. unfold Notes.deletePages. cbn [Notes.PDFDocument_load obind].
  pose proof (remove_each_ascending l [] pages 1 Hs) as H.
  cbn [app length] in H. change (1 - Z.of_nat 0) with 1 in H.
  rewrite H; [split; reflexivity|].
  eapply Forall_impl; [exact Hr|]. cbn beta. intros q Hq. lia.
Qed.

End DeletingPages.

(** C3, as amended: for every PDF and every comma-separated string of
    in-range, 1-based page numbers listed in strictly ascending order,
    [processPagesToDelete] parses the string into exactly those integers in
    order; when the list leaves at least one page of the document out,
    [deletePages] returns the document with exactly the listed pages
    removed and the remaining pages in their original order; when it lists
    every page, [deletePages] returns a document of one blank page. *)
Theorem deletePages_ascending (pages : list page) (l : list Z) :
  l ≠ [] →
  StronglySorted Z.lt l →
  Forall (λ p, 1 ≤ p ≤ Z.of_nat (length pages)) l →
  Server.processPagesToDelete (Server.render l) = map Js.Num l
  ∧ ((length l < length pages)%nat →
     Notes.deletePages (PdfBytes pages) (Server.processPagesToDelete (Server.render l))
     = Return (PdfBytes (Notes.without_pages l 1 pages)))
  ∧ (length l = length pages →
     Notes.without_pages l 1 pages = []
     ∧ Notes.deletePages (PdfBytes pages) (Server.processPagesToDelete (Server.render l))
       = Return (PdfBytes [Notes.blank_page])).
Proof.
  intros Hne Hs Hr.
  assert (Hparse : Server.processPagesToDelete (Server.render l) = map Js.Num l).
  { apply processPagesToDelete_render; [assumption|].
    eapply Forall_impl; [exact Hr|]. cbn beta. intros; lia. }
  split; [exact Hparse|]. rewrite Hparse.
  destruct (deletePages_sorted pages l Hs Hr) as [Hloop Hdel].
  apply remove_each_count in Hloop as [Hlen _]. rewrite length_map in Hlen.
  rewrite Hdel. split; intros Hl.
  - rewrite save_pages; [reflexivity|].
    intros Hnil. rewrite Hnil in Hlen. cbn [length] in Hlen. lia.
  - assert (Hnil : Notes.without_pages l 1 pages = [])
      by (apply length_zero_iff_nil; lia).
    now rewrite Hnil.
Qed.

Lemma deletePages_ascending_witness :
  Server.processPagesToDelete "2,3" = [Js.Num 2; Js.Num 3]
  ∧ Notes.deletePages (PdfBytes ["p1"; "p2"; "p3"; "p4"]%string)
      (Server.processPagesToDelete "2,3")
    = Return (PdfBytes ["p1"; "p4"]%string).
Proof.
  destruct (deletePages_ascending ["p1"; "p2"; "p3"; "p4"]%string [2; 3])
    as (Hparse & Hsome & _).
  - discriminate.
  - repeat constructor; lia.
  - repeat constructor; simpl; lia.
  - split; [exact Hparse|]. apply Hsome. simpl. lia.
Defined.

(** C3 as stated fails in two ways. When the client lists the pages out of
    ascending order: asked to delete pages 3 and 2 of a four-page document,
    the loop removes pages 3 and 1. When the client lists every page: asked
    to delete pages 1 and 2 of a two-page document, [deletePages] does not
    return the document without its pages but one with a blank page. *)
Lemma deletePages_any_order_counterexample :
  (let pages := ["p1"; "p2"; "p3"; "p4"]%string in
   let l := [3; 2] in
   NoDup l
   ∧ Forall (λ p, 1 ≤ p ≤ Z.of_nat (length pages)) l
   ∧ Server.processPagesToDelete (Server.render l) = map Js.Num l
   ∧ Notes.without_pages l 1 pages = ["p1"; "p4"]%string
   ∧ Notes.deletePages (PdfBytes pages) (Server.processPagesToDelete (Server.render l))
     = Return (PdfBytes ["p2"; "p4"]%string)
   ∧ Notes.deletePages (PdfBytes pages) (Server.processPagesToDelete (Server.render l))
     ≠ Return (PdfBytes (Notes.without_pages l 1 pages)))
  ∧ (let pages := ["p1"; "p2"]%string in
     let l := [1; 2] in
     NoDup l
     ∧ Forall (λ p, 1 ≤ p ≤ Z.of_nat (length pages)) l
     ∧ Server.processPagesToDelete (Server.render l) = map Js.Num l
     ∧ Notes.without_pages l 1 pages = []
     ∧ Notes.deletePages (PdfBytes pages) (Server.processPagesToDelete (Server.render l))
       = Return (PdfBytes [Notes.blank_page])
     ∧ Notes.deletePages (PdfBytes pages) (Server.processPagesToDelete (Server.render l))
       ≠ Return (PdfBytes (Notes.without_pages l 1 pages))).
Proof.
  cbv zeta. split; (split; [|split; [|split; [|split; [|split]]]]).
  - repeat constructor; rewrite ?elem_of_cons, ?elem_of_nil; intuition discriminate.
  - repeat constructor; simpl; lia.
  - vm_compute. reflexivity.
  - vm_compute. reflexivity.
  - vm_compute. reflexivity.
  - vm_compute. discriminate.
  - repeat constructor; rewrite ?elem_of_cons, ?elem_of_nil; intuition discriminate.
  - repeat constructor; simpl; lia.
  - vm_compute. reflexivity.
  - vm_compute. reflexivity.
  - vm_compute. reflexivity.
  - vm_compute. discriminate.
Qed.

(** ** The output parsers *)

Section Parsers.

Lemma flat_arrays (arrays : list (list json)) :
  flat (map JArr arrays) = concat arrays.
Proof.
  unfold flat. induction arrays as [|a r IH]; simpl; [reflexivity|].
  now rewrite IH.
Qed.

Lemma flat_objects (objects : list (list (string * json))) :
  flat (map JObj objects) = map JObj objects.
Proof.
  unfold flat. induction objects as [|a r IH]; simpl; [reflexivity|].
  now rewrite IH.
Qed.

Lemma map_outcome_notes calls arrays :
  Forall2 Prompt.carries_notes calls arrays →
  map_outcome (λ call, try! parsed := JSON_parse (arguments call) in get parsed "notes") calls
  = Return (map JArr arrays).
Proof.
  induction 1 as [|call ns calls arrays (fields & Ha & Hn) _ IH]; simpl; [reflexivity|].
  rewrite Ha. simpl. rewrite Hn. simpl. now rewrite IH.
Qed.

Lemma map_outcome_objects calls objects :
  Forall2 Prompt.carries_object calls objects →
  map_outcome (λ call, JSON_parse (arguments call)) calls = Return (map JObj objects).
Proof.
  induction 1 as [|call fields calls objects Ha _ IH]; simpl; [reflexivity|].
  rewrite Ha. simpl. now rewrite IH.
Qed.

(** C7: for every model output message with tool calls, [outputParser]
    returns exactly the [notes] arrays parsed from the arguments of each
    tool call, concatenated in tool-call order, and [answerOutputParser]
    returns exactly the parsed objects of each tool call in order; both
    parsers throw when the output has no [tool_calls]. *)
Theorem parsers_return_tool_call_arguments
    (noteCalls : list toolCall) (arrays : list (list json))
    (answerCalls : list toolCall) (objects : list (list (string * json))) :
  Forall2 Prompt.carries_notes noteCalls arrays →
  Forall2 Prompt.carries_object answerCalls objects →
  Prompt.outputParser {| tool_calls := Some noteCalls |} = Return (concat arrays)
  ∧ Prompt.answerOutputParser {| tool_calls := Some answerCalls |} = Return (map JObj objects)
  ∧ Prompt.outputParser {| tool_calls := None |} = Throw Prompt.missing_tool_calls
  ∧ Prompt.answerOutputParser {| tool_calls := None |} = Throw Prompt.missing_tool_calls.
Proof.
  intros Hn Ha. repeat split.
  - unfold Prompt.outputParser. cbn [tool_calls].
    rewrite (map_outcome_notes _ _ Hn). cbn [obind]. now rewrite flat_arrays.
  - unfold Prompt.answerOutputParser. cbn [tool_calls].
    rewrite (map_outcome_objects _ _ Ha). cbn [obind]. now rewrite flat_objects.
Qed.

End Parsers.

(** ** The JSON files on disk *)

Section JsonData.

Lemma element_json x : is_json x = true → normalize x = x → element x = x.
Proof. destruct x; cbn; congruence. Qed.

(** Serialising and parsing back is the identity on JSON data. *)
Lemma normalize_json v : is_json v = true → normalize v = v.
Proof.
  induction v as [| | | | |items IH|fields IH] using json_induction;
    cbn [is_json normalize]; try reflexivity.
  - intros H. f_equal.
    induction IH as [|x r Hx _ IHr]; cbn [map]; [reflexivity|].
    cbn [forallb] in H. apply andb_prop in H as [Hjx Hr].
    rewrite (IHr Hr). f_equal.
    specialize (Hx Hjx). destruct x; try reflexivity; try discriminate Hjx; exact Hx.
  - intros H. f_equal.
    induction IH as [|[k x] r Hx _ IHr]; cbn [flat_map]; [reflexivity|].
    cbn [forallb snd] in H. apply andb_prop in H as [Hjx Hr].
    rewrite (IHr Hr). cbn [snd] in Hx. specialize (Hx Hjx).
    destruct x; try discriminate Hjx; cbn [app]; try reflexivity;
      f_equal; f_equal; exact Hx.
Qed.

Lemma elements_json items :
  forallb is_json items = true → map element items = items.
Proof.
  induction items as [|x r IH]; cbn; [reflexivity|].
  intros [Hx Hr]%andb_prop. rewrite (IH Hr). f_equal.
  apply element_json; [assumption|now apply normalize_json].
Qed.

End JsonData.

Section LocalStorage.
Context (e : env).

Lemma normalize_array items : normalize (JArr items) = JArr (map element items).
Proof. reflexivity. Qed.

Lemma holds_element url el :
  HnswStore.holds url (element el) = true → HnswStore.holds url el = true.
Proof.
  destruct el as [| | | | | |fields]; simpl; try discriminate.
  induction fields as [|[k x] r IH]; simpl; [discriminate|].
  destruct (String.eqb k url) eqn:Hk.
  - reflexivity.
  - destruct x; simpl; rewrite ?Hk; exact IH.
Qed.

Lemma holders_elements url items :
  (length (HnswStore.holders url (map element items))
   ≤ length (HnswStore.holders url items))%nat.
Proof.
  unfold HnswStore.holders.
  induction items as [|el r IH]; simpl; [lia|].
  rewrite !filter_cons.
  destruct (decide (HnswStore.holds url (element el) = true)) as [H|H].
  - rewrite decide_True by (now apply holds_element). simpl. lia.
  - destruct (decide (HnswStore.holds url el = true)); simpl; lia.
Qed.

Lemma some_hasOwn_false url items :
  some_hasOwn url items = Return false → HnswStore.holders url items = [].
Proof.
  unfold HnswStore.holders.
  induction items as [|el r IH]; simpl; [reflexivity|].
  destruct (hasOwnProperty el url) as [[]|] eqn:Hown; simpl; try discriminate.
  intros H. rewrite filter_cons, decide_False; [now apply IH|].
  destruct el as [| | | | | |fields]; simpl in *; try discriminate.
  destruct (defined (assoc "hasOwnProperty" fields)); [discriminate|congruence].
Qed.

(** Assignment under a key other than [__proto__] makes an own member. *)
Lemma assign_plain url v : url ≠ "__proto__"%string → assign url v [] = [(url, v)].
Proof. intros H. unfold assign. now rewrite (proj2 (String.eqb_neq _ _) H). Qed.

Lemma assign_proto v fields : assign "__proto__" v fields = fields.
Proof. reflexivity. Qed.

(** What [obj[url] = record] leaves in a fresh object holds at most the
    record, under [url]. *)
Lemma holders_assigned url' url v :
  (length (HnswStore.holders url' (map element [JObj (assign url v [])])) ≤ 1)%nat
  ∧ (url' ≠ url → HnswStore.holders url' (map element [JObj (assign url v [])]) = []).
Proof.
  split.
  - pose proof (length_filter (λ el, HnswStore.holds url' el = true)
      (map element [JObj (assign url v [])])) as H. cbn [map length] in H. exact H.
  - intros Hne. unfold HnswStore.holders. cbn [map].
    rewrite filter_cons_False; [reflexivity|].
    intros H. apply holds_element in H. unfold assign in H.
    destruct (String.eqb url "__proto__"); cbn in H; [discriminate|].
    rewrite (proj2 (String.eqb_neq _ _)) in H by congruence. discriminate.
Qed.

(** [saveToLocalStorage], case by case on what the path holds. *)
Lemma saveToLocalStorage_cases p docs url name notes w :
  HnswStore.saveToLocalStorage e p docs url name notes w =
  let entry := JObj [(url, HnswStore.paper_record e docs url name notes)] in
  let assigned := JObj (assign url (HnswStore.paper_record e docs url name notes) []) in
  match fs w !! p with
  | None =>
      (Return (), with_fs (<[p := File (JSON_stringify (JArr [entry]))]> (fs w)) w)
  | Some Dir => (Throw "EISDIR", w)
  | Some (File c) =>
      if is_blank c then (Return (), w) else
      match (try! parsed := JSON_parse c in spread parsed) with
      | Throw msg => (Throw msg, w)
      | Return items =>
          match some_hasOwn url items with
          | Throw msg => (Throw msg, w)
          | Return true => (Return (), w)
          | Return false =>
              (Return (),
               with_fs (<[p := File (JSON_stringify (JArr (items ++ [assigned])))]> (fs w))
                 w)
          end
      end
  end.
Proof.
  unfold HnswStore.saveToLocalStorage, bind, lift, ret, Fs.existsSync, Fs.readFileSync,
    Fs.writeFileSync.
  destruct (fs w !! p) as [[c|]|] eqn:Hp; cbn; rewrite ?Hp; try reflexivity.
  destruct (is_blank c); cbn; [reflexivity|].
  destruct (obind (JSON_parse c) _) as [items|msg]; cbn; [|reflexivity].
  destruct (some_hasOwn url items) as [[]|msg]; cbn; rewrite ?Hp; reflexivity.
Qed.

Lemma saveToLocalStorage_unique p docs url name notes w :
  HnswStore.store_unique (fs w !! p) →
  HnswStore.store_unique
    (fs (HnswStore.saveToLocalStorage e p docs url name notes w).2 !! p).
Proof.
  intros Hu. rewrite saveToLocalStorage_cases. cbv zeta.
  destruct (fs w !! p) as [[c|]|] eqn:Hp; cbn [snd]; rewrite ?Hp; try exact Hu.
  - destruct (is_blank c); cbn [snd]; rewrite ?Hp; [exact Hu|].
    destruct (obind (JSON_parse c) _) as [items|msg] eqn:Hitems; cbn [snd];
      rewrite ?Hp; [|exact Hu].
    destruct (some_hasOwn url items) as [[]|msg] eqn:Hsome; cbn [snd];
      rewrite ?Hp; try exact Hu.
    cbn [fs with_fs]. rewrite lookup_insert_eq. unfold JSON_stringify.
    rewrite normalize_array. cbn [HnswStore.store_unique].
    intros url'. rewrite map_app. unfold HnswStore.holders.
    rewrite filter_app, length_app.
    fold (HnswStore.holders url' (map element items)).
    fold (HnswStore.holders url'
            (map element [JObj (assign url (HnswStore.paper_record e docs url name notes) [])])).
    destruct (holders_assigned url' url (HnswStore.paper_record e docs url name notes))
      as [H1 Hnone].
    destruct (decide (url' = url)) as [->|Hne].
    + pose proof (holders_elements url items) as Hle.
      rewrite (some_hasOwn_false _ _ Hsome) in Hle. cbn [length] in Hle. lia.
    + assert (Hold : (length (HnswStore.holders url' (map element items)) ≤ 1)%nat).
      { destruct c as [| |v|]; cbn in Hitems; try discriminate.
        destruct v as [| | | |s|items'|]; cbn in Hitems; try discriminate.
        - injection Hitems as <-. unfold HnswStore.holders.
          rewrite (proj2 (length_zero_iff_nil _)); [lia|].
          unfold chars. induction (list_ascii_of_string s) as [|a l IH]; [reflexivity|].
          cbn [map]. rewrite filter_cons_False by (cbn; discriminate). exact IH.
        - injection Hitems as <-.
          pose proof (holders_elements url' items'). specialize (Hu url'). lia. }
      rewrite (Hnone Hne). cbn [length]. lia.
  - cbn [fs with_fs]. rewrite lookup_insert_eq. unfold JSON_stringify.
    rewrite normalize_array. cbn [HnswStore.store_unique]. intros url'.
    pose proof (length_filter (λ el, HnswStore.holds url' el = true)
      (map element [JObj [(url, HnswStore.paper_record e docs url name notes)]])) as H1.
    cbn [map length] in H1. cbn [map]. exact H1.
Qed.

End LocalStorage.

Section NotesFile.

Lemma saveNotesLocally_cases url notes w :
  Notes.saveNotesLocally url notes w =
  let fresh := File (JSON_stringify (JObj (assign url (JArr notes) []))) in
  match fs w !! Notes.notesPath with
  | None => (Return (), w)
  | Some Dir => (Throw "EISDIR", w)
  | Some (File c) =>
      if is_blank c then (Return (), with_fs (<[Notes.notesPath := fresh]> (fs w)) w) else
      match (try! copyNotesObj := JSON_parse c in Object_keys copyNotesObj) with
      | Throw msg => (Throw msg, w)
      | Return keys =>
          if existsb (String.eqb url) keys then (Return (), w)
          else (Return (), with_fs (<[Notes.notesPath := fresh]> (fs w)) w)
      end
  end.
Proof.
  unfold Notes.saveNotesLocally, bind, lift, ret, Fs.existsSync, Fs.readFileSync,
    Fs.writeFileSync, Notes.notesPath.
  destruct (fs w !! _) as [[c|]|] eqn:Hp; cbn; rewrite ?Hp; try reflexivity.
  destruct (is_blank c); cbn; rewrite ?Hp; [reflexivity|].
  destruct (JSON_parse c) as [v|msg]; cbn; [|reflexivity].
  destruct (Object_keys v) as [keys|msg]; cbn; [|reflexivity].
  destruct (existsb _ keys); cbn; rewrite ?Hp; reflexivity.
Qed.

Lemma saveNotesLocally_known url notes fields w :
  fs w !! Notes.notesPath = Some (File (Encoded (JObj fields))) →
  url ∈ map fst fields →
  Notes.saveNotesLocally url notes w = (Return (), w).
Proof.
  intros Hp Hin. rewrite saveNotesLocally_cases. cbv zeta. rewrite Hp. cbn.
  replace (existsb (String.eqb url) (map fst fields)) with true; [reflexivity|].
  symmetry. apply existsb_exists. exists url. split; [|apply String.eqb_refl].
  now apply list_elem_of_In.
Qed.

End NotesFile.

(** ** The hosted store *)

Section Supabase.
Context (e : env).

(** [getPaper], case by case on what the client answers. *)
Lemma getPaper_cases url w :
  SupabaseDatabase.getPaper e url w =
  if select_answers e then
    match SupabaseDatabase.matching url (papers_table w) with
    | row :: _ => (Return (Some row), w)
    | [] => (Throw TypeError, w)
    end
  else (Return None, w).
Proof.
  unfold SupabaseDatabase.getPaper, catch, throw, SupabaseDatabase.select,
    SupabaseDatabase.matching.
  destruct (select_answers e); cbn; [|reflexivity].
  destruct (filter _ (papers_table w)); reflexivity.
Qed.

Lemma matching_none url t :
  (∀ row, row ∈ t → Row.arxiv_url row ≠ url) → SupabaseDatabase.matching url t = [].
Proof.
  unfold SupabaseDatabase.matching. induction t as [|row t IH]; intros H; [reflexivity|].
  rewrite filter_cons_False.
  - apply IH. intros r Hr. apply H. now apply list_elem_of_further.
  - rewrite String.eqb_eq. apply H. apply list_elem_of_here.
Qed.

Lemma getPaper_missing url w :
  select_answers e = true →
  (∀ row, row ∈ papers_table w → Row.arxiv_url row ≠ url) →
  SupabaseDatabase.getPaper e url w = (Throw TypeError, w).
Proof.
  intros Hs Hm. rewrite getPaper_cases, Hs, (matching_none _ _ Hm). reflexivity.
Qed.

Lemma fromExistingIndex_cases w :
  SupabaseDatabase.fromExistingIndex e w =
  match supabase_error e with
  | Some msg => (Throw msg, w)
  | None => (Return (), w)
  end.
Proof.
  unfold SupabaseDatabase.fromExistingIndex, catch, throw, ret.
  destruct (supabase_error e); reflexivity.
Qed.

(** [main] up to the existence check. *)
Lemma main_found url paperName pagesToDelete row w :
  supabase_error e = None →
  Js.endsWith url ".pdf" = true →
  SupabaseDatabase.getPaper e url w = (Return (Some row), w) →
  Notes.main e url paperName pagesToDelete w = (Return (Row.notes row), w).
Proof.
  intros He Hpdf Hget. unfold Notes.main, catch, bind.
  rewrite fromExistingIndex_cases, He, Hpdf. cbn. rewrite Hget. reflexivity.
Qed.

(** With a client that answers, [main] never reaches the insert. *)
Lemma main_select_answers url paperName pagesToDelete w :
  select_answers e = true →
  (Notes.main e url paperName pagesToDelete w).2 = w.
Proof.
  intros Hs. unfold Notes.main, catch, bind, throw.
  rewrite fromExistingIndex_cases.
  destruct (supabase_error e); [reflexivity|].
  destruct (Js.endsWith url ".pdf"); cbn; [|reflexivity].
  rewrite getPaper_cases, Hs.
  destruct (SupabaseDatabase.matching url (papers_table w)); reflexivity.
Qed.

(** C8: for every URL with no matching row in the papers table, and a
    client that answers the select, [getPaper] does not return null: the
    access to [data[0].name] raises and the error propagates, so [main]
    throws, with nothing ingested and nothing changed. *)
Theorem getPaper_throws_on_missing_row url paperName pagesToDelete w :
  select_answers e = true →
  (∀ row, row ∈ papers_table w → Row.arxiv_url row ≠ url) →
  SupabaseDatabase.getPaper e url w = (Throw TypeError, w)
  ∧ Notes.main e url paperName pagesToDelete w = (Throw Notes.no_braids, w).
Proof.
  intros Hs Hm. split; [now apply getPaper_missing|].
  unfold Notes.main, catch, bind, throw.
  rewrite fromExistingIndex_cases.
  destruct (supabase_error e); [reflexivity|].
  destruct (Js.endsWith url ".pdf"); cbn; [|reflexivity].
  rewrite getPaper_missing by assumption. reflexivity.
Qed.

End Supabase.

(** ** Saving twice, saving nothing *)

Section Saving.
Context (e : env).

(** C9: the local persistence helpers persist nothing, and raise nothing, in
    two cases: [saveToLocalStorage] when the storage file exists but is
    empty, and [saveNotesLocally] when generated_notes/notes.json does not
    exist. *)
Theorem local_saves_persist_nothing p docs url name notes w :
  (fs w !! p = Some (File Blank) →
   HnswStore.saveToLocalStorage e p docs url name notes w = (Return (), w))
  ∧ (fs w !! Notes.notesPath = None →
     Notes.saveNotesLocally url notes w = (Return (), w)).
Proof.
  split; intros H.
  - rewrite saveToLocalStorage_cases. cbv zeta. now rewrite H.
  - rewrite saveNotesLocally_cases. cbv zeta. now rewrite H.
Qed.

(** Adding a URL that notes.json does not know replaces the whole file by
    the new entry. *)
Lemma saveNotesLocally_overwrites url notes fields w :
  fs w !! Notes.notesPath = Some (File (Encoded (JObj fields))) →
  url ∉ map fst fields →
  url ≠ "__proto__"%string →
  Notes.saveNotesLocally url notes w =
  (Return (),
   with_fs (<[Notes.notesPath := File (JSON_stringify (JObj [(url, JArr notes)]))]> (fs w)) w).
Proof.
  intros Hp Hin Hplain. rewrite saveNotesLocally_cases. cbv zeta.
  rewrite (assign_plain _ _ Hplain), Hp. cbn.
  replace (existsb (String.eqb url) (map fst fields)) with false; [reflexivity|].
  symmetry. apply not_true_is_false. intros (k & Hk & Heq)%existsb_exists.
  apply String.eqb_eq in Heq as <-. now apply Hin, list_elem_of_In.
Qed.

(** Adding a URL that the storage array does not know appends its record to
    the records already there. *)
Lemma saveToLocalStorage_appends p docs url name notes items w :
  fs w !! p = Some (File (Encoded (JArr items))) →
  some_hasOwn url items = Return false →
  HnswStore.saveToLocalStorage e p docs url name notes w =
  (Return (),
   with_fs (<[p := File (Encoded (JArr
      (map element items ++
       [element (JObj (assign url (HnswStore.paper_record e docs url name notes) []))])))]>
      (fs w)) w).
Proof.
  intros Hp Hs. rewrite saveToLocalStorage_cases. cbv zeta. rewrite Hp. cbn [is_blank].
  cbn [JSON_parse obind spread]. rewrite Hs.
  unfold JSON_stringify. now rewrite normalize_array, map_app.
Qed.

(** On JSON data the records already there come back exactly as they
    were. *)
Lemma saveToLocalStorage_preserves p docs url name notes items w :
  fs w !! p = Some (File (Encoded (JArr items))) →
  forallb is_json items = true →
  forallb is_json notes = true →
  some_hasOwn url items = Return false →
  HnswStore.saveToLocalStorage e p docs url name notes w =
  (Return (),
   with_fs (<[p := File (Encoded (JArr
      (items ++ [JObj (assign url (HnswStore.paper_record e docs url name notes) [])])))]>
      (fs w)) w).
Proof.
  intros Hp Hitems Hnotes Hs.
  rewrite (saveToLocalStorage_appends _ _ _ _ _ _ _ Hp Hs).
  rewrite (elements_json _ Hitems), element_json; [reflexivity| |apply normalize_json];
    unfold assign; destruct (String.eqb url "__proto__"); cbn; now rewrite ?Hnotes.
Qed.

Lemma saveToLocalStorage_known p docs url name notes items w :
  fs w !! p = Some (File (Encoded (JArr items))) →
  HnswStore.holders url items ≠ [] →
  (HnswStore.saveToLocalStorage e p docs url name notes w).2 = w.
Proof.
  intros Hp Hh. rewrite saveToLocalStorage_cases. cbv zeta. rewrite Hp. cbn.
  destruct (some_hasOwn url items) as [[]|] eqn:Hs; try reflexivity.
  now apply some_hasOwn_false in Hs.
Qed.

(** What the save operations do keep: with a client that answers, [main]
    leaves the table as it is, and returns the stored notes when [getPaper]
    finds the URL; [saveToLocalStorage] keeps the records of its storage
    file unique and leaves the file as it is when it holds a record under
    the URL; [saveNotesLocally] leaves notes.json as it is when the URL is
    one of its keys. *)
Lemma stores_keep_one_record_per_url
    paperUrl paperName pagesToDelete row p docs url name notes items fields w :
  (select_answers e = true →
   SupabaseDatabase.urls_unique (papers_table w) →
   SupabaseDatabase.urls_unique
     (papers_table (Notes.main e paperUrl paperName pagesToDelete w).2))
  ∧ (supabase_error e = None →
     Js.endsWith paperUrl ".pdf" = true →
     SupabaseDatabase.getPaper e paperUrl w = (Return (Some row), w) →
     Notes.main e paperUrl paperName pagesToDelete w = (Return (Row.notes row), w))
  ∧ (HnswStore.store_unique (fs w !! p) →
     HnswStore.store_unique
       (fs (HnswStore.saveToLocalStorage e p docs url name notes w).2 !! p))
  ∧ (fs w !! p = Some (File (Encoded (JArr items))) →
     HnswStore.holders url items ≠ [] →
     (HnswStore.saveToLocalStorage e p docs url name notes w).2 = w)
  ∧ (fs w !! Notes.notesPath = Some (File (Encoded (JObj fields))) →
     url ∈ map fst fields →
     Notes.saveNotesLocally url notes w = (Return (), w)).
Proof.
  split; [|split; [|split; [|split]]].
  - intros Hs Hu. now rewrite main_select_answers.
  - apply main_found.
  - apply saveToLocalStorage_unique.
  - apply saveToLocalStorage_known.
  - apply saveNotesLocally_known.
Qed.

End Saving.

(** ** Question answering over the local index *)

Section Lookups.

Lemma has_entry_cases p url w :
  HnswStore.has_entry p url w = (HnswStore.entry_present (fs w !! p) url, w).
Proof.
  unfold HnswStore.has_entry, HnswStore.entry_present, bind, lift, ret,
    Fs.existsSync, Fs.readFileSync.
  destruct (fs w !! p) as [[c|]|] eqn:Hp; cbn; rewrite ?Hp; try reflexivity.
  destruct (JSON_parse c) as [v|msg] eqn:Hc; cbn; [|reflexivity].
  destruct (isArray v); cbn; rewrite ?Hp; [|reflexivity].
  cbn. rewrite Hc. cbn. destruct (some_own v url); reflexivity.
Qed.

Lemma read_entry_cases p url w :
  HnswStore.read_entry p url w = (HnswStore.entry_of (fs w !! p) url, w).
Proof.
  unfold HnswStore.read_entry, HnswStore.entry_of, bind, lift, ret, Fs.readFileSync.
  destruct (fs w !! p) as [[c|]|] eqn:Hp; cbn; try reflexivity.
  destruct (JSON_parse c) as [v|msg]; cbn; [|reflexivity].
  destruct (find_own v url) as [el|msg]; cbn; [|reflexivity].
  destruct (get el url); reflexivity.
Qed.

Lemma some_find url items :
  some_hasOwn url items = Return true →
  ∃ el, find_hasOwn url items = Return el ∧ hasOwnProperty el url = Return true.
Proof.
  induction items as [|x r IH]; cbn; [discriminate|].
  destruct (hasOwnProperty x url) as [[]|] eqn:Hx; cbn; try discriminate; eauto.
Qed.

Lemma find_some url items el :
  find_hasOwn url items = Return el → hasOwnProperty el url = Return true →
  some_hasOwn url items = Return true.
Proof.
  induction items as [|x r IH]; cbn.
  - intros [= <-]. discriminate.
  - destruct (hasOwnProperty x url) as [[]|] eqn:Hx; cbn; try discriminate; auto.
Qed.

Lemma stored_notes_retrieved w url notes :
  Qa.stored_notes w url notes → Qa.retrieved_notes w url = Return notes.
Proof.
  intros (items & el & record & Hf & Hfind & Hown & Hget & Hnotes & _).
  unfold Qa.retrieved_notes. rewrite Hf. cbn.
  rewrite (find_some _ _ _ Hfind Hown). cbn. rewrite Hfind. cbn. now rewrite Hget.
Qed.

Lemma retrieved_stored w url notes :
  Qa.retrieved_notes w url = Return notes → truthy notes = true →
  Qa.stored_notes w url notes.
Proof.
  unfold Qa.retrieved_notes, Qa.stored_notes, HnswStore.entry_present, HnswStore.entry_of.
  intros H Ht.
  destruct (fs w !! Qa.stored_paper_of url) as [[c|]|];
    cbn in H; try discriminate; try (injection H as <-; discriminate).
  destruct c as [| |v|]; cbn in H; try discriminate.
  destruct v as [| | | | |items|]; cbn in H;
    try discriminate; try (injection H as <-; discriminate).
  destruct (some_hasOwn url items) as [[]|] eqn:Hsome; cbn in H;
    try discriminate; try (injection H as <-; discriminate).
  destruct (some_find _ _ Hsome) as (el & Hfind & Hown).
  rewrite Hfind in H. cbn in H.
  destruct (get el url) as [record|] eqn:Hget; cbn in H; [|discriminate].
  exists items, el, record. auto 10.
Qed.

Lemma no_stored_notes_retrieved w url :
  Qa.no_stored_notes w url →
  ∃ notes, Qa.retrieved_notes w url = Return notes ∧ truthy notes = false.
Proof.
  unfold Qa.retrieved_notes.
  intros [H|[(v & H & Hv)|[(items & H & Hs)|
    (items & el & record & notes & H & Hf & Ho & Hg & Hn & Ht)]]];
    rewrite H; cbn.
  - eauto.
  - rewrite Hv. cbn. eauto.
  - rewrite Hs. cbn. eauto.
  - rewrite (find_some _ _ _ Hf Ho). cbn. rewrite Hf. cbn. rewrite Hg. cbn. eauto.
Qed.

End Lookups.

Section Errors.

Lemma hasOwnProperty_throws el url m :
  hasOwnProperty el url = Throw m → m = TypeError.
Proof.
  destruct el as [| | | | | |fields]; cbn; try discriminate;
    try (intros [= <-]; reflexivity).
  destruct (defined (assoc "hasOwnProperty" fields)); [|discriminate].
  now intros [= <-].
Qed.

Lemma some_hasOwn_throws url items m :
  some_hasOwn url items = Throw m → m = TypeError.
Proof.
  induction items as [|x r IH]; cbn [some_hasOwn]; [discriminate|].
  destruct (hasOwnProperty x url) as [[]|m'] eqn:Hx; cbn [obind];
    [discriminate|exact IH|].
  intros [= <-]. exact (hasOwnProperty_throws _ _ _ Hx).
Qed.

Lemma find_hasOwn_throws url items m :
  find_hasOwn url items = Throw m → m = TypeError.
Proof.
  induction items as [|x r IH]; cbn [find_hasOwn]; [discriminate|].
  destruct (hasOwnProperty x url) as [[]|m'] eqn:Hx; cbn [obind];
    [discriminate|exact IH|].
  intros [= <-]. exact (hasOwnProperty_throws _ _ _ Hx).
Qed.

Lemma get_throws v key m : get v key = Throw m → m = TypeError.
Proof.
  destruct v; cbn; try discriminate; try (intros [= <-]; reflexivity);
    destruct (String.eqb key "length"); discriminate.
Qed.

Lemma entry_present_throws f url m :
  HnswStore.entry_present f url = Throw m → runtime_error m.
Proof.
  unfold runtime_error. destruct f as [[c|]|]; cbn; try discriminate.
  - destruct c as [| |v|]; cbn; try (intros [= <-]; auto).
    destruct v; cbn; try discriminate.
    intros ->%some_hasOwn_throws. auto.
  - intros [= <-]. auto.
Qed.

Lemma entry_of_throws f url m :
  HnswStore.entry_of f url = Throw m → runtime_error m.
Proof.
  unfold runtime_error. destruct f as [[c|]|]; cbn; try (intros [= <-]; auto).
  destruct c as [| |v|]; cbn; try (intros [= <-]; auto).
  destruct v; cbn; try (intros [= <-]; auto).
  destruct (find_hasOwn url items) as [el|m'] eqn:Hf; cbn.
  - intros ->%get_throws. auto.
  - intros [= <-]. apply find_hasOwn_throws in Hf as ->. auto.
Qed.

Lemma runtime_error_not_invalid m : runtime_error m → m ≠ Notes.invalid_pdf.
Proof. intros [ -> | [ -> | [ -> | -> ] ] ]; discriminate. Qed.

End Errors.

Section QaGuards.
Context (e : env).

Lemma qaOnPaperV2_cases question paperUrl w :
  Qa.qaOnPaperV2 e question paperUrl w =
  match fs w !! Qa.vector_store_of paperUrl with
  | None => (Throw Qa.no_vector_store, w)
  | Some _ =>
      match Qa.retrieved_notes w paperUrl with
      | Throw msg => (Throw msg, w)
      | Return notes =>
          if truthy notes
          then Qa.answer_from_index e question paperUrl (Qa.vector_store_of paperUrl) notes w
          else (Throw Qa.no_text, w)
      end
  end.
Proof.
  unfold Qa.qaOnPaperV2, Qa.retrieved_notes. unfold bind at 1. unfold Fs.existsSync.
  destruct (fs w !! Qa.vector_store_of paperUrl); cbn [defined negb]; [|reflexivity].
  unfold bind at 1. rewrite has_entry_cases.
  destruct (HnswStore.entry_present _ _) as [found|msg]; cbn [obind]; [|reflexivity].
  unfold bind at 1.
  assert (Hr : (if found then HnswStore.read_entry (Qa.stored_paper_of paperUrl) paperUrl
                else ret JUndefined) w =
               (if found
                then HnswStore.entry_of (fs w !! Qa.stored_paper_of paperUrl) paperUrl
                else Return JUndefined, w)).
  { destruct found; [apply read_entry_cases|reflexivity]. }
  rewrite Hr. clear Hr.
  destruct (if found then _ else _) as [rp|msg]; cbn [obind]; [|reflexivity].
  unfold bind at 1, lift.
  destruct (get_opt rp "notes") as [notes|msg]; [|reflexivity].
  destruct (truthy notes); reflexivity.
Qed.

(** A [try] block whose [catch] returns never throws. *)
Lemma catch_returns {A} (m : M A) (a : A) w :
  ∃ v w', catch m (λ _, ret a) w = (Return v, w').
Proof. unfold catch, ret. destruct (m w) as [[v|msg] w']; eauto. Qed.

Lemma get_of_own el key b :
  hasOwnProperty el key = Return b → ∃ v, get el key = Return v.
Proof.
  destruct el; cbn; try discriminate; intros _; eauto;
    destruct (String.eqb key "length"); eauto.
Qed.

Lemma get_opt_notes record : ∃ notes, get_opt record "notes" = Return notes.
Proof. destruct record; cbn; eauto. Qed.

(** The search for stored notes ends in one of three ways. *)
Lemma unreadable_retrieved w url msg :
  Qa.unreadable_notes w url msg ↔ Qa.retrieved_notes w url = Throw msg.
Proof.
  unfold Qa.retrieved_notes, Qa.unreadable_notes, HnswStore.entry_present,
    HnswStore.entry_of.
  split.
  - intros [[-> ->]|[(c & -> & Hc)|(items & -> & Hs)]]; cbn.
    + reflexivity.
    + now rewrite Hc.
    + now rewrite Hs.
  - destruct (fs w !! Qa.stored_paper_of url) as [[c|]|]; cbn.
    + destruct (JSON_parse c) as [v|m] eqn:Hc; cbn.
      * destruct c as [| |v'|]; cbn in Hc; try discriminate. injection Hc as ->.
        destruct v as [| | | | |items|]; cbn; try discriminate.
        destruct (some_hasOwn url items) as [[]|m] eqn:Hs; cbn.
        -- destruct (some_find _ _ Hs) as (el & -> & Hown). cbn.
           destruct (get_of_own _ _ _ Hown) as (record & ->). cbn.
           destruct (get_opt_notes record) as (notes & ->). discriminate.
        -- discriminate.
        -- intros [= <-]. right. right. eauto.
      * intros [= <-]. right. left. eauto.
    + intros [= <-]. now left.
    + discriminate.
Qed.

Lemma retrieved_nothing w url notes :
  Qa.retrieved_notes w url = Return notes → truthy notes = false →
  Qa.no_stored_notes w url.
Proof.
  unfold Qa.retrieved_notes, Qa.no_stored_notes, HnswStore.entry_present,
    HnswStore.entry_of.
  destruct (fs w !! Qa.stored_paper_of url) as [[c|]|]; cbn; [|discriminate|now left].
  destruct c as [| |v|]; cbn; try discriminate.
  destruct (isArray v) eqn:Hv; cbn; [|intros _ _; right; left; eauto].
  destruct v as [| | | | |items|]; try discriminate. cbn.
  destruct (some_hasOwn url items) as [[]|m] eqn:Hs; cbn; [| |discriminate].
  - destruct (some_find _ _ Hs) as (el & Hfind & Hown). rewrite Hfind. cbn.
    destruct (get el url) as [record|] eqn:Hget; cbn; [|discriminate].
    intros Hn Ht. right. right. right. exists items, el, record, notes. auto 10.
  - intros _ _. right. right. left. eauto.
Qed.

Lemma retrieved_cases w url :
  (∃ notes, Qa.stored_notes w url notes)
  ∨ Qa.no_stored_notes w url
  ∨ (∃ msg, Qa.unreadable_notes w url msg).
Proof.
  destruct (Qa.retrieved_notes w url) as [notes|msg] eqn:Hr.
  - destruct (truthy notes) eqn:Ht.
    + left. exists notes. now apply retrieved_stored.
    + right. left. now apply (retrieved_nothing _ _ notes).
  - right. right. exists msg. now apply unreadable_retrieved.
Qed.

(** C6, as amended: [qaOnPaperV2] returns only when the vector-store
    directory exists and stored notes for the URL exist; it throws "No
    vector store directory found" when the directory is missing; with the
    directory in place it throws "No text found" when data.json is missing,
    holds no array, holds no element for the URL or holds a record without
    notes, and it throws the error of the lookup itself (EISDIR, SyntaxError
    or TypeError) when data.json cannot be read, cannot be parsed or holds an
    element on which the lookup fails; these are all the cases, and
    whatever it throws, it throws with the world untouched, before any
    model or retriever call. *)
Theorem qaOnPaperV2_guards question paperUrl w :
  (fs w !! Qa.vector_store_of paperUrl = None →
   Qa.qaOnPaperV2 e question paperUrl w = (Throw Qa.no_vector_store, w))
  ∧ (is_Some (fs w !! Qa.vector_store_of paperUrl) →
     Qa.no_stored_notes w paperUrl →
     Qa.qaOnPaperV2 e question paperUrl w = (Throw Qa.no_text, w))
  ∧ (is_Some (fs w !! Qa.vector_store_of paperUrl) →
     ∀ msg, Qa.unreadable_notes w paperUrl msg →
     Qa.qaOnPaperV2 e question paperUrl w = (Throw msg, w)
     ∧ (msg = "EISDIR"%string ∨ msg = SyntaxError ∨ msg = TypeError))
  ∧ ((∃ notes, Qa.stored_notes w paperUrl notes)
     ∨ Qa.no_stored_notes w paperUrl
     ∨ (∃ msg, Qa.unreadable_notes w paperUrl msg))
  ∧ (∀ v w', Qa.qaOnPaperV2 e question paperUrl w = (Return v, w') →
     is_Some (fs w !! Qa.vector_store_of paperUrl)
     ∧ ∃ notes, Qa.stored_notes w paperUrl notes)
  ∧ (∀ msg w', Qa.qaOnPaperV2 e question paperUrl w = (Throw msg, w') → w' = w).
Proof.
  rewrite qaOnPaperV2_cases. split; [|split; [|split; [|split; [|split]]]].
  - intros ->. reflexivity.
  - intros [d ->] (notes & -> & ->)%no_stored_notes_retrieved. reflexivity.
  - intros [d ->] msg Hu. split; [now apply unreadable_retrieved in Hu as ->|].
    destruct Hu as [[_ ->]|[(c & _ & Hc)|(items & _ & Hs)]]; [now left| |].
    + destruct c; cbn in Hc; try discriminate; injection Hc as <-; auto.
    + apply some_hasOwn_throws in Hs as ->. auto.
  - apply retrieved_cases.
  - intros v w'. destruct (fs w !! Qa.vector_store_of paperUrl); [|discriminate].
    destruct (Qa.retrieved_notes w paperUrl) as [notes|msg] eqn:Hn; [|discriminate].
    destruct (truthy notes) eqn:Ht; [|discriminate].
    intros _. split; [eauto|]. exists notes. now apply retrieved_stored.
  - intros msg w'.
    destruct (fs w !! Qa.vector_store_of paperUrl); [|congruence].
    destruct (Qa.retrieved_notes w paperUrl) as [notes|m]; [|congruence].
    destruct (truthy notes); [|congruence].
    unfold Qa.answer_from_index.
    match goal with
    | |- catch ?m _ w = _ → _ =>
        destruct (catch_returns m JNull w) as (v' & w'' & ->)
    end.
    discriminate.
Qed.

End QaGuards.

Section FailureMarker.
Context (e : env).

Lemma notesAsString_truthy notes s :
  Qa.notesAsString notes = Return s → truthy notes = true.
Proof. destruct notes; cbn; try discriminate. reflexivity. Qed.

Lemma qaModelWithHNSW_chain_throws question documents notes s msg w :
  Qa.notesAsString notes = Return s →
  Qa.chain_invoke e question s (formatDocumentsAsString documents) = Throw msg →
  Qa.qaModelWithHNSW e question documents notes w
  = (Return Qa.failure_marker, with_calls (calls w ++ [AskQaModel question]) w).
Proof.
  intros Hs Hc. unfold Qa.qaModelWithHNSW, catch, bind, lift, record_call, ret.
  rewrite (notesAsString_truthy _ _ Hs), Hs. cbn. rewrite Hc. reflexivity.
Qed.

Lemma answer_from_index_chain_throws question paperUrl dir documents notes s msg w :
  Qa.notesAsString notes = Return s →
  Qa.chain_invoke e question s (formatDocumentsAsString documents) = Throw msg →
  index_loads e dir = true →
  getRelevantDocuments e question = Some documents →
  Qa.answer_from_index e question paperUrl dir notes w
  = (Return (JArr Qa.failure_marker),
     with_calls (calls w ++ [LoadIndex dir; Retrieve question; AskQaModel question]) w).
Proof.
  intros Hs Hc Hl Hd. unfold Qa.answer_from_index, catch.
  unfold bind at 1. unfold record_call at 1.
  unfold bind at 1. rewrite Hl. unfold ret at 1.
  unfold bind at 1. unfold record_call at 1.
  unfold bind at 1. rewrite Hd. unfold lift at 1.
  unfold bind at 1.
  rewrite (qaModelWithHNSW_chain_throws _ _ _ _ _ _ Hs Hc).
  cbn. unfold with_calls. cbn. rewrite <- !app_assoc. reflexivity.
Qed.

(** C5: when the model chain inside [qaModelWithHNSW] throws,
    [qaModelWithHNSW] returns the generic failure marker instead of
    raising, and [qaOnPaperV2] returns the marker and leaves the files on
    disk, qa_data.json among them, as they were. *)
Theorem failure_marker_is_not_persisted question paperUrl documents notes s msg w :
  Qa.notesAsString notes = Return s →
  Qa.chain_invoke e question s (formatDocumentsAsString documents) = Throw msg →
  (∃ w1, Qa.qaModelWithHNSW e question documents notes w = (Return Qa.failure_marker, w1)
         ∧ fs w1 = fs w)
  ∧ (is_Some (fs w !! Qa.vector_store_of paperUrl) →
     Qa.stored_notes w paperUrl notes →
     index_loads e (Qa.vector_store_of paperUrl) = true →
     getRelevantDocuments e question = Some documents →
     ∃ w', Qa.qaOnPaperV2 e question paperUrl w = (Return (JArr Qa.failure_marker), w')
           ∧ fs w' = fs w).
Proof.
  intros Hs Hc. split.
  - eexists. split; [now apply (qaModelWithHNSW_chain_throws _ _ _ _ _ _ Hs Hc)|reflexivity].
  - intros [d Hd] Hn Hl Hdocs. rewrite qaOnPaperV2_cases, Hd.
    rewrite (stored_notes_retrieved _ _ _ Hn), (notesAsString_truthy _ _ Hs).
    eexists. split; [now apply (answer_from_index_chain_throws _ _ _ _ _ _ _ _ Hs Hc)|].
    reflexivity.
Qed.

End FailureMarker.

(** ** Validation of the paper URL *)


Section Validation.
Context (e : env).

Lemma mainV2_cases paperUrl paperName pagesToDelete w :
  Notes.mainV2 e paperUrl paperName pagesToDelete w =
  if Notes.rejected w paperUrl then (Throw Notes.invalid_pdf, w) else
  match HnswStore.entry_present (fs w !! Notes.generated_notes_of paperUrl) paperUrl with
  | Throw msg => (Throw msg, w)
  | Return true =>
      (try! entry := HnswStore.entry_of (fs w !! Notes.generated_notes_of paperUrl) paperUrl in
       get entry "notes", w)
  | Return false =>
      Notes.ingest e paperUrl paperName pagesToDelete (Notes.urlRegEx_test paperUrl)
        (defined (fs w !! paperUrl)) (Notes.generated_notes_of paperUrl) w
  end.
Proof.
  unfold Notes.mainV2, Notes.rejected. unfold bind at 1. unfold Fs.existsSync.
  destruct (_ || _); [reflexivity|].
  unfold bind at 1. rewrite has_entry_cases.
  fold (Notes.generated_notes_of paperUrl).
  destruct (HnswStore.entry_present _ _) as [[]|msg]; try reflexivity.
  unfold bind, lift. rewrite read_entry_cases.
  destruct (HnswStore.entry_of _ _) as [entry|msg]; reflexivity.
Qed.

Lemma mainV2_accepted paperUrl paperName pagesToDelete w :
  Notes.rejected w paperUrl = false →
  (Notes.mainV2 e paperUrl paperName pagesToDelete w).1 ≠ Throw Notes.invalid_pdf.
Proof.
  intros Hr. rewrite mainV2_cases, Hr.
  destruct (HnswStore.entry_present _ _) as [[]|msg] eqn:Hp; cbn [fst].
  - destruct (HnswStore.entry_of _ _) as [entry|msg] eqn:Ho; cbn [obind].
    + destruct (get entry "notes") as [v|msg] eqn:Hg; [discriminate|].
      apply get_throws in Hg as ->. discriminate.
    + intros [= ->]. now apply entry_of_throws, runtime_error_not_invalid in Ho.
  - unfold Notes.ingest.
    match goal with
    | |- (catch ?m _ w).1 ≠ _ => destruct (catch_returns m JNull w) as (v & w' & ->)
    end.
    discriminate.
  - intros [= ->]. now apply entry_present_throws, runtime_error_not_invalid in Hp.
Qed.

Lemma rejected_iff w paperUrl :
  Notes.rejected w paperUrl = true ↔
  (Notes.urlRegEx_test paperUrl = false ∧ fs w !! paperUrl = None)
  ∨ Js.endsWith paperUrl ".pdf" = false.
Proof.
  unfold Notes.rejected.
  rewrite orb_true_iff, andb_true_iff, !negb_true_iff.
  destruct (fs w !! paperUrl); cbn; intuition congruence.
Qed.

(** C10: [mainV2] throws "Invalid PDF or file path." if and only if the
    URL fails both acceptance tests (the regular expression and the local
    file) or does not end with ".pdf"; every input it accepts ends with
    ".pdf"; POST /take-notes answers 500 with that error in exactly the
    same cases. *)
Theorem mainV2_rejects_iff paperUrl paperName pagesToDelete pages w :
  ((Notes.mainV2 e paperUrl paperName pagesToDelete w).1 = Throw Notes.invalid_pdf ↔
   (Notes.urlRegEx_test paperUrl = false ∧ fs w !! paperUrl = None)
   ∨ Js.endsWith paperUrl ".pdf" = false)
  ∧ ((Notes.mainV2 e paperUrl paperName pagesToDelete w).1 ≠ Throw Notes.invalid_pdf →
     Js.endsWith paperUrl ".pdf" = true)
  ∧ ((Server.post_take_notes e paperUrl paperName pages w).1
       = Server.SendError 500 Notes.invalid_pdf ↔
     (Notes.urlRegEx_test paperUrl = false ∧ fs w !! paperUrl = None)
     ∨ Js.endsWith paperUrl ".pdf" = false).
Proof.
  assert (Hiff : ∀ pagesToDelete,
    (Notes.mainV2 e paperUrl paperName pagesToDelete w).1 = Throw Notes.invalid_pdf ↔
    Notes.rejected w paperUrl = true).
  { intros p. split.
    - intros H. destruct (Notes.rejected w paperUrl) eqn:Hr; [reflexivity|].
      now apply (mainV2_accepted paperUrl paperName p) in Hr.
    - intros Hr. now rewrite mainV2_cases, Hr. }
  split; [|split].
  - now rewrite Hiff, rejected_iff.
  - intros H. destruct (Js.endsWith paperUrl ".pdf") eqn:Hpdf; [reflexivity|].
    exfalso. apply H, Hiff, rejected_iff. now right.
  - rewrite <- rejected_iff, <- (Hiff (Some (Server.pagesToDeleteArray pages))).
    unfold Server.post_take_notes.
    destruct (Notes.mainV2 _ _ _ _ _) as [[v|m] w']; cbn [fst];
      split; intros H; try discriminate; congruence.
Qed.

End Validation.

(** ** Questions asked twice, notes saved twice *)

(** C2, at the failing input: notes.json holds the notes of [url1]; saving
    the notes of [url2] replaces the file by the entry of [url2] alone. *)
Theorem saveNotesLocally_drops_saved_notes :
  let r := Notes.saveNotesLocally Sample.url2 [Sample.note2] Sample.notes_world in
  fs Sample.notes_world !! Notes.notesPath
    = Some (File (Encoded (JObj [(Sample.url1, JArr [Sample.note1])])))
  ∧ r.1 = Return ()
  ∧ fs r.2 !! Notes.notesPath
    = Some (File (Encoded (JObj [(Sample.url2, JArr [Sample.note2])]))).
Proof. vm_compute. repeat split. Qed.

(** The sibling path keeps what the file holds. *)
Example saveToLocalStorage_keeps_saved_record :
  let p := Qa.stored_paper_of Sample.url1 in
  let r := HnswStore.saveToLocalStorage Sample.env0 p [Sample.doc1] Sample.url2 "GPT-3"
             [Sample.note2] Sample.world0 in
  r.1 = Return ()
  ∧ fs r.2 !! p
    = Some (File (Encoded (JArr
        [Sample.stored_paper;
         JObj [(Sample.url2,
                HnswStore.paper_record Sample.env0 [Sample.doc1] Sample.url2 "GPT-3"
                  [Sample.note2])]]))).
Proof. vm_compute. repeat split. Qed.

(** C1, at the failing input: [question1] has a record in qa_data.json, yet
    [qaOnPaperV2] asks the model again, returns the model's answer and
    appends a second record for the same question. *)
Theorem qaOnPaperV2_asks_the_model_again :
  let r := Qa.qaOnPaperV2 Sample.env0 Sample.question1 Sample.url1 Sample.world0 in
  fs Sample.world0 !! Qa.qa_data_of Sample.url1
    = Some (File (Encoded (JArr [Sample.stored_qa])))
  ∧ get Sample.stored_qa "question" = Return (JStr Sample.question1)
  ∧ get Sample.stored_qa "answer" = Return (JStr "stored answer")
  ∧ r.1 = Return (JArr [JObj [("answer", JStr "fresh answer");
                              ("followupQuestions", JArr [JStr "And then?"])]%string])
  ∧ calls r.2 = [LoadIndex (Qa.vector_store_of Sample.url1);
                 Retrieve Sample.question1;
                 AskQaModel Sample.question1]
  ∧ existsb is_model_call (calls r.2) = true
  ∧ fs r.2 !! Qa.qa_data_of Sample.url1
    = Some (File (Encoded (JArr
        [Sample.stored_qa;
         HnswStore.qa_record Sample.env0 Sample.question1 (JStr "fresh answer")
           "Attention is all you need." (JArr [JStr "And then?"])]))).
Proof. vm_compute. repeat split. Qed.

Section Dedup.
Context (e : env).

(** The hosted path does look the question up: a stored row with the exact
    question text is returned, whatever the paper URL, and the world is
    left as it is (no model call). *)
Lemma qaOnPaper_returns_stored question paperUrl row rest w :
  supabase_error e = None →
  select_answers e = true →
  filter (λ r, String.eqb (Row.question r) question = true) (qa_table w) = row :: rest →
  Qa.qaOnPaper e question paperUrl w
  = (Return (JObj [("answer", Row.answer row);
                   ("followupQuestions", Row.followup_questions row)]%string), w).
Proof.
  intros He Hs Hf. unfold Qa.qaOnPaper, catch. unfold bind at 1.
  rewrite fromExistingIndex_cases, He. unfold bind at 1.
  unfold SupabaseDatabase.rtrnExistingQa, catch, SupabaseDatabase.select.
  rewrite Hs. cbn. rewrite Hf. reflexivity.
Qed.

End Dedup.

(** ** The theorems at work on the sample data *)

Lemma parsers_return_tool_call_arguments_witness :
  Prompt.outputParser
    {| tool_calls := Some [Sample.notes_call [Sample.note1; Sample.note2];
                           Sample.notes_call [Sample.note1]] |}
  = Return [Sample.note1; Sample.note2; Sample.note1]
  ∧ Prompt.answerOutputParser
      {| tool_calls := Some [Sample.answer_call "fresh answer" ["And then?"]%string] |}
    = Return [JObj [("answer", JStr "fresh answer");
                    ("followupQuestions", JArr [JStr "And then?"])]%string].
Proof.
  destruct (parsers_return_tool_call_arguments
              [Sample.notes_call [Sample.note1; Sample.note2];
               Sample.notes_call [Sample.note1]]
              [[Sample.note1; Sample.note2]; [Sample.note1]]
              [Sample.answer_call "fresh answer" ["And then?"]%string]
              [[("answer", JStr "fresh answer");
                ("followupQuestions", JArr [JStr "And then?"])]%string])
    as (H1 & H2 & _).
  - repeat constructor; eexists; split; reflexivity.
  - repeat constructor.
  - split; [exact H1|exact H2].
Defined.

Lemma getPaper_throws_on_missing_row_witness :
  SupabaseDatabase.getPaper Sample.env0 Sample.url2 Sample.world0
    = (Throw TypeError, Sample.world0)
  ∧ Notes.main Sample.env0 Sample.url2 "GPT-3" None Sample.world0
    = (Throw Notes.no_braids, Sample.world0).
Proof.
  apply (getPaper_throws_on_missing_row Sample.env0 Sample.url2 "GPT-3" None Sample.world0).
  - reflexivity.
  - intros row Hin. apply list_elem_of_singleton in Hin as ->. vm_compute. discriminate.
Defined.

Lemma local_saves_persist_nothing_witness :
  HnswStore.saveToLocalStorage Sample.env0 (Notes.generated_notes_of Sample.url1)
    [Sample.doc1] Sample.url1 "Attention" [Sample.note1] Sample.blank_world
  = (Return (), Sample.blank_world)
  ∧ Notes.saveNotesLocally Sample.url1 [Sample.note1] Sample.blank_world
    = (Return (), Sample.blank_world).
Proof.
  destruct (local_saves_persist_nothing Sample.env0 (Notes.generated_notes_of Sample.url1)
              [Sample.doc1] Sample.url1 "Attention" [Sample.note1] Sample.blank_world)
    as (H1 & H2).
  split; [apply H1|apply H2]; reflexivity.
Defined.

Lemma stores_keep_one_record_per_url_witness :
  SupabaseDatabase.urls_unique
    (papers_table (Notes.main Sample.env0 Sample.url1 "Attention" None Sample.world0).2)
  ∧ Notes.main Sample.env0 Sample.url1 "Attention" None Sample.world0
    = (Return (JArr [Sample.note1]), Sample.world0)
  ∧ HnswStore.store_unique
      (fs (HnswStore.saveToLocalStorage Sample.env0 (Qa.stored_paper_of Sample.url1)
             [Sample.doc1] Sample.url2 "GPT-3" [Sample.note2] Sample.world0).2
       !! Qa.stored_paper_of Sample.url1)
  ∧ (HnswStore.saveToLocalStorage Sample.env0 (Qa.stored_paper_of Sample.url1)
       [Sample.doc1] Sample.url1 "Attention" [Sample.note2] Sample.world0).2
    = Sample.world0
  ∧ Notes.saveNotesLocally Sample.url1 [Sample.note2] Sample.world0
    = (Return (), Sample.world0).
Proof.
  destruct (stores_keep_one_record_per_url Sample.env0 Sample.url1 "Attention" None
              Sample.paper_row (Qa.stored_paper_of Sample.url1) [Sample.doc1]
              Sample.url2 "GPT-3" [Sample.note2] [Sample.stored_paper]
              [(Sample.url1, JArr [Sample.note1])] Sample.world0)
    as (H1 & H2 & H3 & _ & _).
  destruct (stores_keep_one_record_per_url Sample.env0 Sample.url1 "Attention" None
              Sample.paper_row (Qa.stored_paper_of Sample.url1) [Sample.doc1]
              Sample.url1 "Attention" [Sample.note2] [Sample.stored_paper]
              [(Sample.url1, JArr [Sample.note1])] Sample.world0)
    as (_ & _ & _ & H4 & H5).
  split; [|split; [|split; [|split]]].
  - apply H1; [reflexivity|]. apply NoDup_singleton.
  - apply H2; reflexivity.
  - apply H3. change (HnswStore.records_unique [Sample.stored_paper]). intros url.
    apply (length_filter (λ el, HnswStore.holds url el = true) [Sample.stored_paper]).
  - apply H4; [reflexivity|]. intros H. vm_compute in H. discriminate H.
  - apply H5; [reflexivity|]. apply list_elem_of_here.
Defined.

Lemma qaOnPaperV2_guards_witness :
  Qa.qaOnPaperV2 Sample.env0 Sample.question1 Sample.url1 Sample.empty_world
    = (Throw Qa.no_vector_store, Sample.empty_world)
  ∧ Qa.qaOnPaperV2 Sample.env0 Sample.question1 Sample.url2 Sample.index_only_world
    = (Throw Qa.no_text, Sample.index_only_world)
  ∧ (is_Some (fs Sample.world0 !! Qa.vector_store_of Sample.url1)
     ∧ ∃ notes, Qa.stored_notes Sample.world0 Sample.url1 notes)
  ∧ Qa.qaOnPaperV2 Sample.env0 Sample.question1 Sample.url1 blank_store_world
    = (Throw SyntaxError, blank_store_world).
Proof.
  destruct (qaOnPaperV2_guards Sample.env0 Sample.question1 Sample.url1 blank_store_world)
    as (_ & _ & H4 & _).
  destruct (qaOnPaperV2_guards Sample.env0 Sample.question1 Sample.url1 Sample.empty_world)
    as (H1 & _).
  destruct (qaOnPaperV2_guards Sample.env0 Sample.question1 Sample.url2
              Sample.index_only_world) as (_ & H2 & _).
  destruct (qaOnPaperV2_guards Sample.env0 Sample.question1 Sample.url1 Sample.world0)
    as (_ & _ & _ & _ & H3 & _).
  split; [|split; [|split]].
  - apply H1. reflexivity.
  - apply H2; [eexists; reflexivity|]. left. reflexivity.
  - eapply H3. vm_compute. reflexivity.
  - apply H4; [eexists; reflexivity|]. right. left. exists Blank. split; reflexivity.
Defined.

(** C6 as stated fails when data.json cannot be parsed: with the index
    directory in place and a blank data.json there are no stored notes for
    the URL, and [qaOnPaperV2] throws the SyntaxError of [JSON.parse], not
    "No text found". *)
Lemma qaOnPaperV2_guards_counterexample :
  is_Some (fs blank_store_world !! Qa.vector_store_of Sample.url1)
  ∧ (¬ ∃ notes, Qa.stored_notes blank_store_world Sample.url1 notes)
  ∧ Qa.qaOnPaperV2 Sample.env0 Sample.question1 Sample.url1 blank_store_world
    = (Throw SyntaxError, blank_store_world)
  ∧ Qa.qaOnPaperV2 Sample.env0 Sample.question1 Sample.url1 blank_store_world
    ≠ (Throw Qa.no_text, blank_store_world).
Proof.
  split; [eexists; reflexivity|]. split; [|split].
  - intros (notes & items & el & record & Hf & _). vm_compute in Hf. discriminate Hf.
  - vm_compute. reflexivity.
  - vm_compute. discriminate.
Qed.

Lemma failure_marker_is_not_persisted_witness :
  (∃ w1, Qa.qaModelWithHNSW Sample.env_down Sample.question1 [Sample.doc1]
           (JArr [Sample.note1]) Sample.world0 = (Return Qa.failure_marker, w1)
         ∧ fs w1 = fs Sample.world0)
  ∧ ∃ w', Qa.qaOnPaperV2 Sample.env_down Sample.question1 Sample.url1 Sample.world0
          = (Return (JArr Qa.failure_marker), w')
          ∧ fs w' = fs Sample.world0.
Proof.
  destruct (failure_marker_is_not_persisted Sample.env_down Sample.question1 Sample.url1
              [Sample.doc1] (JArr [Sample.note1])
              "Attention relates positions of one sequence." "model" Sample.world0)
    as (H1 & H2).
  - reflexivity.
  - reflexivity.
  - split; [exact H1|]. apply H2.
    + eexists. reflexivity.
    + exists [Sample.stored_paper], Sample.stored_paper,
        (HnswStore.paper_record Sample.env0 [Sample.doc1] Sample.url1 "Attention"
           [Sample.note1]).
      repeat split; reflexivity.
    + reflexivity.
    + reflexivity.
Defined.

Lemma mainV2_rejects_iff_witness :
  (Notes.mainV2 Sample.env0 "notes.txt" "Notes" None Sample.empty_world).1
    = Throw Notes.invalid_pdf
  ∧ Js.endsWith Sample.url1 ".pdf" = true
  ∧ (Server.post_take_notes Sample.env0 "ftp://host/paper.pdf" "Paper" (Some "1,2")
       Sample.empty_world).1
    = Server.SendError 500 Notes.invalid_pdf.
Proof.
  destruct (mainV2_rejects_iff Sample.env0 "notes.txt" "Notes" None None Sample.empty_world)
    as ((_ & H1) & _ & _).
  destruct (mainV2_rejects_iff Sample.env0 Sample.url1 "Attention" None None Sample.world0)
    as (_ & H2 & _).
  destruct (mainV2_rejects_iff Sample.env0 "ftp://host/paper.pdf" "Paper" None (Some "1,2")%string
              Sample.empty_world) as (_ & _ & (_ & H3)).
  split; [|split].
  - apply H1. right. reflexivity.
  - apply H2. vm_compute. discriminate.
  - apply H3. left. split; reflexivity.
Defined.

(** * Further properties of the code *)

Section PageCount.

(** X1: when [deletePages] returns, in whatever order the pages were
    listed, its input was a PDF, no listed number was [NaN] and no more
    numbers were listed than the document has pages; the result is a PDF
    with exactly as many pages fewer as numbers were listed, except that a
    list as long as the document leaves one blank page. *)
Theorem deletePages_page_count pdf l out :
  Notes.deletePages pdf l = Return out →
  ∃ pages pages',
    pdf = PdfBytes pages ∧ out = PdfBytes pages'
    ∧ (length l ≤ length pages)%nat
    ∧ ((length l < length pages)%nat → (length pages' + length l = length pages)%nat)
    ∧ (length l = length pages → pages' = [Notes.blank_page])
    ∧ Js.NaN ∉ l.
Proof.
  unfold Notes.deletePages. destruct pdf as [| | |pages]; cbn; try discriminate.
  destruct (Notes.remove_each pages 1 l) as [left|] eqn:Hr; cbn; [|discriminate].
  intros [= <-]. apply remove_each_count in Hr as [Hlen Hnan].
  exists pages, (Notes.save left). repeat split; try assumption; try lia.
  - intros Hl. rewrite save_pages; [exact Hlen|].
    intros ->. cbn [length] in Hlen. lia.
  - intros Hl. assert (left = []) as -> by (apply length_zero_iff_nil; lia).
    reflexivity.
Qed.

Lemma deletePages_page_count_witness :
  ∃ pages pages',
    PdfBytes ["a"; "b"; "c"; "d"]%string = PdfBytes pages
    ∧ PdfBytes ["b"; "d"]%string = PdfBytes pages'
    ∧ (length [Js.Num 3; Js.Num 2] ≤ length pages)%nat
    ∧ ((length [Js.Num 3; Js.Num 2] < length pages)%nat →
       (length pages' + length [Js.Num 3; Js.Num 2] = length pages)%nat)
    ∧ (length [Js.Num 3; Js.Num 2] = length pages → pages' = [Notes.blank_page])
    ∧ Js.NaN ∉ [Js.Num 3; Js.Num 2].
Proof.
  apply (deletePages_page_count (PdfBytes ["a"; "b"; "c"; "d"]%string)
           [Js.Num 3; Js.Num 2] (PdfBytes ["b"; "d"]%string)).
  vm_compute. reflexivity.
Defined.

(** Listing every page leaves the blank page [save] adds. *)
Example deletePages_every_page :
  Notes.deletePages (PdfBytes ["a"; "b"]%string) [Js.Num 1; Js.Num 2]
  = Return (PdfBytes [Notes.blank_page]).
Proof. vm_compute. reflexivity. Qed.

Lemma deletePages_throws pdf l msg :
  Notes.deletePages pdf l = Throw msg → msg = Notes.delete_failed.
Proof.
  unfold Notes.deletePages. destruct (obind _ _); [discriminate|]. now intros [= <-].
Qed.

End PageCount.

Section Spaces.

Lemma all_chars_app P s t :
  Js.all_chars P (s +:+ t) = Js.all_chars P s && Js.all_chars P t.
Proof.
  induction s as [|c r IH]; simpl; [reflexivity|].
  now rewrite IH, andb_assoc.
Qed.

Lemma trimStart_blanks a t :
  Js.all_chars Js.is_ws a = true → Js.trimStart (a +:+ t) = Js.trimStart t.
Proof.
  induction a as [|c r IH]; simpl; [reflexivity|].
  intros [Hc Hr]%andb_prop. rewrite Hc. now apply IH.
Qed.

Lemma trimEnd_blank b : Js.all_chars Js.is_ws b = true → Js.trimEnd b = EmptyString.
Proof.
  induction b as [|c r IH]; cbn [Js.all_chars Js.trimEnd]; [reflexivity|].
  intros [Hc Hr]%andb_prop. now rewrite (IH Hr), Hc.
Qed.

Lemma trimEnd_blanks s b :
  Js.all_chars Js.is_ws b = true → Js.trimEnd (s +:+ b) = Js.trimEnd s.
Proof.
  intros Hb. induction s as [|c r IH]; simpl;
    [now apply trimEnd_blank|].
  now rewrite IH.
Qed.

Lemma blank_no_comma c : Js.is_ws c = true → Ascii.eqb c "," = false.
Proof. destruct c as [[] [] [] [] [] [] [] []]; vm_compute; congruence. Qed.

Lemma split_comma_single s :
  Js.all_chars no_comma s = true → Js.split_comma s = [s].
Proof.
  induction s as [|c r IH]; cbn [Js.all_chars Js.split_comma]; [reflexivity|].
  intros [Hc Hr]%andb_prop. rewrite (IH Hr).
  apply negb_true_iff in Hc as ->. reflexivity.
Qed.

Lemma split_comma_first s t :
  Js.all_chars no_comma s = true →
  Js.split_comma (s +:+ String "," t) = s :: Js.split_comma t.
Proof.
  induction s as [|c r IH]; simpl;
    [reflexivity|].
  intros [Hc Hr]%andb_prop. rewrite (IH Hr).
  apply negb_true_iff in Hc as ->. reflexivity.
Qed.

Lemma all_chars_impl (P Q : ascii → bool) s :
  (∀ c, P c = true → Q c = true) → Js.all_chars P s = true → Js.all_chars Q s = true.
Proof.
  intros H. induction s as [|c r IH]; cbn [Js.all_chars]; [reflexivity|].
  intros [Hc Hr]%andb_prop. now rewrite (H c Hc), IH.
Qed.

Lemma spaced_no_comma field :
  well_spaced field → Js.all_chars no_comma (spaced field) = true.
Proof.
  destruct field as [[a n] b]. intros (Ha & Hn & _ & Hb). cbn [spaced].
  rewrite !all_chars_app.
  assert (Hws : ∀ c, Js.is_ws c = true → no_comma c = true)
    by (intros c Hc; unfold no_comma; now rewrite blank_no_comma).
  rewrite (all_chars_impl _ _ a Hws Ha), (all_chars_impl _ _ b Hws Hb).
  rewrite (all_chars_impl Js.is_decimal); [reflexivity| |now apply show_decimal].
  intros c Hc. unfold no_comma. now destruct (decimal_cases c Hc) as (_ & -> & _).
Qed.

Lemma parse_spaced field :
  well_spaced field → Js.parseInt (Js.trim (spaced field)) = Js.Num (field.1.2).
Proof.
  destruct field as [[a n] b]. intros (Ha & Hn & _ & Hb). cbn [spaced fst snd].
  unfold Js.trim. rewrite trimStart_blanks by assumption.
  destruct (show_decimal n Hn) as [Hd Hne].
  assert (Hs : Js.trimStart (Js.show n +:+ b) = Js.show n +:+ b).
  { destruct (Js.show n) as [|c r] eqn:Hshow; [congruence|].
    cbn [Js.all_chars] in Hd. apply andb_prop in Hd as [Hc _].
    change (String c r +:+ b) with (String c (r +:+ b)). cbn [Js.trimStart].
    now destruct (decimal_cases c Hc) as (-> & _). }
  rewrite Hs, trimEnd_blanks by assumption.
  rewrite trimEnd_decimal by assumption.
  rewrite <- (trim_decimal (Js.show n)) by assumption.
  now apply parseInt_trim_show.
Qed.

Lemma split_comma_spaced fields :
  fields ≠ [] → Forall well_spaced fields →
  Js.split_comma (render_spaced fields) = map spaced fields.
Proof.
  unfold render_spaced, Js.join.
  induction fields as [|f l IH]; [congruence|]. intros _ Hall.
  apply Forall_cons in Hall as [Hf Hall].
  pose proof (spaced_no_comma f Hf) as Hc.
  destruct l as [|g l].
  - cbn. now apply split_comma_single.
  - change (String.concat "," (map spaced (f :: g :: l)))
      with (spaced f +:+ String "," (String.concat "," (map spaced (g :: l)))).
    rewrite split_comma_first by assumption.
    rewrite IH by (assumption || congruence). reflexivity.
Qed.

(** X2: [processPagesToDelete] parses a comma-separated list of positive
    page numbers up to [Number.MAX_SAFE_INTEGER], each with any blanks
    before and after it, into those numbers in order. *)
Theorem processPagesToDelete_ignores_blanks fields :
  fields ≠ [] → Forall well_spaced fields →
  Server.processPagesToDelete (render_spaced fields)
  = map (λ field, Js.Num (field.1.2)) fields.
Proof.
  intros Hne Hall. unfold Server.processPagesToDelete.
  rewrite split_comma_spaced by assumption. clear Hne.
  induction Hall as [|f l Hf _ IH]; cbn [map]; [reflexivity|].
  now rewrite parse_spaced, IH.
Qed.

Lemma processPagesToDelete_ignores_blanks_witness :
  Server.processPagesToDelete " 2,3 , 10" = [Js.Num 2; Js.Num 3; Js.Num 10].
Proof.
  apply (processPagesToDelete_ignores_blanks
           [(" ", 2, ""); ("", 3, " "); (" ", 10, "")]%string).
  - discriminate.
  - repeat (apply Forall_cons; split;
            [repeat split; try reflexivity; vm_compute; discriminate|]).
    apply Forall_nil. exact I.
Defined.

End Spaces.

Section Loopback.
Context (e : env).

Lemma substring_all s : String.substring 0 (String.length s) s = s.
Proof. induction s as [|c r IH]; cbn; [reflexivity|]. now rewrite IH. Qed.

Lemma prefix_app p r : String.prefix p (p +:+ r) = true.
Proof.
  induction p as [|c p IH]; simpl; [now destruct r|].
  destruct (ascii_dec c c); [exact IH|congruence].
Qed.

Lemma after_scheme_http r : Notes.after_scheme ("http://" +:+ r) = Some r.
Proof.
  unfold Notes.after_scheme. rewrite prefix_app.
  simpl. rewrite Nat.sub_0_r. now rewrite substring_all.
Qed.

Lemma after_scheme_https r : Notes.after_scheme ("https://" +:+ r) = Some r.
Proof.
  unfold Notes.after_scheme.
  replace (String.prefix "http://" ("https://" +:+ r)) with false by reflexivity.
  rewrite prefix_app. simpl. rewrite Nat.sub_0_r. now rewrite substring_all.
Qed.

Lemma urlRegEx_refuses_loopback scheme host rest :
  scheme = "http://"%string ∨ scheme = "https://"%string →
  loopback_host host →
  Notes.urlRegEx_test (scheme +:+ host +:+ rest) = false.
Proof.
  intros Hs Hh. unfold Notes.urlRegEx_test.
  assert (Ha : Notes.after_scheme (scheme +:+ host +:+ rest) = Some (host +:+ rest)).
  { destruct Hs as [-> | ->]; [apply after_scheme_http|apply after_scheme_https]. }
  rewrite Ha. destruct Hh as [-> | ->].
  - rewrite prefix_app. reflexivity.
  - replace (Notes.looks_like_loopback ("127.0.0.1" +:+ rest)) with true by reflexivity.
    now rewrite orb_true_r.
Qed.

(** X3: [mainV2] refuses every http(s) URL whose host part starts with
    localhost or 127.0.0.1, unless a local file goes by that very name. *)
Theorem mainV2_refuses_loopback scheme host rest paperName pagesToDelete w :
  scheme = "http://"%string ∨ scheme = "https://"%string →
  loopback_host host →
  fs w !! (scheme +:+ host +:+ rest) = None →
  Notes.mainV2 e (scheme +:+ host +:+ rest) paperName pagesToDelete w
  = (Throw Notes.invalid_pdf, w).
Proof.
  intros Hs Hh Hf. rewrite mainV2_cases. unfold Notes.rejected.
  now rewrite (urlRegEx_refuses_loopback _ _ _ Hs Hh), Hf.
Qed.

End Loopback.

Lemma mainV2_refuses_loopback_witness :
  Notes.mainV2 Sample.env0 "https://localhost:8080/paper.pdf" "Paper" None
    Sample.empty_world
  = (Throw Notes.invalid_pdf, Sample.empty_world).
Proof.
  apply (mainV2_refuses_loopback Sample.env0 "https://" "localhost" ":8080/paper.pdf"
           "Paper" None Sample.empty_world).
  - right. reflexivity.
  - left. reflexivity.
  - reflexivity.
Defined.

Section StorageRoundTrip.
Context (e : env).

Lemma index_named_map {A B} (f : A → B) key i (l : list A) :
  index_named key i (map f l) = f <$> index_named key i l.
Proof.
  revert i. induction l as [|x r IH]; intros i; cbn; [reflexivity|].
  destruct (String.eqb key (Js.show i)); [reflexivity|apply IH].
Qed.

Lemma defined_fmap {A B} (f : A → B) (o : option A) : defined (f <$> o) = defined o.
Proof. now destruct o. Qed.

(** Serialising an element does not give it a member it did not have. *)
Lemma hasOwnProperty_element el url :
  hasOwnProperty el url = Return false → hasOwnProperty (element el) url = Return false.
Proof.
  destruct el as [| | | | |items|fields]; cbn [element normalize hasOwnProperty];
    try discriminate; try (intros H; exact H).
  - now rewrite index_named_map, defined_fmap.
  - pose proof (holds_element url (JObj fields)) as Hh.
    pose proof (holds_element "hasOwnProperty" (JObj fields)) as Hm.
    cbn [element normalize HnswStore.holds] in Hh, Hm.
    destruct (defined (assoc "hasOwnProperty" fields)); [discriminate|].
    intros [= H].
    destruct (defined (assoc "hasOwnProperty" (flat_map _ fields)));
      [now specialize (Hm eq_refl)|].
    destruct (defined (assoc url (flat_map _ fields))); [|reflexivity].
    rewrite Hh in H by reflexivity. discriminate.
Qed.

Lemma some_hasOwn_elements url items :
  some_hasOwn url items = Return false →
  some_hasOwn url (map element items) = Return false.
Proof.
  induction items as [|x r IH]; cbn [map some_hasOwn]; [reflexivity|].
  destruct (hasOwnProperty x url) as [[]|] eqn:Hx; cbn [obind]; try discriminate.
  intros Hr. rewrite (hasOwnProperty_element _ _ Hx). cbn [obind]. now apply IH.
Qed.

Lemma some_hasOwn_last url items x :
  some_hasOwn url items = Return false →
  hasOwnProperty x url = Return true →
  some_hasOwn url (items ++ [x]) = Return true
  ∧ find_hasOwn url (items ++ [x]) = Return x.
Proof.
  intros Hs Hx. induction items as [|y r IH]; cbn [app some_hasOwn find_hasOwn].
  - rewrite Hx. split; reflexivity.
  - cbn [some_hasOwn] in Hs.
    destruct (hasOwnProperty y url) as [[]|] eqn:Hy; cbn [obind] in Hs |- *;
      try discriminate.
    now apply IH.
Qed.

Lemma entry_own url v :
  url ≠ "hasOwnProperty"%string → hasOwnProperty (JObj [(url, v)]) url = Return true.
Proof.
  intros H. cbn. rewrite (proj2 (String.eqb_neq _ _) H). cbn.
  now rewrite String.eqb_refl.
Qed.

Lemma entry_get url v : get (JObj [(url, v)]) url = Return v.
Proof. cbn. now rewrite String.eqb_refl. Qed.

Lemma element_record docs url name notes :
  element (JObj [(url, HnswStore.paper_record e docs url name notes)])
  = JObj [(url, stored_record e docs url name notes)].
Proof. reflexivity. Qed.

Lemma element_assigned docs url name notes :
  url ≠ "__proto__"%string →
  element (JObj (assign url (HnswStore.paper_record e docs url name notes) []))
  = JObj [(url, stored_record e docs url name notes)].
Proof. intros H. now rewrite (assign_plain _ _ H). Qed.

Lemma saved_is_found p docs url name notes w w' :
  plain_key url →
  array_or_missing (fs w !! p) →
  HnswStore.saveToLocalStorage e p docs url name notes w = (Return (), w') →
  HnswStore.entry_present (fs w' !! p) url = Return true.
Proof.
  intros [Hproto Hown]. rewrite saveToLocalStorage_cases. cbv zeta.
  intros [Hp|(items & Hp)]; rewrite Hp.
  - intros [= <-]. cbn [fs with_fs]. rewrite lookup_insert_eq.
    unfold JSON_stringify. rewrite normalize_array.
    cbn [HnswStore.entry_present JSON_parse obind isArray some_own map].
    rewrite element_record. cbn [some_hasOwn]. now rewrite (entry_own _ _ Hown).
  - cbn [is_blank JSON_parse obind spread].
    destruct (some_hasOwn url items) as [[]|] eqn:Hs; [| |discriminate].
    + intros [= <-]. rewrite Hp.
      cbn [HnswStore.entry_present JSON_parse obind isArray some_own]. exact Hs.
    + intros [= <-]. cbn [fs with_fs]. rewrite lookup_insert_eq.
      unfold JSON_stringify. rewrite normalize_array, map_app.
      cbn [HnswStore.entry_present JSON_parse obind isArray some_own map].
      apply some_hasOwn_last; [now apply some_hasOwn_elements|].
      rewrite (element_assigned _ _ _ _ Hproto). exact (entry_own _ _ Hown).
Qed.

Lemma saved_is_read p docs url name notes w w' :
  plain_key url →
  without_record (fs w !! p) url →
  HnswStore.saveToLocalStorage e p docs url name notes w = (Return (), w') →
  HnswStore.entry_of (fs w' !! p) url = Return (stored_record e docs url name notes).
Proof.
  intros [Hproto Hown]. rewrite saveToLocalStorage_cases. cbv zeta.
  intros [Hp|(items & Hp & Hs)]; rewrite Hp.
  - intros [= <-]. cbn [fs with_fs]. rewrite lookup_insert_eq.
    unfold JSON_stringify. rewrite normalize_array.
    cbn [HnswStore.entry_of JSON_parse obind find_own map].
    rewrite element_record. cbn [find_hasOwn]. rewrite (entry_own _ _ Hown). cbn [obind].
    now rewrite entry_get.
  - cbn [is_blank JSON_parse obind spread]. rewrite Hs.
    intros [= <-]. cbn [fs with_fs]. rewrite lookup_insert_eq.
    unfold JSON_stringify. rewrite normalize_array, map_app.
    cbn [HnswStore.entry_of JSON_parse obind find_own map].
    rewrite (element_assigned _ _ _ _ Hproto).
    destruct (some_hasOwn_last url (map element items)
                (JObj [(url, stored_record e docs url name notes)])
                (some_hasOwn_elements _ _ Hs) (entry_own url _ Hown)) as [_ Hfind].
    rewrite Hfind. cbn [obind]. now rewrite entry_get.
Qed.

(** X4: for a URL other than [__proto__] and [hasOwnProperty], after a
    [saveToLocalStorage] that returns on a missing file or an array, the
    lookup written out in [mainV2], [qaOnPaperV2] and
    [getPaperFromLocalStorage] finds the URL; when the file held no element
    for the URL, the lookup reads back the record that was saved, as
    serialised. *)
Theorem saveToLocalStorage_then_lookup p docs url name notes w w' :
  plain_key url →
  array_or_missing (fs w !! p) →
  HnswStore.saveToLocalStorage e p docs url name notes w = (Return (), w') →
  HnswStore.has_entry p url w' = (Return true, w')
  ∧ (without_record (fs w !! p) url →
     HnswStore.read_entry p url w'
     = (Return (stored_record e docs url name notes), w')).
Proof.
  intros Hk Hf Hs. split.
  - rewrite has_entry_cases. now rewrite (saved_is_found _ _ _ _ _ _ _ Hk Hf Hs).
  - intros Hw. rewrite read_entry_cases.
    now rewrite (saved_is_read _ _ _ _ _ _ _ Hk Hw Hs).
Qed.

(** The keys the lookup cannot be trusted with. *)
Example saveToLocalStorage_proto :
  let w' := (HnswStore.saveToLocalStorage Sample.env0 (Qa.stored_paper_of Sample.url1)
               [Sample.doc1] "__proto__" "Paper" [Sample.note2] Sample.world0).2 in
  fs w' !! Qa.stored_paper_of Sample.url1
  = Some (File (Encoded (JArr [Sample.stored_paper; JObj []])))
  ∧ HnswStore.has_entry (Qa.stored_paper_of Sample.url1) "__proto__" w' = (Return false, w').
Proof. vm_compute. split; reflexivity. Qed.

Example saveToLocalStorage_hasOwnProperty :
  let w' := (HnswStore.saveToLocalStorage Sample.env0 (Qa.stored_paper_of Sample.url2)
               [Sample.doc1] "hasOwnProperty" "Paper" [Sample.note2] Sample.empty_world).2 in
  HnswStore.has_entry (Qa.stored_paper_of Sample.url2) "hasOwnProperty" w'
  = (Throw TypeError, w').
Proof. vm_compute. reflexivity. Qed.

End StorageRoundTrip.

Lemma saveToLocalStorage_then_lookup_witness :
  let w' := (HnswStore.saveToLocalStorage Sample.env0 (Qa.stored_paper_of Sample.url1)
               [Sample.doc1] Sample.url2 "GPT-3" [Sample.note2] Sample.world0).2 in
  HnswStore.has_entry (Qa.stored_paper_of Sample.url1) Sample.url2 w' = (Return true, w')
  ∧ HnswStore.read_entry (Qa.stored_paper_of Sample.url1) Sample.url2 w'
    = (Return (stored_record Sample.env0 [Sample.doc1] Sample.url2 "GPT-3" [Sample.note2]),
       w').
Proof.
  cbv zeta.
  destruct (saveToLocalStorage_then_lookup Sample.env0 (Qa.stored_paper_of Sample.url1)
              [Sample.doc1] Sample.url2 "GPT-3" [Sample.note2] Sample.world0
              (HnswStore.saveToLocalStorage Sample.env0 (Qa.stored_paper_of Sample.url1)
                 [Sample.doc1] Sample.url2 "GPT-3" [Sample.note2] Sample.world0).2)
    as [H1 H2].
  - split; discriminate.
  - right. eexists. reflexivity.
  - vm_compute. reflexivity.
  - split; [exact H1|]. apply H2. right. eexists. split; reflexivity.
Defined.

Section Frames.
Context (S : string → Prop).

Lemma writes_ret {A} (a : A) : writes_within S (ret a).
Proof. intros w r w' [= <- <-]. auto. Qed.

Lemma writes_throw {A} msg : writes_within S (@throw A msg).
Proof. intros w r w' [= <- <-]. auto. Qed.

Lemma writes_lift {A} (o : outcome A) : writes_within S (lift o).
Proof. intros w r w' [= <- <-]. auto. Qed.

Lemma writes_record_call c : writes_within S (record_call c).
Proof. intros w r w' [= <- <-]. auto. Qed.

Lemma writes_bind {A B} (m : M A) (k : A → M B) :
  writes_within S m → (∀ a, writes_within S (k a)) → writes_within S (bind m k).
Proof.
  intros Hm Hk w r w'. unfold bind.
  destruct (m w) as [[a|msg] w1] eqn:Hmw.
  - intros Hkw. destruct (Hm _ _ _ Hmw) as [H1 H2], (Hk a _ _ _ Hkw) as [H3 H4].
    split; intros q Hq; [rewrite H3, H1|]; auto.
  - intros [= <- <-]. exact (Hm _ _ _ Hmw).
Qed.

Lemma writes_catch {A} (m : M A) (h : string → M A) :
  writes_within S m → (∀ msg, writes_within S (h msg)) → writes_within S (catch m h).
Proof.
  intros Hm Hh w r w'. unfold catch.
  destruct (m w) as [[a|msg] w1] eqn:Hmw.
  - intros [= <- <-]. exact (Hm _ _ _ Hmw).
  - intros Hhw. destruct (Hm _ _ _ Hmw) as [H1 H2], (Hh msg _ _ _ Hhw) as [H3 H4].
    split; intros q Hq; [rewrite H3, H1|]; auto.
Qed.

Lemma writes_existsSync p : writes_within S (Fs.existsSync p).
Proof. intros w r w' [= <- <-]. auto. Qed.

Lemma writes_readFileSync p : writes_within S (Fs.readFileSync p).
Proof.
  intros w r w'. unfold Fs.readFileSync.
  destruct (fs w !! p) as [[c|]|]; intros [= <- <-]; auto.
Qed.

Lemma defined_insert (f : gmap string node) p n q :
  defined (f !! q) = true → defined (<[p := n]> f !! q) = true.
Proof.
  intros H. destruct (decide (p = q)) as [->|Hne].
  - now rewrite lookup_insert_eq.
  - now rewrite lookup_insert_ne.
Qed.

Lemma writes_writeFileSync p c : S p → writes_within S (Fs.writeFileSync p c).
Proof.
  intros Hp w r w'. unfold Fs.writeFileSync.
  destruct (fs w !! p) as [[c'|]|]; intros [= <- <-]; auto;
    (split; intros q Hq; cbn [fs with_fs];
     [rewrite lookup_insert_ne; [reflexivity|congruence]|now apply defined_insert]).
Qed.

Lemma writes_mkdirSync p : S p → writes_within S (Fs.mkdirSync p).
Proof.
  intros Hp w r w'. unfold Fs.mkdirSync.
  destruct (fs w !! p) as [n|]; intros [= <- <-]; auto.
  split; intros q Hq; cbn [fs with_fs];
    [rewrite lookup_insert_ne; [reflexivity|congruence]|now apply defined_insert].
Qed.

End Frames.

Create HintDb writes discriminated.
#[global] Hint Resolve writes_ret writes_throw writes_lift writes_record_call
  writes_existsSync writes_readFileSync : writes.

Ltac writes_step :=
  match goal with
  | |- writes_within _ (bind _ _) => apply writes_bind; [|intros ?]
  | |- writes_within _ (catch _ _) => apply writes_catch; [|intros ?]
  | |- writes_within _ (if ?b then _ else _) => destruct b
  | |- writes_within _ (match ?o with _ => _ end) => destruct o
  | |- writes_within _ (Fs.writeFileSync _ _) => apply writes_writeFileSync
  | |- writes_within _ (Fs.mkdirSync _) => apply writes_mkdirSync
  | |- writes_within _ _ => solve [auto with writes]
  end.

Section FramesOfTheCode.
Context (e : env).

Lemma writes_saveToLocalStorage (S : string → Prop) p docs url name notes :
  S p → writes_within S (HnswStore.saveToLocalStorage e p docs url name notes).
Proof. intros Hp. unfold HnswStore.saveToLocalStorage. repeat writes_step; assumption. Qed.

Lemma writes_saveQAToLocalStorage (S : string → Prop) p question answer context followups :
  S p →
  writes_within S (HnswStore.saveQAToLocalStorage e p question answer context followups).
Proof. intros Hp. unfold HnswStore.saveQAToLocalStorage. repeat writes_step; assumption. Qed.

Lemma writes_has_entry (S : string → Prop) p url : writes_within S (HnswStore.has_entry p url).
Proof. unfold HnswStore.has_entry. repeat writes_step. Qed.

Lemma writes_read_entry (S : string → Prop) p url : writes_within S (HnswStore.read_entry p url).
Proof. unfold HnswStore.read_entry. repeat writes_step. Qed.

Lemma writes_addPaper (S : string → Prop) p docs url name notes :
  S p → S (local_storage_of url) →
  writes_within S (HnswStore.addPaper e p docs url name notes).
Proof.
  intros Hp Hd. unfold HnswStore.addPaper. repeat writes_step; try assumption.
  now apply writes_saveToLocalStorage.
Qed.

Lemma writes_loadPdfFromUrl (S : string → Prop) url : writes_within S (Notes.loadPdfFromUrl e url).
Proof. unfold Notes.loadPdfFromUrl. repeat writes_step. Qed.

Lemma writes_convertPdfToDocuments (S : string → Prop) pdf :
  writes_within S (Notes.convertPdfToDocuments e pdf).
Proof. unfold Notes.convertPdfToDocuments. repeat writes_step. Qed.

Lemma writes_generateNotes (S : string → Prop) url documents :
  writes_within S (Notes.generateNotes e url documents).
Proof. unfold Notes.generateNotes. repeat writes_step. Qed.

Lemma writes_ingest url name pages isPdfUrl isLocalPdf :
  writes_within (mainV2_paths url)
    (Notes.ingest e url name pages isPdfUrl isLocalPdf (Notes.generated_notes_of url)).
Proof.
  unfold Notes.ingest.
  repeat first
    [ apply writes_loadPdfFromUrl | apply writes_convertPdfToDocuments
    | apply writes_generateNotes
    | apply writes_addPaper; [right; right; reflexivity|right; left; reflexivity]
    | writes_step ];
    left; reflexivity.
Qed.

Lemma writes_mainV2 url name pages :
  writes_within (mainV2_paths url) (Notes.mainV2 e url name pages).
Proof.
  unfold Notes.mainV2.
  repeat first
    [ apply writes_has_entry | apply writes_read_entry | apply writes_ingest
    | writes_step ].
Qed.

End FramesOfTheCode.

Section PathsApart.

Lemma append_empty_r s : s +:+ "" = s.
Proof.
  induction s as [|c r IH]; [reflexivity|].
  change (String c (r +:+ "") = String c r). now rewrite IH.
Qed.

Lemma append_assoc (a b c : string) : (a +:+ b) +:+ c = a +:+ (b +:+ c).
Proof.
  induction a as [|x r IH]; [reflexivity|].
  change (String x ((r +:+ b) +:+ c) = String x (r +:+ (b +:+ c))). now rewrite IH.
Qed.

Lemma append_not_self (s t : string) : t ≠ EmptyString → s +:+ t ≠ s.
Proof.
  intros Ht H. apply Ht. apply (String.app_inj s).
  now rewrite append_empty_r.
Qed.

(** The file [qaOnPaperV2] reads is none of the paths [mainV2] writes. *)
Lemma stored_paper_not_written url : ¬ mainV2_paths url (Qa.stored_paper_of url).
Proof.
  unfold mainV2_paths, Qa.stored_paper_of, Qa.vector_store_of, local_storage_of,
    Notes.generated_notes_of.
  intros [H|[H|H]].
  - discriminate H.
  - rewrite <- append_assoc in H. revert H. apply append_not_self. discriminate.
  - discriminate H.
Qed.

End PathsApart.

Section NotesOutOfReach.
Context (e : env).

Lemma retrieved_notes_missing w url :
  fs w !! Qa.stored_paper_of url = None →
  Qa.retrieved_notes w url = Return JUndefined.
Proof. intros H. unfold Qa.retrieved_notes. now rewrite H. Qed.

Lemma qaOnPaperV2_without_storage question url w :
  fs w !! Qa.stored_paper_of url = None →
  Qa.qaOnPaperV2 e question url w = (Throw Qa.no_vector_store, w)
  ∨ Qa.qaOnPaperV2 e question url w = (Throw Qa.no_text, w).
Proof.
  intros H. rewrite qaOnPaperV2_cases, (retrieved_notes_missing _ _ H).
  destruct (fs w !! Qa.vector_store_of url); auto.
Qed.

(** X5: [mainV2] stores the notes under generated_notes/, [qaOnPaperV2] looks
    for them under local_storage/: after [mainV2], whatever it returned, a
    question on the same URL is refused unless
    local_storage/<basename>/data.json was there before. *)
Theorem mainV2_notes_out_of_reach url name pages question w r w' :
  fs w !! Qa.stored_paper_of url = None →
  Notes.mainV2 e url name pages w = (r, w') →
  Qa.qaOnPaperV2 e question url w' = (Throw Qa.no_vector_store, w')
  ∨ Qa.qaOnPaperV2 e question url w' = (Throw Qa.no_text, w').
Proof.
  intros Hf Hm. apply qaOnPaperV2_without_storage.
  destruct (writes_mainV2 e url name pages _ _ _ Hm) as [Hkeep _].
  rewrite Hkeep; [exact Hf|apply stored_paper_not_written].
Qed.

End NotesOutOfReach.

Lemma mainV2_notes_out_of_reach_witness :
  let w' := (Notes.mainV2 Sample.env0 Sample.url2 "GPT-3" None Sample.empty_world).2 in
  Qa.qaOnPaperV2 Sample.env0 Sample.question1 Sample.url2 w' = (Throw Qa.no_vector_store, w')
  ∨ Qa.qaOnPaperV2 Sample.env0 Sample.question1 Sample.url2 w' = (Throw Qa.no_text, w').
Proof.
  cbv zeta.
  apply (mainV2_notes_out_of_reach Sample.env0 Sample.url2 "GPT-3" None Sample.question1
           Sample.empty_world (Return (JArr [Sample.note1]))).
  - reflexivity.
  - vm_compute. reflexivity.
Defined.

Example mainV2_then_question :
  let r := Notes.mainV2 Sample.env0 Sample.url2 "GPT-3" None Sample.empty_world in
  r.1 = Return (JArr [Sample.note1])
  ∧ Qa.qaOnPaperV2 Sample.env0 Sample.question1 Sample.url2 r.2 = (Throw Qa.no_text, r.2).
Proof. vm_compute. split; reflexivity. Qed.

Section Inversion.

Lemma bind_returns {A B} (m : M A) (k : A → M B) w b w' :
  bind m k w = (Return b, w') →
  ∃ a w1, m w = (Return a, w1) ∧ k a w1 = (Return b, w').
Proof. unfold bind. destruct (m w) as [[a|msg] w1]; [eauto|discriminate]. Qed.

End Inversion.

Section LocalPaper.
Context (e : env).

Lemma stored_paper_not_dir url : Qa.stored_paper_of url ≠ local_storage_of url.
Proof.
  unfold Qa.stored_paper_of, local_storage_of. rewrite <- append_assoc.
  apply append_not_self. discriminate.
Qed.

Lemma getPaperFromLocalStorage_cases url w :
  HnswStore.getPaperFromLocalStorage url w =
  (try! found := HnswStore.entry_present (fs w !! Qa.stored_paper_of url) url in
   if found : bool then HnswStore.entry_of (fs w !! Qa.stored_paper_of url) url
   else Return JNull, w).
Proof.
  unfold HnswStore.getPaperFromLocalStorage. fold (Qa.stored_paper_of url).
  unfold bind. rewrite has_entry_cases.
  destruct (HnswStore.entry_present _ _) as [[]|]; cbn [obind]; try reflexivity.
  apply read_entry_cases.
Qed.

Lemma addPaper_returns p docs url name notes w w' :
  HnswStore.addPaper e p docs url name notes w = (Return (), w') →
  ∃ w1, HnswStore.saveToLocalStorage e p docs url name notes w1 = (Return (), w')
        ∧ (p ≠ local_storage_of url → fs w1 !! p = fs w !! p).
Proof.
  unfold HnswStore.addPaper. fold (local_storage_of url).
  intros (present & w0 & H0 & H)%bind_returns.
  apply bind_returns in H as ([] & w1 & H1 & H2).
  unfold Fs.existsSync in H0. injection H0 as <- <-. exists w1. split; [exact H2|]. intros Hne.
  assert (Hw : writes_within (λ q, q = local_storage_of url)
                 (if negb (defined (fs w !! local_storage_of url))
                  then Fs.mkdirSync (local_storage_of url) else ret ()))
    by (repeat writes_step; reflexivity).
  destruct (Hw _ _ _ H1) as [Hkeep _]. now apply Hkeep.
Qed.

(** X6: [HNSWDatabase.getPaper] answers null when
    local_storage/<basename>/data.json is missing; for a URL other than
    [__proto__] and [hasOwnProperty] it reads back what
    [HNSWDatabase.addPaper] saved in that file, when [addPaper] returned and
    the file held no element for the URL. *)
Theorem getPaper_after_addPaper docs url name notes w w' :
  (fs w !! Qa.stored_paper_of url = None → HnswStore.getPaper url w = (Return JNull, w))
  ∧ (plain_key url →
     without_record (fs w !! Qa.stored_paper_of url) url →
     HnswStore.addPaper e (Qa.stored_paper_of url) docs url name notes w = (Return (), w') →
     HnswStore.getPaper url w' = (Return (stored_record e docs url name notes), w')).
Proof.
  unfold HnswStore.getPaper. rewrite !getPaperFromLocalStorage_cases. split.
  - intros ->. reflexivity.
  - intros Hkey Hw (w1 & Hs & Hk)%addPaper_returns.
    rewrite <- (Hk (stored_paper_not_dir url)) in Hw.
    assert (Ha : array_or_missing (fs w1 !! Qa.stored_paper_of url)).
    { destruct Hw as [H|(items & H & _)]; [now left|right; eauto]. }
    rewrite (saved_is_found _ _ _ _ _ _ _ _ Hkey Ha Hs). cbn [obind].
    now rewrite (saved_is_read _ _ _ _ _ _ _ _ Hkey Hw Hs).
Qed.

End LocalPaper.

Lemma getPaper_after_addPaper_witness :
  HnswStore.getPaper Sample.url2 fresh_world = (Return JNull, fresh_world)
  ∧ let w' := (HnswStore.addPaper Sample.env0 (Qa.stored_paper_of Sample.url2)
                 [Sample.doc1] Sample.url2 "GPT-3" [Sample.note2] fresh_world).2 in
    HnswStore.getPaper Sample.url2 w'
    = (Return (stored_record Sample.env0 [Sample.doc1] Sample.url2 "GPT-3" [Sample.note2]),
       w').
Proof.
  cbv zeta.
  destruct (getPaper_after_addPaper Sample.env0 [Sample.doc1] Sample.url2 "GPT-3"
              [Sample.note2] fresh_world
              (HnswStore.addPaper Sample.env0 (Qa.stored_paper_of Sample.url2)
                 [Sample.doc1] Sample.url2 "GPT-3" [Sample.note2] fresh_world).2)
    as [H1 H2].
  split; [apply H1; reflexivity|].
  apply H2; [split; discriminate|left; reflexivity|]. vm_compute. reflexivity.
Defined.

Section Cache.
Context (e : env).

Lemma catch_returns_value {A} (m : M A) (a v : A) w w' :
  catch m (λ _, ret a) w = (Return v, w') → v ≠ a → m w = (Return v, w').
Proof.
  unfold catch, ret. destruct (m w) as [[x|msg] w1]; [auto|].
  intros [= <- <-] H. congruence.
Qed.

(** A step that returns, and what it may have written. *)
Lemma bind_returns_writes (S : string → Prop) {A B} (m : M A) (k : A → M B) w b w' :
  writes_within S m →
  bind m k w = (Return b, w') →
  ∃ a w1, k a w1 = (Return b, w') ∧ ∀ q, ¬ S q → fs w1 !! q = fs w !! q.
Proof.
  intros Hm (a & w1 & Hmw & Hk)%bind_returns.
  exists a, w1. split; [exact Hk|]. now destruct (Hm _ _ _ Hmw).
Qed.

(** What [ingest] has done when it returns notes: [addPaper] has run, on a
    storage file still as it was. *)
Lemma ingest_returns url name pages isPdfUrl isLocalPdf w v w' :
  Notes.ingest e url name pages isPdfUrl isLocalPdf (Notes.generated_notes_of url) w
  = (Return v, w') →
  v ≠ JNull →
  ∃ notes documents w1,
    v = JArr notes
    ∧ fs w1 !! Notes.generated_notes_of url = fs w !! Notes.generated_notes_of url
    ∧ HnswStore.addPaper e (Notes.generated_notes_of url) (map (Notes.with_url url) documents)
        url name notes w1 = (Return (), w').
Proof.
  intros H Hv. unfold Notes.ingest in H.
  apply catch_returns_value in H; [|exact Hv].
  set (S := λ q, q = Qa.vector_store_of url).
  assert (Hnp : ¬ S (Notes.generated_notes_of url)) by (unfold S; discriminate).
  apply (bind_returns_writes S) in H as (b1 & w1 & H & K1);
    [|repeat first [apply writes_loadPdfFromUrl | writes_step]].
  apply (bind_returns_writes S) in H as (b2 & w2 & H & K2);
    [|repeat writes_step].
  apply (bind_returns_writes S) in H as (b3 & w3 & H & K3);
    [|repeat writes_step].
  apply (bind_returns_writes S) in H as (b4 & w4 & H & K4);
    [|repeat writes_step].
  apply (bind_returns_writes S) in H as (documents & w5 & H & K5);
    [|apply writes_convertPdfToDocuments].
  apply (bind_returns_writes S) in H as (u6 & w6 & H & K6);
    [|repeat writes_step].
  apply (bind_returns_writes S) in H as (present & w7 & H & K7);
    [|repeat writes_step].
  apply (bind_returns_writes S) in H as (u8 & w8 & H & K8);
    [|repeat writes_step; reflexivity].
  apply (bind_returns_writes S) in H as (notes & w9 & H & K9);
    [|apply writes_generateNotes].
  apply bind_returns in H as ([] & w10 & Hadd & H).
  injection H as <- <-.
  destruct (embeds e (map (Notes.with_url url) documents)); [|discriminate Hadd].
  exists notes, documents, w9. split; [reflexivity|]. split; [|exact Hadd].
  rewrite K9, K8, K7, K6, K5, K4, K3, K2, K1 by exact Hnp. reflexivity.
Qed.

Lemma notes_path_not_dir url : Notes.generated_notes_of url ≠ local_storage_of url.
Proof. discriminate. Qed.

Lemma rejected_grows url w w' :
  (∀ q, defined (fs w !! q) = true → defined (fs w' !! q) = true) →
  Notes.rejected w url = false → Notes.rejected w' url = false.
Proof.
  unfold Notes.rejected. intros Hg.
  destruct (Js.endsWith url ".pdf"); cbn; [|now rewrite !orb_true_r].
  rewrite !orb_false_r. destruct (Notes.urlRegEx_test url); cbn; [reflexivity|].
  destruct (defined (fs w !! url)) eqn:Hd; [|discriminate].
  now rewrite (Hg _ Hd).
Qed.

(** The URLs [mainV2] and [main] accept are plain keys. *)
Lemma pdf_plain_key url : Js.endsWith url ".pdf" = true → plain_key url.
Proof. intros H. split; intros ->; vm_compute in H; discriminate. Qed.

Lemma accepted_plain_key w url : Notes.rejected w url = false → plain_key url.
Proof.
  unfold Notes.rejected. intros [_ H]%orb_false_elim.
  apply pdf_plain_key. now apply negb_false_iff.
Qed.

(** X7: once [mainV2] has returned notes for a URL, the next [mainV2] on that
    URL returns the same notes from generated_notes/<basename>/data.json,
    whatever name and pages are passed, and calls nothing. *)
Theorem mainV2_serves_saved_notes url name pages name2 pages2 w v w' :
  array_or_missing (fs w !! Notes.generated_notes_of url) →
  Notes.mainV2 e url name pages w = (Return v, w') →
  v ≠ JNull → is_json v = true →
  Notes.mainV2 e url name2 pages2 w' = (Return v, w').
Proof.
  intros Hfile Hm Hv Hj.
  pose proof (writes_mainV2 e url name pages _ _ _ Hm) as [_ Hgrow].
  rewrite mainV2_cases in Hm |- *.
  destruct (Notes.rejected w url) eqn:Hr; [discriminate|].
  rewrite (rejected_grows _ _ _ Hgrow Hr).
  pose proof (accepted_plain_key _ _ Hr) as Hkey.
  destruct (HnswStore.entry_present (fs w !! Notes.generated_notes_of url) url)
    as [[]|] eqn:Hp; [| |discriminate].
  - injection Hm as Hread <-. now rewrite Hp, Hread.
  - apply ingest_returns in Hm as (notes & documents & w1 & -> & Hk & Hadd); [|exact Hv].
    apply addPaper_returns in Hadd as (w2 & Hs & Hk2).
    specialize (Hk2 (notes_path_not_dir url)).
    assert (Ha : array_or_missing (fs w2 !! Notes.generated_notes_of url))
      by now rewrite Hk2, Hk.
    assert (Hw : without_record (fs w2 !! Notes.generated_notes_of url) url).
    { rewrite Hk2, Hk. destruct Hfile as [H|(items & H)]; [now left|right].
      exists items. split; [exact H|]. now rewrite H in Hp. }
    rewrite (saved_is_found _ _ _ _ _ _ _ _ Hkey Ha Hs),
      (saved_is_read _ _ _ _ _ _ _ _ Hkey Hw Hs).
    cbn. cbn in Hj. now rewrite (elements_json _ Hj).
Qed.

End Cache.

Lemma mainV2_serves_saved_notes_witness :
  let w' := (Notes.mainV2 Sample.env0 Sample.url2 "GPT-3" None Sample.empty_world).2 in
  Notes.mainV2 Sample.env0 Sample.url2 "Another name" (Some [Js.Num 1]) w'
  = (Return (JArr [Sample.note1]), w').
Proof.
  cbv zeta.
  apply (mainV2_serves_saved_notes Sample.env0 Sample.url2 "GPT-3" None
           "Another name" (Some [Js.Num 1]) Sample.empty_world).
  - left. reflexivity.
  - vm_compute. reflexivity.
  - discriminate.
  - reflexivity.
Defined.

Section QaFile.
Context (e : env).

Lemma saveQAToLocalStorage_cases p question answer context followups w :
  array_or_missing (fs w !! p) →
  HnswStore.saveQAToLocalStorage e p question answer context followups w =
  (Return (),
   with_fs (<[p := File (Encoded (JArr
      (map element (held (fs w !! p)) ++
       [element (HnswStore.qa_record e question answer context followups)])))]> (fs w)) w).
Proof.
  unfold HnswStore.saveQAToLocalStorage, bind, lift, Fs.existsSync, Fs.readFileSync,
    Fs.writeFileSync, JSON_stringify.
  intros [Hp|(items & Hp)]; rewrite Hp; cbn; rewrite ?Hp; cbn.
  - reflexivity.
  - rewrite map_app. reflexivity.
Qed.

Lemma question_of_record question answer context followups :
  records question (element (HnswStore.qa_record e question answer context followups))
  = true.
Proof. unfold records. cbn. apply String.eqb_refl. Qed.

(** X8: [saveQAToLocalStorage] never looks for the question: whenever it
    returns on a missing file or an array, it has appended one record, so
    the records of the question have grown by one and the elements already
    there have stayed; on a blank file it throws and writes nothing. *)
Theorem saveQAToLocalStorage_always_appends p question answer context followups w :
  (∀ w',
     array_or_missing (fs w !! p) →
     forallb is_json (held (fs w !! p)) = true →
     HnswStore.saveQAToLocalStorage e p question answer context followups w
     = (Return (), w') →
     ∃ record,
       held (fs w' !! p) = held (fs w !! p) ++ [record]
       ∧ length (asked question (held (fs w' !! p)))
         = S (length (asked question (held (fs w !! p)))))
  ∧ (fs w !! p = Some (File Blank) →
     HnswStore.saveQAToLocalStorage e p question answer context followups w
     = (Throw SyntaxError, w)).
Proof.
  split.
  - intros w' Ha Hj. rewrite (saveQAToLocalStorage_cases _ _ _ _ _ _ Ha).
    intros [= <-]. eexists.
    cbn [fs with_fs]. rewrite lookup_insert_eq. cbn [held].
    rewrite (elements_json _ Hj). split; [reflexivity|].
    unfold asked. rewrite filter_app, length_app.
    rewrite filter_cons_True by apply question_of_record.
    rewrite filter_nil. cbn [length]. lia.
  - intros Hp. unfold HnswStore.saveQAToLocalStorage, bind, lift, Fs.existsSync,
      Fs.readFileSync. rewrite Hp. cbn. now rewrite Hp.
Qed.

End QaFile.

Lemma saveQAToLocalStorage_always_appends_witness :
  let w' := (HnswStore.saveQAToLocalStorage Sample.env0 (Qa.qa_data_of Sample.url1)
               Sample.question1 (JStr "again") "ctx" (JArr []) Sample.world0).2 in
  ∃ record,
    held (fs w' !! Qa.qa_data_of Sample.url1) = [Sample.stored_qa] ++ [record]
    ∧ length (asked Sample.question1 (held (fs w' !! Qa.qa_data_of Sample.url1))) = 2%nat.
Proof.
  cbv zeta.
  destruct (saveQAToLocalStorage_always_appends Sample.env0 (Qa.qa_data_of Sample.url1)
              Sample.question1 (JStr "again") "ctx" (JArr []) Sample.world0) as [H _].
  apply H.
  - right. eexists. reflexivity.
  - reflexivity.
  - vm_compute. reflexivity.
Defined.

Section Answers.
Context (e : env).

Lemma qaModelWithHNSW_chain_returns question documents notes s answers w :
  Qa.notesAsString notes = Return s →
  Qa.chain_invoke e question s (formatDocumentsAsString documents) = Return answers →
  Qa.qaModelWithHNSW e question documents notes w
  = (Return answers, with_calls (calls w ++ [AskQaModel question]) w).
Proof.
  intros Hs Hc. unfold Qa.qaModelWithHNSW, catch, bind, lift, record_call, ret.
  rewrite (notesAsString_truthy _ _ Hs), Hs. cbn. rewrite Hc. reflexivity.
Qed.

(** The [try] block up to the answers of the model. *)
Lemma answer_from_index_answers question paperUrl dir documents notes s answers w :
  Qa.notesAsString notes = Return s →
  Qa.chain_invoke e question s (formatDocumentsAsString documents) = Return answers →
  index_loads e dir = true →
  getRelevantDocuments e question = Some documents →
  Qa.answer_from_index e question paperUrl dir notes w =
  catch
    (let first := default JUndefined (head answers) in
     let! answer := lift (get first "answer") in
     (if differs_from_string answer "Error" then
        let! followupQuestions := lift (get first "followupQuestions") in
        HnswStore.saveQA e (Qa.qa_data_of paperUrl) question answer
          (formatDocumentsAsString documents) followupQuestions
      else ret ()) ;;;
     ret (JArr answers))
    (λ _, ret JNull) (asked_world question dir w).
Proof.
  intros Hs Hc Hl Hd. unfold Qa.answer_from_index, catch.
  unfold bind at 1. unfold record_call at 1.
  unfold bind at 1. rewrite Hl. unfold ret at 1.
  unfold bind at 1. unfold record_call at 1.
  unfold bind at 1. rewrite Hd. unfold lift at 1.
  unfold bind at 1.
  rewrite (qaModelWithHNSW_chain_returns _ _ _ _ _ _ Hs Hc).
  unfold asked_world, with_calls. cbn [calls fs papers_table qa_table].
  rewrite <- !app_assoc. reflexivity.
Qed.

(** X9: when the answer of the model carries an empty list of tool calls,
    [answerAndQuestions[0]] is undefined: [qaOnPaperV2] returns null and
    leaves the files as they are. *)
Theorem qaOnPaperV2_no_tool_call question paperUrl documents notes s w :
  is_Some (fs w !! Qa.vector_store_of paperUrl) →
  Qa.stored_notes w paperUrl notes →
  index_loads e (Qa.vector_store_of paperUrl) = true →
  getRelevantDocuments e question = Some documents →
  Qa.notesAsString notes = Return s →
  Qa.chain_invoke e question s (formatDocumentsAsString documents) = Return [] →
  ∃ w', Qa.qaOnPaperV2 e question paperUrl w = (Return JNull, w') ∧ fs w' = fs w.
Proof.
  intros [d Hdir] Hn Hl Hd Hs Hc. rewrite qaOnPaperV2_cases, Hdir.
  rewrite (stored_notes_retrieved _ _ _ Hn), (notesAsString_truthy _ _ Hs).
  rewrite (answer_from_index_answers _ _ _ _ _ _ _ _ Hs Hc Hl Hd).
  eexists. split; reflexivity.
Qed.

(** X10: when the model answers, [qaOnPaperV2] returns all the answers and
    appends to qa_data.json one record, made of the first answer. *)
Theorem qaOnPaperV2_records_first_answer
    question paperUrl documents notes s first rest answer followups w :
  is_Some (fs w !! Qa.vector_store_of paperUrl) →
  Qa.stored_notes w paperUrl notes →
  index_loads e (Qa.vector_store_of paperUrl) = true →
  getRelevantDocuments e question = Some documents →
  Qa.notesAsString notes = Return s →
  Qa.chain_invoke e question s (formatDocumentsAsString documents) = Return (first :: rest) →
  get first "answer" = Return answer →
  differs_from_string answer "Error" = true →
  get first "followupQuestions" = Return followups →
  array_or_missing (fs w !! Qa.qa_data_of paperUrl) →
  ∃ w', Qa.qaOnPaperV2 e question paperUrl w = (Return (JArr (first :: rest)), w')
        ∧ fs w' = <[Qa.qa_data_of paperUrl := File (Encoded (JArr
                     (map element (held (fs w !! Qa.qa_data_of paperUrl)) ++
                      [element (HnswStore.qa_record e question answer
                                  (formatDocumentsAsString documents) followups)])))]>
                  (fs w).
Proof.
  intros [d Hdir] Hn Hl Hd Hs Hc Ha Hdiff Hf Hqa. rewrite qaOnPaperV2_cases, Hdir.
  rewrite (stored_notes_retrieved _ _ _ Hn), (notesAsString_truthy _ _ Hs).
  rewrite (answer_from_index_answers _ _ _ _ _ _ _ _ Hs Hc Hl Hd).
  cbn [head default]. change (id first) with first.
  unfold catch, bind, lift. rewrite Ha, Hdiff, Hf.
  unfold HnswStore.saveQA.
  rewrite saveQAToLocalStorage_cases by exact Hqa.
  eexists. split; reflexivity.
Qed.

End Answers.

Lemma qaOnPaperV2_records_first_answer_witness :
  ∃ w', Qa.qaOnPaperV2 Sample.env0 Sample.question1 Sample.url1 Sample.world0
        = (Return (JArr [JObj [("answer", JStr "fresh answer");
                               ("followupQuestions", JArr [JStr "And then?"])]%string]), w')
        ∧ fs w' = <[Qa.qa_data_of Sample.url1 := File (Encoded (JArr
                     (map element [Sample.stored_qa] ++
                      [element (HnswStore.qa_record Sample.env0 Sample.question1
                                  (JStr "fresh answer") "Attention is all you need."
                                  (JArr [JStr "And then?"]))])))]>
                  (fs Sample.world0).
Proof.
  apply (qaOnPaperV2_records_first_answer Sample.env0 Sample.question1 Sample.url1
           [Sample.doc1] (JArr [Sample.note1])
           "Attention relates positions of one sequence."
           (JObj [("answer", JStr "fresh answer");
                  ("followupQuestions", JArr [JStr "And then?"])]%string) []
           (JStr "fresh answer") (JArr [JStr "And then?"]) Sample.world0).
  - eexists. reflexivity.
  - exists [Sample.stored_paper], Sample.stored_paper,
      (HnswStore.paper_record Sample.env0 [Sample.doc1] Sample.url1 "Attention"
         [Sample.note1]).
    repeat split; reflexivity.
  - reflexivity.
  - reflexivity.
  - reflexivity.
  - reflexivity.
  - reflexivity.
  - reflexivity.
  - reflexivity.
  - right. eexists. reflexivity.
Defined.

Lemma qaOnPaperV2_no_tool_call_witness :
  ∃ w', Qa.qaOnPaperV2 env_silent Sample.question1 Sample.url1 Sample.world0
        = (Return JNull, w')
        ∧ fs w' = fs Sample.world0.
Proof.
  apply (qaOnPaperV2_no_tool_call env_silent Sample.question1 Sample.url1
           [Sample.doc1] (JArr [Sample.note1])
           "Attention relates positions of one sequence." Sample.world0).
  - eexists. reflexivity.
  - exists [Sample.stored_paper], Sample.stored_paper,
      (HnswStore.paper_record Sample.env0 [Sample.doc1] Sample.url1 "Attention"
         [Sample.note1]).
    repeat split; reflexivity.
  - reflexivity.
  - reflexivity.
  - reflexivity.
  - reflexivity.
Defined.

Section HostedNotes.
Context (e : env).

(** The two ways in which [main] returns. *)
Lemma main_returned url name pages v w w' :
  Notes.main e url name pages w = (Return v, w') →
  Js.endsWith url ".pdf" = true
  ∧ ((select_answers e = true
      ∧ ∃ row rest, SupabaseDatabase.matching url (papers_table w) = row :: rest
                    ∧ v = Row.notes row ∧ w' = w)
     ∨ (select_answers e = false
        ∧ ∃ documents notes,
            v = JArr notes
            ∧ AskNotesModel ∈ calls w'
            ∧ fs w' = fs w
            ∧ papers_table w' =
              papers_table w ++
                (if insert_answers e then [inserted_row url name documents notes] else []))).
Proof.
  unfold Notes.main, catch, bind, throw. rewrite fromExistingIndex_cases.
  destruct (supabase_error e); [discriminate|].
  destruct (Js.endsWith url ".pdf"); cbn [negb]; [|discriminate].
  rewrite getPaper_cases.
  destruct (select_answers e).
  - destruct (SupabaseDatabase.matching url (papers_table w)) as [|row rest] eqn:Hm;
      [discriminate|].
    intros [= <- <-]. split; [reflexivity|]. left. split; [reflexivity|]. eauto.
  - unfold Notes.loadPdfFromUrl, Notes.convertPdfToDocuments, Notes.generateNotes,
      SupabaseDatabase.addPaper, catch, bind, throw, ret, lift, record_call.
    destruct (axios_get e url) as [pdf|]; [|discriminate].
    assert ((∃ buf, ∀ w0, (match Notes.some_pages pages with
                           | Some l => λ w1 : world, (Notes.deletePages pdf l, w1)
                           | None => λ w1 : world, (Return pdf, w1)
                           end) w0 = (Return buf, w0)) ∨
              ∃ msg, ∀ w0, (match Notes.some_pages pages with
                            | Some l => λ w1 : world, (Notes.deletePages pdf l, w1)
                            | None => λ w1 : world, (Return pdf, w1)
                            end) w0 = (@Throw content msg, w0)) as Hpdf.
    { destruct (Notes.some_pages pages) as [l|]; [|left; eauto].
      destruct (Notes.deletePages pdf l); [left|right]; eauto. }
    destruct Hpdf as [(buf & Hpdf)|(msg & Hpdf)]; rewrite Hpdf; [|discriminate].
    destruct (loadAndSplit e buf) as [documents|]; [|discriminate].
    destruct (notes_model e (formatDocumentsAsString documents)) as [output|]; [|discriminate].
    destruct (Prompt.outputParser output) as [notes|]; [|discriminate].
    intros H. split; [reflexivity|]. right. split; [reflexivity|]. exists documents, notes.
    destruct (insert_answers e);
      (destruct (embeds e (map (Notes.with_url url) documents)); [|discriminate]);
      injection H as <- <-; cbn; rewrite ?app_nil_r;
      (split; [reflexivity|]); (split; [|split; reflexivity]);
      rewrite !elem_of_app, !list_elem_of_singleton; auto.
Qed.

(** X11: [main] returns in two ways only. With a client that answers the
    select it returns the notes of the first row stored for the URL and
    changes nothing. With a client whose select fails, [getPaper] answers
    null for every URL, so [main] takes the paper for a new one: it asks
    the notes model and inserts one more row for the URL, whatever the
    table holds. *)
Theorem main_returns url name pages v w w' :
  Notes.main e url name pages w = (Return v, w') →
  Js.endsWith url ".pdf" = true
  ∧ ((select_answers e = true
      ∧ ∃ row rest, SupabaseDatabase.matching url (papers_table w) = row :: rest
                    ∧ v = Row.notes row ∧ w' = w)
     ∨ (select_answers e = false
        ∧ ∃ documents notes,
            v = JArr notes
            ∧ AskNotesModel ∈ calls w'
            ∧ fs w' = fs w
            ∧ papers_table w' =
              papers_table w ++
                (if insert_answers e then [inserted_row url name documents notes] else []))).
Proof. apply main_returned. Qed.

(** C4: the hosted paper store does not keep one record per URL. [getPaper]
    answers null when the select fails, [main] takes null for a paper that
    is not stored, and every such call that returns has inserted one more
    row for the URL: a table that held a row for the URL holds two
    afterwards, and its URLs are no longer unique. *)
Theorem main_inserts_a_second_row url name pages v w w' :
  select_answers e = false →
  insert_answers e = true →
  url ∈ map Row.arxiv_url (papers_table w) →
  Notes.main e url name pages w = (Return v, w') →
  (∃ documents notes,
     v = JArr notes
     ∧ papers_table w' = papers_table w ++ [inserted_row url name documents notes])
  ∧ ¬ SupabaseDatabase.urls_unique (papers_table w').
Proof.
  intros Hs Hi Hin H.
  apply main_returned in H as (_ & [(Ht & _)|(_ & documents & notes & -> & _ & _ & Hpt)]);
    [congruence|].
  rewrite Hi in Hpt. split; [eauto|].
  unfold SupabaseDatabase.urls_unique. rewrite Hpt, map_app.
  intros (_ & Hdisjoint & _)%NoDup_app.
  apply (Hdisjoint url Hin). cbn. apply list_elem_of_here.
Qed.

End HostedNotes.

Lemma main_inserts_a_second_row_witness :
  (∃ documents notes,
     JArr [Sample.note1] = JArr notes
     ∧ papers_table (Notes.main env_blind Sample.url1 "Attention" None Sample.world0).2
       = papers_table Sample.world0 ++ [inserted_row Sample.url1 "Attention" documents notes])
  ∧ ¬ SupabaseDatabase.urls_unique
        (papers_table (Notes.main env_blind Sample.url1 "Attention" None Sample.world0).2).
Proof.
  apply (main_inserts_a_second_row env_blind Sample.url1 "Attention" None
           (JArr [Sample.note1]) Sample.world0).
  - reflexivity.
  - reflexivity.
  - apply list_elem_of_here.
  - vm_compute. reflexivity.
Defined.

Lemma main_returns_witness :
  Js.endsWith Sample.url1 ".pdf" = true
  ∧ ((select_answers env_blind = true
      ∧ ∃ row rest, SupabaseDatabase.matching Sample.url1 (papers_table Sample.world0)
                    = row :: rest
                    ∧ JArr [Sample.note1] = Row.notes row
                    ∧ (Notes.main env_blind Sample.url1 "Attention" None Sample.world0).2
                      = Sample.world0)
     ∨ (select_answers env_blind = false
        ∧ ∃ documents notes,
            JArr [Sample.note1] = JArr notes
            ∧ AskNotesModel ∈
                calls (Notes.main env_blind Sample.url1 "Attention" None Sample.world0).2
            ∧ fs (Notes.main env_blind Sample.url1 "Attention" None Sample.world0).2
              = fs Sample.world0
            ∧ papers_table (Notes.main env_blind Sample.url1 "Attention" None Sample.world0).2 =
              papers_table Sample.world0 ++
                (if insert_answers env_blind
                 then [inserted_row Sample.url1 "Attention" documents notes] else []))).
Proof.
  apply (main_returns env_blind Sample.url1 "Attention" None (JArr [Sample.note1])
           Sample.world0).
  vm_compute. reflexivity.
Defined.

(** The table after the sample call: the URL has two rows. *)
Example main_inserts_again :
  map Row.arxiv_url
    (papers_table (Notes.main env_blind Sample.url1 "Attention" None Sample.world0).2)
  = [Sample.url1; Sample.url1].
Proof. vm_compute. reflexivity. Qed.

Section HostedAnswers.
Context (e : env).

(** The values [qaModel] passes to its chain do not name
    [relevantDocuments]: the prompt cannot be formatted, the model is not
    reached, and the [catch] turns the error into "QA failed". *)
Lemma qaModel_throws question documents notes w :
  Qa.qaModel e question documents notes w = (Throw Qa.qa_failed, w).
Proof.
  unfold Qa.qaModel, catch, bind, lift, throw.
  destruct (Qa.notesAsString notes); reflexivity.
Qed.

(** X12: on the hosted path the model is never asked. [qaOnPaper] returns
    only what the table already holds for the question, the first stored
    row, and leaves the world as it is; for every other question it throws
    "AI minus the braids". Whatever it does, it inserts nothing and writes
    nothing, and calls at most the similarity search. *)
Theorem qaOnPaper_never_asks question url w r w' :
  Qa.qaOnPaper e question url w = (r, w') →
  ((∃ row rest,
      select_answers e = true
      ∧ filter (λ r, String.eqb (Row.question r) question = true) (qa_table w) = row :: rest
      ∧ r = Return (JObj [("answer", Row.answer row);
                          ("followupQuestions", Row.followup_questions row)]%string)
      ∧ w' = w)
   ∨ r = Throw Notes.no_braids)
  ∧ fs w' = fs w ∧ papers_table w' = papers_table w ∧ qa_table w' = qa_table w
  ∧ (calls w' = calls w ∨ calls w' = calls w ++ [SimilaritySearch question]).
Proof.
  unfold Qa.qaOnPaper, catch. unfold bind at 1.
  rewrite fromExistingIndex_cases.
  destruct (supabase_error e); [intros [= <- <-]; auto 10|].
  unfold bind at 1.
  unfold SupabaseDatabase.rtrnExistingQa, catch, SupabaseDatabase.select.
  assert (Hrest : ∀ r0 w0,
    (let (o, w1) :=
       bind (SupabaseDatabase.getPaper e url)
         (λ paper,
            let notes := match paper with
                         | Some paper => Row.notes paper
                         | None => JUndefined
                         end in
            if negb (truthy notes) then throw Qa.no_notes else
            bind (record_call (SimilaritySearch question))
              (λ _, bind (lift (match similaritySearch e question url with
                                | Some docs => Return docs
                                | None => Throw "similaritySearch"
                                end))
                      (λ documents,
                         bind (Qa.qaModel e question documents notes)
                           (λ answerAndQuestions,
                              bind (Qa.saveAll e question
                                      (formatDocumentsAsString documents)
                                      answerAndQuestions)
                                (λ _, ret (JArr answerAndQuestions)))))) w in
     match o with
     | Return a => (Return a, w1)
     | Throw _ => throw Notes.no_braids w1
     end) = (r0, w0) →
    r0 = Throw Notes.no_braids
    ∧ fs w0 = fs w ∧ papers_table w0 = papers_table w ∧ qa_table w0 = qa_table w
    ∧ (calls w0 = calls w ∨ calls w0 = calls w ++ [SimilaritySearch question])).
  { intros r0 w0. unfold bind at 1. rewrite getPaper_cases.
    destruct (select_answers e);
      [destruct (SupabaseDatabase.matching url (papers_table w)) as [|row rows]|];
      cbn [truthy negb]; try (intros [= <- <-]; auto 10).
    destruct (negb (truthy (Row.notes row))); [intros [= <- <-]; auto 10|].
    unfold bind at 1, record_call. unfold bind at 1, lift.
    destruct (similaritySearch e question url) as [docs|];
      [|intros [= <- <-]; cbn; auto 10].
    unfold bind at 1. rewrite qaModel_throws. intros [= <- <-]. cbn. auto 10. }
  destruct (select_answers e); cbn [SupabaseDatabase.data].
  - destruct (filter _ (qa_table w)) as [|row rest] eqn:Hf.
    + intros H. apply Hrest in H as (-> & H). auto.
    + intros [= <- <-]. split; [left; exists row, rest; auto|auto].
  - intros H. apply Hrest in H as (-> & H). auto.
Qed.

End HostedAnswers.

Lemma qaOnPaper_never_asks_witness :
  let w' := (Qa.qaOnPaper Sample.env0 "Why scaled?" Sample.url1 Sample.world0).2 in
  ((∃ row rest,
      select_answers Sample.env0 = true
      ∧ filter (λ r, String.eqb (Row.question r) "Why scaled?" = true)
          (qa_table Sample.world0) = row :: rest
      ∧ Throw Notes.no_braids
        = Return (JObj [("answer", Row.answer row);
                        ("followupQuestions", Row.followup_questions row)]%string)
      ∧ w' = Sample.world0)
   ∨ @Throw json Notes.no_braids = Throw Notes.no_braids)
  ∧ fs w' = fs Sample.world0 ∧ papers_table w' = papers_table Sample.world0
  ∧ qa_table w' = qa_table Sample.world0
  ∧ (calls w' = calls Sample.world0
     ∨ calls w' = calls Sample.world0 ++ [SimilaritySearch "Why scaled?"]).
Proof.
  cbv zeta.
  apply (qaOnPaper_never_asks Sample.env0 "Why scaled?" Sample.url1 Sample.world0
           (Throw Notes.no_braids)).
  vm_compute. reflexivity.
Defined.

(** A question the table does not hold is refused, with the model left
    alone. *)
Example qaOnPaper_new_question :
  Qa.qaOnPaper Sample.env0 "Why scaled?" Sample.url1 Sample.world0
  = (Throw Notes.no_braids,
     with_calls [SimilaritySearch "Why scaled?"] Sample.world0).
Proof. vm_compute. reflexivity. Qed.

Section EarlierPipeline.
Context (e : env).

(** X13: the earlier [main] never looks the paper up. Whenever it returns it
    has inserted one more row for the URL, whatever the table held, and
    [saveNotesLocally], called by its [generateNotes], has replaced a
    notes.json that did not know the URL by a file with this paper
    alone. *)
Theorem earlier_main_ingests_every_time url name pages v w w' :
  NotesHosted.main e url name pages w = (Return v, w') →
  ∃ documents notes,
    v = JArr notes
    ∧ papers_table w' =
      papers_table w ++
        (if insert_answers e then [inserted_row url name documents notes] else [])
    ∧ (∀ fields,
         fs w !! Notes.notesPath = Some (File (Encoded (JObj fields))) →
         url ∉ map fst fields →
         fs w' !! Notes.notesPath
         = Some (File (JSON_stringify (JObj [(url, JArr notes)])))).
Proof.
  unfold NotesHosted.main, catch, bind, throw.
  destruct (Js.endsWith url ".pdf") eqn:Hurl; cbn [negb]; [|discriminate].
  apply pdf_plain_key in Hurl as [Hproto _].
  unfold Notes.loadPdfFromUrl, Notes.convertPdfToDocuments, NotesHosted.generateNotes,
    NotesHosted.fromDocuments, SupabaseDatabase.addPaper, catch, bind, throw, ret, lift,
    record_call.
  destruct (axios_get e url) as [pdf|]; [|discriminate].
  assert ((∃ buf, ∀ w0, (match Notes.some_pages pages with
                         | Some l => λ w1 : world, (Notes.deletePages pdf l, w1)
                         | None => λ w1 : world, (Return pdf, w1)
                         end) w0 = (Return buf, w0)) ∨
          ∃ msg, ∀ w0, (match Notes.some_pages pages with
                        | Some l => λ w1 : world, (Notes.deletePages pdf l, w1)
                        | None => λ w1 : world, (Return pdf, w1)
                        end) w0 = (@Throw content msg, w0)) as Hpdf.
  { destruct (Notes.some_pages pages) as [l|]; [|left; eauto].
    destruct (Notes.deletePages pdf l); [left|right]; eauto. }
  destruct Hpdf as [(buf & Hpdf)|(msg & Hpdf)]; rewrite Hpdf; [|discriminate].
  destruct (loadAndSplit e buf) as [documents|]; [|discriminate].
  destruct (notes_model e (formatDocumentsAsString documents)) as [output|]; [|discriminate].
  destruct (Prompt.outputParser output) as [notes|]; [|discriminate].
  match goal with
  | |- context [Notes.saveNotesLocally url notes ?w1] =>
      destruct (Notes.saveNotesLocally url notes w1) as [[[]|msg] w2] eqn:Hsave
  end; [|discriminate].
  destruct (supabase_error e); [discriminate|].
  destruct (embeds e (map (Notes.with_url url) documents)); [|discriminate].
  intros H. exists documents, notes.
  assert (Hw' : fs w' = fs w2 ∧
                papers_table w' = papers_table w2 ++
                  (if insert_answers e then [inserted_row url name documents notes] else [])).
  { destruct (insert_answers e); injection H as <- <-; cbn; rewrite ?app_nil_r; auto. }
  assert (Hv : v = JArr notes) by (destruct (insert_answers e); now injection H as <- <-).
  destruct Hw' as [Hfs Hpt]. split; [exact Hv|]. split.
  - rewrite Hpt. f_equal. rewrite saveNotesLocally_cases in Hsave.
    cbv zeta in Hsave. cbn [fs with_calls] in Hsave.
    repeat case_match; try discriminate; inversion Hsave; reflexivity.
  - intros fields Hp Hin. rewrite Hfs.
    rewrite (saveNotesLocally_overwrites url notes fields) in Hsave
      by (cbn; assumption).
    injection Hsave as <-. cbn. apply lookup_insert_eq.
Qed.

End EarlierPipeline.

Lemma earlier_main_ingests_every_time_witness :
  ∃ documents notes,
    JArr [Sample.note1] = JArr notes
    ∧ papers_table (NotesHosted.main Sample.env0 Sample.url2 "GPT-3" None Sample.world0).2 =
      papers_table Sample.world0 ++
        (if insert_answers Sample.env0
         then [inserted_row Sample.url2 "GPT-3" documents notes] else [])
    ∧ (∀ fields,
         fs Sample.world0 !! Notes.notesPath = Some (File (Encoded (JObj fields))) →
         Sample.url2 ∉ map fst fields →
         fs (NotesHosted.main Sample.env0 Sample.url2 "GPT-3" None Sample.world0).2
           !! Notes.notesPath
         = Some (File (JSON_stringify (JObj [(Sample.url2, JArr notes)])))).
Proof.
  apply (earlier_main_ingests_every_time Sample.env0 Sample.url2 "GPT-3" None
           (JArr [Sample.note1]) Sample.world0).
  vm_compute. reflexivity.
Defined.

Section Invariants.
Context (I : world → Prop).

Lemma keeps_ret {A} (a : A) : keeps I (ret a).
Proof. intros w r w' H [= <- <-]. exact H. Qed.

Lemma keeps_throw {A} msg : keeps I (@throw A msg).
Proof. intros w r w' H [= <- <-]. exact H. Qed.

Lemma keeps_lift {A} (o : outcome A) : keeps I (lift o).
Proof. intros w r w' H [= <- <-]. exact H. Qed.

Lemma keeps_existsSync p : keeps I (Fs.existsSync p).
Proof. intros w r w' H [= <- <-]. exact H. Qed.

Lemma keeps_readFileSync p : keeps I (Fs.readFileSync p).
Proof.
  intros w r w' H. unfold Fs.readFileSync.
  destruct (fs w !! p) as [[c|]|]; intros [= <- <-]; exact H.
Qed.

Lemma keeps_bind {A B} (m : M A) (k : A → M B) :
  keeps I m → (∀ a, keeps I (k a)) → keeps I (bind m k).
Proof.
  intros Hm Hk w r w' H. unfold bind.
  destruct (m w) as [[a|msg] w1] eqn:Hmw.
  - apply (Hk a). exact (Hm _ _ _ H Hmw).
  - intros [= <- <-]. exact (Hm _ _ _ H Hmw).
Qed.

Lemma keeps_catch {A} (m : M A) (h : string → M A) :
  keeps I m → (∀ msg, keeps I (h msg)) → keeps I (catch m h).
Proof.
  intros Hm Hh w r w' H. unfold catch.
  destruct (m w) as [[a|msg] w1] eqn:Hmw.
  - intros [= <- <-]. exact (Hm _ _ _ H Hmw).
  - apply (Hh msg). exact (Hm _ _ _ H Hmw).
Qed.

End Invariants.

Section IndexUntouched.
Context (dir : string) (w0 : world).

Lemma untouched_record_call c :
  c ≠ SaveIndex dir → keeps (index_untouched dir w0) (record_call c).
Proof.
  intros Hc w r w' (Hd & new & Hnew & Hno) [= <- <-]. split; [exact Hd|].
  exists (new ++ [c]). cbn. rewrite Hnew, <- app_assoc. split; [reflexivity|].
  rewrite elem_of_app, list_elem_of_singleton. intros [?|?]; [auto|congruence].
Qed.

Lemma untouched_writeFileSync p c : keeps (index_untouched dir w0) (Fs.writeFileSync p c).
Proof.
  intros w r w' (Hd & Hnew). unfold Fs.writeFileSync.
  destruct (fs w !! p) as [[c'|]|]; intros [= <- <-]; split; auto;
    cbn [fs with_fs]; now apply defined_insert.
Qed.

Lemma untouched_mkdirSync p : keeps (index_untouched dir w0) (Fs.mkdirSync p).
Proof.
  intros w r w' (Hd & Hnew). unfold Fs.mkdirSync.
  destruct (fs w !! p) as [n|]; intros [= <- <-]; split; auto;
    cbn [fs with_fs]; now apply defined_insert.
Qed.

(** The directory is there: the test for it answers yes. *)
Lemma untouched_exists {A} (k : bool → M A) :
  keeps (index_untouched dir w0) (k true) →
  keeps (index_untouched dir w0) (bind (Fs.existsSync dir) k).
Proof.
  intros Hk w r w' H. unfold bind, Fs.existsSync.
  destruct H as (Hd & Hnew). rewrite Hd. apply Hk. now split.
Qed.

End IndexUntouched.

Create HintDb keeps discriminated.
#[global] Hint Resolve keeps_ret keeps_throw keeps_lift keeps_existsSync keeps_readFileSync
  untouched_writeFileSync untouched_mkdirSync : keeps.

Ltac keeps_step :=
  match goal with
  | |- keeps _ (bind (Fs.existsSync (String.append "vector_store/" _)) _) =>
      apply untouched_exists; cbn [negb]
  | |- keeps _ (bind _ _) => apply keeps_bind; [|intros ?]
  | |- keeps _ (catch _ _) => apply keeps_catch; [|intros ?]
  | |- keeps _ (record_call _) => apply untouched_record_call; discriminate
  | |- keeps _ (if ?b then _ else _) => destruct b
  | |- keeps _ (match ?o with _ => _ end) => destruct o
  | |- keeps _ _ => solve [auto with keeps]
  end.

Section SavedOnce.
Context (e : env).

Lemma untouched_mainV2 url name pages w0 :
  keeps (index_untouched (Qa.vector_store_of url) w0) (Notes.mainV2 e url name pages).
Proof.
  unfold Notes.mainV2, Notes.ingest, HnswStore.has_entry, HnswStore.read_entry,
    HnswStore.addPaper, HnswStore.saveToLocalStorage, Notes.loadPdfFromUrl,
    Notes.convertPdfToDocuments, Notes.generateNotes, Qa.vector_store_of.
  repeat keeps_step.
Qed.

(** X14: [mainV2] saves the index only into a directory it has just made.
    Once vector_store/<basename> exists, no call of [mainV2] for the URL
    saves an index, and the directory stays: a save that failed after the
    directory was made is not tried again. *)
Theorem mainV2_saves_index_once url name pages w r w' :
  is_Some (fs w !! Qa.vector_store_of url) →
  Notes.mainV2 e url name pages w = (r, w') →
  is_Some (fs w' !! Qa.vector_store_of url)
  ∧ ∃ new, calls w' = calls w ++ new ∧ SaveIndex (Qa.vector_store_of url) ∉ new.
Proof.
  intros [n Hn] H.
  destruct (untouched_mainV2 url name pages w w r w') as (Hd & Hnew); [|exact H|].
  - split; [now rewrite Hn|]. exists []. rewrite app_nil_r. split; [reflexivity|].
    apply not_elem_of_nil.
  - split; [|exact Hnew]. destruct (fs w' !! Qa.vector_store_of url); [eauto|discriminate].
Qed.

End SavedOnce.

Lemma mainV2_saves_index_once_witness :
  is_Some (fs (Notes.mainV2 Sample.env0 Sample.url1 "Attention" None Sample.world0).2
             !! Qa.vector_store_of Sample.url1)
  ∧ ∃ new, calls (Notes.mainV2 Sample.env0 Sample.url1 "Attention" None Sample.world0).2
           = calls Sample.world0 ++ new
           ∧ SaveIndex (Qa.vector_store_of Sample.url1) ∉ new.
Proof.
  apply (mainV2_saves_index_once Sample.env0 Sample.url1 "Attention" None Sample.world0
           (Return (JArr [Sample.note1]))).
  - eexists. reflexivity.
  - vm_compute. reflexivity.
Defined.

(** A save that fails leaves the directory behind; the next call returns
    the notes and saves no index. *)
Example failed_save_is_not_retried :
  let first := Notes.mainV2 env_unsaved Sample.url1 "Attention" None Sample.empty_world in
  let second := Notes.mainV2 Sample.env0 Sample.url1 "Attention" None first.2 in
  first.1 = Return JNull
  ∧ fs first.2 !! Qa.vector_store_of Sample.url1 = Some Dir
  ∧ second.1 = Return (JArr [Sample.note1])
  ∧ calls second.2
    = calls first.2 ++ [FetchPdf Sample.url1; SplitPdf; EmbedDocuments; AskNotesModel].
Proof. vm_compute. repeat split; reflexivity. Qed.
